(** * cometbft-analyzer-backend: the metrics and event query engine

    A shallow embedding of the query layer of the backend
    (handlers/consensus_events_handler.go, handlers/metrics_handler.go,
    metrics/vote_latencies.go, metrics/network_latency.go, utils/time.go) and
    the properties its specification states about it.

    Conventions of the embedding.
    - A MongoDB collection is the list of its documents; an aggregation
      pipeline is the composition of its stages, each a function on lists
      ([$match] is a filter, [$sort] a sort, [$skip] and [$limit] drop and
      take, [$group] collects the documents of each distinct key).
    - Go's [int] and [int64] are [Z] with the 64-bit wrap-around written out.
    - A [time.Time] and a BSON date are an instant in milliseconds since the
      Unix epoch.
    - A BSON double that is only compared inside the store, or scaled by a
      constant, is a rational; the quotient and the product the store
      computes for the spike percentage, and the [float64] arithmetic that
      Go itself performs in [GetNetworkLatencyOverview], are IEEE-754
      binary64 ([PrimFloat]).
    - Connectivity failures of the store are not modelled: a query on a
      collection yields its documents. *)

From Stdlib Require Import ZArith QArith Qround Lia Ascii String.
From Stdlib Require Import Floats.PrimFloat Floats.SpecFloat Floats.FloatOps.
From Stdlib Require Import Floats.FloatAxioms.
From stdpp Require Import gmap strings list sorting.

Local Open Scope string_scope.
Local Open Scope Z_scope.

(** ** Results of fallible code *)

Inductive result (E A : Type) : Type :=
| Ok (a : A)
| Err (e : E).
Arguments Ok {E A} a.
Arguments Err {E A} e.

Global Instance result_ret {E} : MRet (result E) := λ A a, Ok a.
Global Instance result_bind {E} : MBind (result E) := λ A B k r,
  match r with
  | Ok a => k a
  | Err e => Err e
  end.

(** A loop that stops at the first failing element. *)
Fixpoint rmapM {E A B} (f : A → result E B) (l : list A) : result E (list B) :=
  match l with
  | [] => Ok []
  | x :: l' => y ← f x; ys ← rmapM f l'; Ok (y :: ys)
  end.

(** ** Go integers and [strconv.Atoi] *)

Module GoInt.

Definition minInt : Z := - 2 ^ 63.
Definition maxInt : Z := 2 ^ 63 - 1.

(** Two's complement wrap-around of a 64-bit signed integer. *)
Definition wrap64 (z : Z) : Z := (z + 2 ^ 63) mod 2 ^ 64 - 2 ^ 63.

Definition digit_of (c : ascii) : option Z :=
  let n := Z.of_nat (nat_of_ascii c) in
  if (48 <=? n) && (n <=? 57) then Some (n - 48) else None.

Fixpoint digits_value (acc : Z) (s : string) : option Z :=
  match s with
  | EmptyString => Some acc
  | String c s' =>
      match digit_of c with
      | Some d => digits_value (10 * acc + d) s'
      | None => None
      end
  end.

(** [strconv.Atoi]: an optional sign, then one or more decimal digits; a
    syntax error or a value outside of [int] is an error ([None]). *)
Definition Atoi (s : string) : option Z :=
  let '(neg, body) :=
    match s with
    | String "+"%char r => (false, r)
    | String "-"%char r => (true, r)
    | _ => (false, s)
    end in
  match body with
  | EmptyString => None
  | _ =>
      match digits_value 0 body with
      | Some v =>
          let v' := if neg then - v else v in
          if (minInt <=? v') && (v' <=? maxInt) then Some v' else None
      | None => None
      end
  end.

End GoInt.

(** ** Time *)

Definition Time : Type := Z.

(** The zero value of [time.Time] (January 1, year 1, 00:00 UTC). *)
Definition zeroTime : Time := -62135596800000.
Definition IsZero (t : Time) : bool := bool_decide (t = zeroTime).

Definition Minute : Z := 60000.

(** ** The record store: aggregation stages on lists of documents *)

Module Mongo.
Section stages.
Context {A : Type}.

(** [$match]: the documents that satisfy the condition, in their order. *)
Definition stage_match (P : A → Prop) `{!∀ x, Decision (P x)}
    (l : list A) : list A :=
  filter P l.

(** [$sort] on an integer or date key, ascending. *)
Definition key_le (key : A → Z) : relation A := λ x y, key x ≤ key y.

Global Instance key_le_dec (key : A → Z) x y : Decision (key_le key x y).
Proof. unfold key_le. apply _. Defined.

Definition stage_sort (key : A → Z) (l : list A) : list A :=
  merge_sort (key_le key) l.

(** [$skip]: the store refuses a negative argument. *)
Definition stage_skip (n : Z) (l : list A) : result string (list A) :=
  if n <? 0 then Err "invalid argument to $skip stage"
  else Ok (drop (Z.to_nat n) l).

(** [$limit]: the store refuses an argument that is not positive. *)
Definition stage_limit (n : Z) (l : list A) : result string (list A) :=
  if n <=? 0 then Err "the limit must be positive"
  else Ok (take (Z.to_nat n) l).

(** [$group]: one output per distinct key, with the documents of that key
    in their input order. *)
Definition stage_group {K : Type} `{!EqDecision K} (key : A → K)
    (l : list A) : list (K * list A) :=
  (λ k, (k, filter (λ x, key x = k) l)) <$> remove_dups (key <$> l).

End stages.

(** The double of an integer, as [$divide] and [$multiply] take their
    integer operands: the nearest binary64, ties to even. *)
Definition toDouble (n : Z) : float :=
  SF2Prim (binary_normalize prec emax n 0 false).

End Mongo.

(** ** Requests *)

(** The query string of a request, as [gin.Context] exposes it: [c.Query]
    returns the empty string for a parameter that was not sent. *)
Definition Context : Type := list (string * string).

Fixpoint Query (c : Context) (key : string) : string :=
  match c with
  | [] => ""
  | (k, v) :: c' => if decide (k = key) then v else Query c' key
  end.

(** ** utils/time.go *)

Section TimeWindow.
(** [time.Now().UTC()] and [time.Parse(time.RFC3339, _)] of the Go runtime. *)
Variable now : Time.
Variable ParseRFC3339 : string → option Time.

Definition TimeWindowFromContext (c : Context) : result unit (Time * Time) :=
  let toStr := Query c "to" in
  let fromStr := Query c "from" in
  if decide (fromStr = "" ∧ toStr = "") then
    Ok (now - 1 * Minute, now)
  else
    to ← (if decide (toStr = "") then Ok now
          else match ParseRFC3339 toStr with
               | Some t => Ok t
               | None => Err ()
               end);
    from ← (if decide (fromStr = "") then Ok (to - 1 * Minute)
            else match ParseRFC3339 fromStr with
                 | Some t => Ok t
                 | None => Err ()
                 end);
    Ok (from, to).
End TimeWindow.

(** ** handlers/consensus_events_handler.go *)

Module ConsensusEvents.

(** A document of the events collection. The fields are those the queries
    of this repository read; a field a document does not carry holds the
    zero value of its type. *)
Record Event : Type := {
  type : string;
  eventType : string;
  timestamp : Time;
  nodeId : string;
  height : Z;
  vote_height : Z;
  vote_round : Z;
  vote_validatorIndex : Z;
  recipientPeerId : string;
  sourcePeerId : string
}.

(** The event structs [DecodeConsensusEvent] chooses between. *)
Inductive EventKind : Type :=
| EventP2pVote | EventP2pBlockPart | EventP2pProposal
| EventEnteringNewRound | EventProposeStep | EventEnteringPrevoteStep
| EventEnteringPrecommitStep | EventEnteringPrevoteWaitStep
| EventEnteringPrecommitWaitStep | EventEnteringCommitStep
| EventEnteringWaitStep | EventReceivedProposal
| EventReceivedCompleteProposalBlock | EventScheduledTimeout
| BaseEvent.

Definition kind_of (eventType : string) : EventKind :=
  if decide (eventType = "p2pVote") then EventP2pVote
  else if decide (eventType = "p2pBlockPart") then EventP2pBlockPart
  else if decide (eventType = "p2pProposal") then EventP2pProposal
  else if decide (eventType = "enteringNewRound") then EventEnteringNewRound
  else if decide (eventType = "proposeStep") then EventProposeStep
  else if decide (eventType = "enteringPrevoteStep") then EventEnteringPrevoteStep
  else if decide (eventType = "enteringPrecommitStep") then EventEnteringPrecommitStep
  else if decide (eventType = "enteringPrevoteWaitStep") then EventEnteringPrevoteWaitStep
  else if decide (eventType = "enteringPrecommitWaitStep") then EventEnteringPrecommitWaitStep
  else if decide (eventType = "enteringCommitStep") then EventEnteringCommitStep
  else if decide (eventType = "enteringWaitStep") then EventEnteringWaitStep
  else if decide (eventType = "receivedProposal") then EventReceivedProposal
  else if decide (eventType = "receivedCompleteProposalBlock") then EventReceivedCompleteProposalBlock
  else if decide (eventType = "scheduledTimeout") then EventScheduledTimeout
  else BaseEvent.

Record EventResponse (P : Type) : Type := {
  Event_kind : EventKind;
  Event_payload : P
}.
Arguments Build_EventResponse {P}.
Arguments Event_kind {P}.
Arguments Event_payload {P}.

Record CursorPaginationMeta : Type := {
  Limit : Z;
  HasNext : bool;
  HasPrevious : bool;
  NextCursor : option string;
  PreviousCursor : option string;
  TotalCount : option Z
}.

Record PaginatedEventsResponse (P : Type) : Type := {
  Data : list (EventResponse P);
  Pagination : CursorPaginationMeta
}.
Arguments Build_PaginatedEventsResponse {P}.
Arguments Data {P}.
Arguments Pagination {P}.

(** Excluded event types (p2p events that are not shown). *)
Definition excludedTypes : list string :=
  [ "p2pProposal"; "p2pProposalPOL"; "p2pNewRoundStep"; "p2pHasVote";
    "p2pVoteSetMaj23"; "p2pVoteSetBits"; "p2pHasProposalBlockPart" ].

(** The [timestamp] sub-document of the match conditions: one optional
    bound per operator key. *)
Record TimestampFilter : Type := {
  f_gte : option Time;
  f_lte : option Time;
  f_gt : option Time;
  f_lt : option Time
}.

Definition emptyFilter : TimestampFilter :=
  {| f_gte := None; f_lte := None; f_gt := None; f_lt := None |}.

Definition filter_len (f : TimestampFilter) : nat :=
  length (omap id [f_gte f; f_lte f; f_gt f; f_lt f]).

Record MatchConditions : Type := {
  type_nin : list string;
  timestamp_cond : option TimestampFilter
}.

Definition bound_ok (R : Time → Time → Prop) (b : option Time) (t : Time) : Prop :=
  match b with
  | Some v => R t v
  | None => True
  end.

Definition timestamp_ok (f : TimestampFilter) (t : Time) : Prop :=
  bound_ok Z.ge (f_gte f) t ∧ bound_ok Z.le (f_lte f) t ∧
  bound_ok Z.gt (f_gt f) t ∧ bound_ok Z.lt (f_lt f) t.

Definition matches (m : MatchConditions) (e : Event) : Prop :=
  (type e ∉ type_nin m) ∧
  match timestamp_cond m with
  | Some f => timestamp_ok f (timestamp e)
  | None => True
  end.

Global Instance bound_ok_dec R `{!RelDecision R} b t : Decision (bound_ok R b t).
Proof. destruct b; simpl; apply _. Defined.

Global Instance timestamp_ok_dec f t : Decision (timestamp_ok f t).
Proof. unfold timestamp_ok. apply _. Defined.

Global Instance matches_dec m e : Decision (matches m e).
Proof. unfold matches. destruct (timestamp_cond m); apply _. Defined.

(** The effective page size: 10000 unless [limit] parses to a value in
    (0, 50000]. *)
Definition limit (c : Context) : Z :=
  let limitStr := Query c "limit" in
  if decide (limitStr ≠ "") then
    match GoInt.Atoi limitStr with
    | Some val => if (0 <? val) && (val <=? 50000) then val else 10000
    | None => 10000
    end
  else 10000.

(** The offset of a (1-indexed) segment. *)
Definition skip (c : Context) : Z :=
  let segmentStr := Query c "segment" in
  if decide (segmentStr ≠ "") then
    match GoInt.Atoi segmentStr with
    | Some segment =>
        if 0 <? segment then GoInt.wrap64 ((segment - 1) * limit c) else 0
    | None => 0
    end
  else 0.

Definition HandlerError : Type := (Z * string)%type.
Definition StatusBadRequest : Z := 400.
Definition StatusInternalServerError : Z := 500.

Section Handler.
Variable now : Time.
Variable ParseRFC3339 : string → option Time.
Variable FormatRFC3339 : Time → string.

(** What the driver hands back for a fetched document: the struct of the
    external events package that [bson.Unmarshal] fills for the chosen
    kind (or an error), and the outcome of unmarshalling into a [bson.M]
    followed by the type assertion [doc["timestamp"].(time.Time)]. *)
Variable Payload : Type.
Variable Unmarshal : EventKind → Event → option Payload.
Variable timestampAsTime : Event → option Time.

Definition DecodeConsensusEvent (raw : Event) : result string (EventResponse Payload) :=
  let k := kind_of (eventType raw) in
  match Unmarshal k raw with
  | Some p => Ok {| Event_kind := k; Event_payload := p |}
  | None => Err "failed to decode event"
  end.

(** The match conditions the handler builds from the request. *)
Definition matchConditions (c : Context) : result HandlerError MatchConditions :=
  let fromStr := Query c "from" in
  let toStr := Query c "to" in
  let hasTimeFilter := bool_decide (fromStr ≠ "" ∨ toStr ≠ "") in
  '(fromTime, toTime) ←
    (if hasTimeFilter then
       match TimeWindowFromContext now ParseRFC3339 c with
       | Ok w => Ok w
       | Err _ => Err (StatusBadRequest, "invalid time range")
       end
     else Ok (zeroTime, zeroTime));
  let cursor := Query c "cursor" in
  let before := Query c "before" in
  let timestampFilter :=
    if hasTimeFilter
    then {| f_gte := Some fromTime; f_lte := Some toTime;
            f_gt := None; f_lt := None |}
    else emptyFilter in
  timestampFilter ←
    (if decide (cursor ≠ "") then
       match ParseRFC3339 cursor with
       | Some cursorTime =>
           Ok {| f_gte := f_gte timestampFilter; f_lte := f_lte timestampFilter;
                 f_gt := Some cursorTime; f_lt := f_lt timestampFilter |}
       | None => Err (StatusBadRequest, "invalid cursor format, use RFC3339")
       end
     else Ok timestampFilter);
  timestampFilter ←
    (if decide (before ≠ "") then
       match ParseRFC3339 before with
       | Some beforeTime =>
           Ok {| f_gte := f_gte timestampFilter; f_lte := f_lte timestampFilter;
                 f_gt := f_gt timestampFilter; f_lt := Some beforeTime |}
       | None => Err (StatusBadRequest, "invalid before format, use RFC3339")
       end
     else Ok timestampFilter);
  Ok {| type_nin := excludedTypes;
        timestamp_cond :=
          if decide (0 < filter_len timestampFilter)%nat
          then Some timestampFilter else None |}.

(** The aggregation that fetches the page: match, sort by timestamp,
    skip when the offset is positive, and limit to [limit + 1]. *)
Definition fetch (collection : list Event) (m : MatchConditions)
    (skip fetchLimit : Z) : result string (list Event) :=
  let sorted := Mongo.stage_sort timestamp (Mongo.stage_match (matches m) collection) in
  skipped ← (if 0 <? skip then Mongo.stage_skip skip sorted else Ok sorted);
  Mongo.stage_limit fetchLimit skipped.

(** A fetched row: the decoded event and the timestamp extracted for
    cursor generation (the zero time when the field is not read back as a
    time). *)
Record eventWithTimestamp : Type := {
  ewt_event : EventResponse Payload;
  ewt_timestamp : Time
}.

Definition extractTimestamp (raw : Event) : Time :=
  match timestampAsTime raw with
  | Some ts => ts
  | None => zeroTime
  end.

(** The body of the loop over the result cursor. *)
Definition decodeRow (raw : Event) : result string eventWithTimestamp :=
  decodedEvent ← DecodeConsensusEvent raw;
  Ok {| ewt_event := decodedEvent; ewt_timestamp := extractTimestamp raw |}.

(** Generate a cursor from the row at one end of the page, if any. *)
Definition cursorOf (enabled : bool) (ts : option Time) : option string :=
  match ts with
  | Some t =>
      if enabled && negb (IsZero t) then Some (FormatRFC3339 t) else None
  | None => None
  end.

Definition GetConsensusEventsHandler (collection : list Event) (c : Context)
  : result HandlerError (PaginatedEventsResponse Payload) :=
  conds ← matchConditions c;
  let limit := limit c in
  let cursor := Query c "cursor" in
  let includeTotalCount := bool_decide (Query c "includeTotalCount" = "true") in
  let skip := skip c in
  (* Get total count only if requested *)
  let totalCount :=
    if includeTotalCount
    then Some (Z.of_nat (length (Mongo.stage_match (matches conds) collection)))
    else None in
  (* Fetch limit+1 to determine hasNext *)
  let fetchLimit := limit + 1 in
  rows ←
    match fetch collection conds skip fetchLimit with
    | Ok rows => Ok rows
    | Err _ => Err (StatusInternalServerError, "failed to fetch events")
    end;
  allEventsWithTimestamps ←
    match rmapM decodeRow rows with
    | Ok all => Ok all
    | Err msg => Err (StatusInternalServerError, msg)
    end;
  (* Determine hasNext and trim results if needed *)
  let hasNext := bool_decide (limit < Z.of_nat (length allEventsWithTimestamps)) in
  let eventsToReturn :=
    if hasNext then take (Z.to_nat limit) allEventsWithTimestamps
    else allEventsWithTimestamps in
  let events := ewt_event <$> eventsToReturn in
  (* Determine hasPrevious - true if we used cursor *)
  let hasPrevious := bool_decide (cursor ≠ "") in
  (* Generate cursors *)
  let nextCursor := cursorOf hasNext (ewt_timestamp <$> last eventsToReturn) in
  let previousCursor := cursorOf hasPrevious (ewt_timestamp <$> head eventsToReturn) in
  Ok {| Data := events;
        Pagination := {| Limit := limit;
                         HasNext := hasNext;
                         HasPrevious := hasPrevious;
                         NextCursor := nextCursor;
                         PreviousCursor := previousCursor;
                         TotalCount := totalCount |} |}.

End Handler.

End ConsensusEvents.

(** ** metrics/vote_latencies.go: the latency table and the vote statistics *)

Module VoteLatencies.

(** A document of the vote latency collection ([vote.VoteLatency] of the
    external types package, with the fields this repository reads). *)
Record VoteLatency : Type := {
  vote_height : Z;
  vote_round : Z;
  vote_type : string;
  vote_validatorIndex : Z;
  senderPeerId : string;
  recipientPeerId : string;
  sentTime : Time;
  receivedTime : Time;
  latency : Z;
  status : string
}.

(** [vote.VoteMsgStatusConfirmed] is a constant of the external types
    package; the sibling query [ComputePairwiseLatencyPercentiles] matches
    the same field against the literal below. *)
Definition VoteMsgStatusConfirmed : string := "confirmed".

Record VoteLatencyResult : Type := {
  Data : list VoteLatency;
  Total : Z
}.

Record VoteStatisticsResponse : Type := {
  Sender : string;
  Receiver : string;
  VoteType : string;
  Count : Z;
  P50 : Q;
  P90 : Q;
  P95 : Q;
  P99 : Q;
  Max : Q;
  SpikePerc : float
}.

Global Instance Qle_dec (x y : Q) : Decision (x <= y)%Q.
Proof. unfold Qle. apply _. Defined.

Definition confirmedInWindow (from to : Time) (v : VoteLatency) : Prop :=
  status v = VoteMsgStatusConfirmed ∧ from ≤ sentTime v ∧ sentTime v ≤ to.

Definition aboveThreshold (from to : Time) (threshold : Q) (v : VoteLatency) : Prop :=
  confirmedInWindow from to v ∧ (threshold <= inject_Z (latency v))%Q.

Global Instance confirmedInWindow_dec from to v :
  Decision (confirmedInWindow from to v).
Proof. unfold confirmedInWindow. apply _. Defined.

Global Instance aboveThreshold_dec from to t v :
  Decision (aboveThreshold from to t v).
Proof. unfold aboveThreshold. apply _. Defined.

(** The grouping key of the vote statistics. *)
Definition StatsId : Type := (string * string * string)%type.

Definition stats_id (v : VoteLatency) : StatsId :=
  (senderPeerId v, recipientPeerId v, vote_type v).

Definition compare_id (a b : StatsId) : comparison :=
  match String.compare a.1.1 b.1.1 with
  | Eq =>
      match String.compare a.1.2 b.1.2 with
      | Eq => String.compare a.2 b.2
      | c => c
      end
  | c => c
  end.

Definition id_le {A} (key : A → StatsId) : relation A :=
  λ x y, compare_id (key x) (key y) ≠ Gt.

Global Instance id_le_dec {A} (key : A → StatsId) x y : Decision (id_le key x y).
Proof. unfold id_le. apply _. Defined.

Definition max_of (l : list Z) : Z := foldr Z.max (hd 0 l) l.

Definition first_or_zero (l : list Q) : Q := hd 0%Q l.

(** The document of one group after the [$addFields] stages. *)
Record StatsDoc : Type := {
  _id : StatsId;
  count : Z;
  latencies : list Z;
  p50 : list Q;
  p90 : list Q;
  p95 : list Q;
  p99 : list Q;
  max : Z;
  p95Value : Q;
  spikeThreshold : Q;
  spikes : Z;
  spikePerc : float
}.

(** Convert percentile string to value (and to the key of the result). *)
Definition percentileSwitch (percentile_ : string) : Q * string :=
  if decide (percentile_ = "p50") then (50 # 100, "p50")
  else if decide (percentile_ = "p95") then (95 # 100, "p95")
  else if decide (percentile_ = "p99") then (99 # 100, "p99")
  else (95 # 100, "p95").

Section Queries.
(** The store's [$percentile] accumulator with the approximate method, on
    a non-empty list of latencies. *)
Variable percentile : Q → list Z → Q.

Definition GetVoteLatencies (coll : list VoteLatency) (from to : Time)
    (page perPage : Z) (percentile_ : string) : result string VoteLatencyResult :=
  let '(percentileValue, percentileKey) := percentileSwitch percentile_ in
  (* First get percentile threshold: a [$group] on the constant key gives
     no document when nothing matched. *)
  let matched := Mongo.stage_match (confirmedInWindow from to) coll in
  let percentileResult : gmap string (list Q) :=
    match matched with
    | [] => ∅
    | _ => <["_id" := []]>
             {[ percentileKey := [percentile percentileValue (latency <$> matched)] ]}
    end in
  match percentileResult !! percentileKey with
  | None | Some [] => Ok {| Data := []; Total := 0 |}
  | Some (threshold :: _) =>
      let matchStage := Mongo.stage_match (aboveThreshold from to threshold) in
      let total := Z.of_nat (length (matchStage coll)) in
      let skip := GoInt.wrap64 ((page - 1) * perPage) in
      skipped ← Mongo.stage_skip skip (Mongo.stage_sort sentTime (matchStage coll));
      latencies ← Mongo.stage_limit perPage skipped;
      Ok {| Data := latencies; Total := total |}
  end.

Definition addFields (g : StatsId * list VoteLatency) : StatsDoc :=
  let latencies := latency <$> g.2 in
  let count := Z.of_nat (length g.2) in
  let p95 := [percentile (95 # 100) latencies] in
  let p95Value := first_or_zero p95 in
  let spikeThreshold := (p95Value * 2)%Q in
  let spikes :=
    Z.of_nat (length (filter (λ x, (spikeThreshold <= inject_Z x)%Q) latencies)) in
  {| _id := g.1;
     count := count;
     latencies := latencies;
     p50 := [percentile (50 # 100) latencies];
     p90 := [percentile (90 # 100) latencies];
     p95 := p95;
     p99 := [percentile (99 # 100) latencies];
     max := max_of latencies;
     p95Value := p95Value;
     spikeThreshold := spikeThreshold;
     spikes := spikes;
     spikePerc :=
       (Mongo.toDouble spikes / Mongo.toDouble count * 100)%float |}.

(** Convert nanoseconds to milliseconds and extract percentile values. *)
Definition toResponse (d : StatsDoc) : VoteStatisticsResponse :=
  let ms (l : list Q) := match l with x :: _ => (x / 1000000)%Q | [] => 0%Q end in
  {| Sender := (_id d).1.1;
     Receiver := (_id d).1.2;
     VoteType := (_id d).2;
     Count := count d;
     P50 := ms (p50 d);
     P90 := ms (p90 d);
     P95 := ms (p95 d);
     P99 := ms (p99 d);
     Max := (inject_Z (max d) / 1000000)%Q;
     SpikePerc := spikePerc d |}.

Definition ComputeVoteStatistics (coll : list VoteLatency) (from to : Time)
  : list VoteStatisticsResponse :=
  let matched := Mongo.stage_match (confirmedInWindow from to) coll in
  let grouped := Mongo.stage_group stats_id matched in
  let docs := addFields <$> grouped in
  toResponse <$> merge_sort (id_le _id) docs.

End Queries.

End VoteLatencies.

(** ** handlers/metrics_handler.go: the paged latency table *)

Module MetricsHandler.
Import VoteLatencies.

Definition page (c : Context) : Z :=
  let pageStr := Query c "page" in
  if decide (pageStr ≠ "") then
    match GoInt.Atoi pageStr with
    | Some parsedPage => if 0 <? parsedPage then parsedPage else 1
    | None => 1
    end
  else 1.

(** The effective page size: 100 unless [perPage] parses to a value in
    (0, 1000]. *)
Definition perPage (c : Context) : Z :=
  let perPageStr := Query c "perPage" in
  if decide (perPageStr ≠ "") then
    match GoInt.Atoi perPageStr with
    | Some parsedPerPage =>
        if (0 <? parsedPerPage) && (parsedPerPage <=? 1000)
        then parsedPerPage else 100
    | None => 100
    end
  else 100.

Definition threshold (c : Context) : string :=
  let thresholdStr := Query c "threshold" in
  if decide (thresholdStr ≠ "") then
    if decide (thresholdStr = "p50" ∨ thresholdStr = "p95" ∨ thresholdStr = "p99")
    then thresholdStr else "p95"
  else "p95".

Record VoteLatencyResponse : Type := {
  r_Height : Z;
  r_Round : Z;
  r_Type : string;
  r_ValidatorIdx : Z;
  r_Sender : string;
  r_Receiver : string;
  r_SentTime : Time;
  r_ReceivedTime : Time;
  r_LatencyMs : Q
}.

Record PaginationMeta : Type := {
  Page : Z;
  PerPage : Z;
  m_Total : Z;
  TotalPages : Z
}.

Record PaginatedVoteLatencyResponse : Type := {
  r_Data : list VoteLatencyResponse;
  r_Pagination : PaginationMeta
}.

Section Handler.
Variable now : Time.
Variable ParseRFC3339 : string → option Time.
Variable percentile : Q → list Z → Q.

Definition GetVoteLatenciesHandler (coll : list VoteLatency) (c : Context)
  : result (Z * string) PaginatedVoteLatencyResponse :=
  '(from, to) ←
    match TimeWindowFromContext now ParseRFC3339 c with
    | Ok w => Ok w
    | Err _ => Err (400, "invalid time range")
    end;
  let page := page c in
  let perPage := perPage c in
  let threshold := threshold c in
  result ←
    match GetVoteLatencies percentile coll from to page perPage threshold with
    | Ok r => Ok r
    | Err msg => Err (500, msg)
    end;
  let data :=
    (λ v, {| r_Height := vote_height v;
             r_Round := vote_round v;
             r_Type := vote_type v;
             r_ValidatorIdx := vote_validatorIndex v;
             r_Sender := senderPeerId v;
             r_Receiver := recipientPeerId v;
             r_SentTime := sentTime v;
             r_ReceivedTime := receivedTime v;
             r_LatencyMs := (inject_Z (latency v) / 1000000)%Q |})
      <$> Data result in
  let totalPages :=
    GoInt.wrap64 (GoInt.wrap64 (Total result + perPage - 1) ÷ perPage) in
  Ok {| r_Data := data;
        r_Pagination := {| Page := page;
                           PerPage := perPage;
                           m_Total := Total result;
                           TotalPages := totalPages |} |}.
End Handler.

End MetricsHandler.

(** ** metrics/vote_latencies.go: queries over the events collection *)

Module EventMetrics.
Import ConsensusEvents.

(** The first stage every query of this file starts with. *)
Definition matchTime (from to : Time) (e : Event) : Prop :=
  (from ≤ timestamp e ∧ timestamp e ≤ to) ∧ type e = "sendVote".

Global Instance matchTime_dec from to e : Decision (matchTime from to e).
Proof. unfold matchTime. apply _. Defined.

(** *** 4. Message success and loss rate per block, per pair *)

Record Projected : Type := {
  pr_height : Z;
  pr_pair : list string;
  pr_sent : Z;
  pr_recv : Z
}.

Definition arrayElemAt (l : list string) (i : nat) : string :=
  default "" (l !! i).

Definition project (e : Event) : Projected :=
  {| pr_height := vote_height e;
     pr_pair := if decide (type e = "sendVote")
                then [nodeId e; recipientPeerId e]
                else [sourcePeerId e; nodeId e];
     pr_sent := if decide (type e = "sendVote") then 1 else 0;
     pr_recv := if decide (type e = "receiveVote") then 1 else 0 |}.

Definition group_key (p : Projected) : Z * string * string :=
  (pr_height p, arrayElemAt (pr_pair p) 0, arrayElemAt (pr_pair p) 1).

Definition sum (l : list Z) : Z := foldr Z.add 0 l.

Record MessageSuccessRate : Type := {
  msr_height : Z;
  sender : string;
  receiver : string;
  sentCnt : Z;
  recvCnt : Z;
  successRate : Q
}.

Definition rate_of (g : (Z * string * string) * list Projected) : MessageSuccessRate :=
  let sentCnt := sum (pr_sent <$> g.2) in
  let recvCnt := sum (pr_recv <$> g.2) in
  {| msr_height := g.1.1.1;
     sender := g.1.1.2;
     receiver := g.1.2;
     sentCnt := sentCnt;
     recvCnt := recvCnt;
     successRate := if decide (sentCnt = 0) then 0%Q
                    else (inject_Z recvCnt / inject_Z sentCnt)%Q |}.

Definition ComputeMessageSuccessRate (coll : list Event) (from to : Time)
  : list MessageSuccessRate :=
  let s1 := Mongo.stage_match (matchTime from to) coll in
  let s2 := Mongo.stage_match (λ e, type e ∈ ["sendVote"; "receiveVote"]) s1 in
  let s3 := project <$> s2 in
  let s4 := Mongo.stage_group group_key s3 in
  let s5 := rate_of <$> s4 in
  Mongo.stage_sort msr_height s5.

(** *** 5. Block end-to-end consensus latency per height *)

Record LatencyPoint : Type := {
  lp_height : Z;
  latencyMs : Z
}.

Record BlockConsensusLatency : Type := {
  bcl_height : Z;
  p50Ms : list Q;
  p95Ms : list Q
}.

(** [$lookup] into the collection named [events], for one start event. *)
Definition lookup_latencies (events : list Event) (start : Event) : list LatencyPoint :=
  (λ e, {| lp_height := height start;
           latencyMs := timestamp e - timestamp start |})
    <$> Mongo.stage_match
          (λ e, type e = "receivedCompleteProposalBlock" ∧ height e = height start)
          events.

(** [$unwind]: one document per element of the joined array. *)
Definition unwind (events : list Event) (l : list Event) : list (Event * LatencyPoint) :=
  start ← l; (λ p, (start, p)) <$> lookup_latencies events start.

Section Queries.
Variable percentile : Q → list Z → Q.

Definition ComputeBlockEndToEndLatencyByHeight (events coll : list Event)
    (from to : Time) : list BlockConsensusLatency :=
  let s1 := Mongo.stage_match (matchTime from to) coll in
  let s2 := Mongo.stage_match (λ e, type e = "enteringNewRound") s1 in
  let s3 := unwind events s2 in
  let s4 := Mongo.stage_group (λ d, lp_height d.2) s3 in
  let s5 :=
    (λ g : Z * list (Event * LatencyPoint),
       let input := (λ d, latencyMs d.2) <$> g.2 in
       {| bcl_height := g.1;
          p50Ms := [percentile (50 # 100) input];
          p95Ms := [percentile (95 # 100) input] |}) <$> s4 in
  Mongo.stage_sort bcl_height s5.
End Queries.

(** The join the specification describes: every [enteringNewRound] event
    of the window paired with every [receivedCompleteProposalBlock] event
    of the same height. *)
Definition spec_end_to_end_points (events coll : list Event) (from to : Time)
  : list LatencyPoint :=
  start ← filter (λ e, type e = "enteringNewRound" ∧
                       from ≤ timestamp e ∧ timestamp e ≤ to) coll;
  (λ e, {| lp_height := height start;
           latencyMs := timestamp e - timestamp start |})
    <$> filter (λ e, type e = "receivedCompleteProposalBlock" ∧
                     height e = height start) events.

(** The counts the specification describes for one group of the success
    rate: the [sendVote] and the [receiveVote] events of the window with
    that height, sender and receiver. *)
Definition spec_in_group (from to : Time) (ty : string) (k : Z * string * string)
    (e : Event) : Prop :=
  type e = ty ∧ from ≤ timestamp e ∧ timestamp e ≤ to ∧
  group_key (project e) = k.

Global Instance spec_in_group_dec from to ty k e :
  Decision (spec_in_group from to ty k e).
Proof. unfold spec_in_group. apply _. Defined.

Definition spec_sent_count (coll : list Event) (from to : Time)
    (k : Z * string * string) : Z :=
  Z.of_nat (length (filter (spec_in_group from to "sendVote" k) coll)).

Definition spec_recv_count (coll : list Event) (from to : Time)
    (k : Z * string * string) : Z :=
  Z.of_nat (length (filter (spec_in_group from to "receiveVote" k) coll)).

End EventMetrics.

(** ** metrics/network_latency.go *)

Module NetworkLatency.

(** A decoded BSON value, as a [bson.M] holds it. *)
#[warnings="-register-all"]
Inductive bson : Type :=
| BInt32 (n : Z)
| BInt64 (n : Z)
| BDouble (f : float)
| BString (s : string)
| BDoc (fields : list (string * bson))
| BNull.

Definition M : Type := list (string * bson).

Fixpoint get (doc : M) (key : string) : option bson :=
  match doc with
  | [] => None
  | (k, v) :: doc' => if decide (k = key) then Some v else get doc' key
  end.

(** [float64(n)] of an integer: the nearest binary64, ties to even. *)
Definition float64 (n : Z) : float :=
  SF2Prim (binary_normalize prec emax n 0 false).

Record stat : Type := {
  totalWeightedP95 : float;
  totalCount : Z
}.

Record Acc : Type := {
  messageTypeStats : gmap string stat;
  nodeStats : gmap string stat;
  overallWeightedP95 : float;
  overallCount : Z
}.

Definition accumulate (key : string) (w : float) (n : Z)
    (stats : gmap string stat) : gmap string stat :=
  match stats !! key with
  | Some st =>
      <[key := {| totalWeightedP95 := totalWeightedP95 st + w;
                  totalCount := GoInt.wrap64 (totalCount st + n) |}]> stats
  | None => <[key := {| totalWeightedP95 := w; totalCount := n |}]> stats
  end.

(** The body of the loop over the message types of one document. *)
Definition processMessageType (node1Id node2Id : string) (acc : Acc)
    (entry : string * bson) : Acc :=
  let '(msgType, msgData) := entry in
  match msgData with
  | BDoc msgInfo =>
      match get msgInfo "count", get msgInfo "p95LatencyMs" with
      | Some (BInt32 count), Some (BInt64 p95Latency) =>
          let weightedP95 := (float64 p95Latency * float64 count)%float in
          let mts := accumulate msgType weightedP95 count (messageTypeStats acc) in
          let ns1 := accumulate node1Id (weightedP95 / 2)%float (count ÷ 2) (nodeStats acc) in
          let ns2 := accumulate node2Id (weightedP95 / 2)%float (count ÷ 2) ns1 in
          {| messageTypeStats := mts;
             nodeStats := ns2;
             overallWeightedP95 := (overallWeightedP95 acc + weightedP95)%float;
             overallCount := GoInt.wrap64 (overallCount acc + count) |}
      | _, _ => acc
      end
  | _ => acc
  end.

Definition as_string (v : option bson) : string :=
  match v with
  | Some (BString s) => s
  | _ => ""
  end.

Definition processDocument (acc : Acc) (doc : M) : Acc :=
  let node1Id := as_string (get doc "node1Id") in
  let node2Id := as_string (get doc "node2Id") in
  match get doc "messageTypes" with
  | Some (BDoc messageTypes) =>
      foldl (processMessageType node1Id node2Id) acc messageTypes
  | _ => acc
  end.

Record LatencyInfo : Type := {
  Name : string;
  LatencyMs : float
}.

Record NetworkLatencyOverviewResponse : Type := {
  OverallWeightedAvgP95LatencyMs : float;
  MessageTypeWithHighestAvgP95 : LatencyInfo;
  NodeWithHighestAvgP95 : LatencyInfo;
  MessageTypeLatency : gmap string float;
  NodeLatencyContribution : gmap string float
}.

(** The averages of one table and its highest entry; the table is walked
    in the order of [map_to_list] (Go leaves the order of a map range
    unspecified). *)
Definition averages (stats : gmap string stat) : gmap string float * LatencyInfo :=
  foldl
    (λ (st : gmap string float * LatencyInfo) (kv : string * stat),
       if 0 <? totalCount kv.2 then
         let avgLatency := (totalWeightedP95 kv.2 / float64 (totalCount kv.2))%float in
         (<[kv.1 := avgLatency]> st.1,
          if (LatencyMs st.2 <? avgLatency)%float
          then {| Name := kv.1; LatencyMs := avgLatency |}
          else st.2)
       else st)
    (∅, {| Name := ""; LatencyMs := 0%float |})
    (map_to_list stats).

(** [coll] holds the documents of the summary collection that decode (the
    loop skips a document that does not). *)
Definition GetNetworkLatencyOverview (coll : list M) : NetworkLatencyOverviewResponse :=
  let acc :=
    foldl processDocument
      {| messageTypeStats := ∅; nodeStats := ∅;
         overallWeightedP95 := 0%float; overallCount := 0 |}
      coll in
  let msg := averages (messageTypeStats acc) in
  let node := averages (nodeStats acc) in
  {| OverallWeightedAvgP95LatencyMs :=
       if 0 <? overallCount acc
       then (overallWeightedP95 acc / float64 (overallCount acc))%float
       else 0%float;
     MessageTypeWithHighestAvgP95 := msg.2;
     NodeWithHighestAvgP95 := node.2;
     MessageTypeLatency := msg.1;
     NodeLatencyContribution := node.1 |}.

(** The scenario of the specification: pair (A,B) with
    vote {count 10, p95 100} and pair (B,C) with vote {count 5, p95 200}. *)
Definition summary (n1 n2 : string) (count p95 : Z) : M :=
  [ ("node1Id", BString n1); ("node2Id", BString n2);
    ("messageTypes",
      BDoc [("vote", BDoc [("count", BInt32 count);
                           ("p95LatencyMs", BInt64 p95)])]) ].

Definition scenario : list M :=
  [ summary "A" "B" 10 100; summary "B" "C" 5 200 ].

(** The averages the specification computes for the scenario: the global
    one, and the one of node B with both weights and both counts halved
    exactly. *)
Definition spec_overall_average : float :=
  ((100 * 10 + 200 * 5) / 15)%float.

Definition spec_node_B_average : float :=
  ((100 * 10 / 2 + 200 * 5 / 2) / (10 / 2 + 5 / 2))%float.

(** The claim's "about 133.3", read as: within 0.05 of 133.3. *)
Definition close_to_133_3 (x : float) : bool :=
  (abs (x - 1333 / 10) <? 5 / 100)%float.

End NetworkLatency.

(** ** The vocabulary of the specification of event pagination *)

Module EventsSpec.
Import ConsensusEvents.

Section Spec.
Variable now : Time.
Variable ParseRFC3339 : string → option Time.
Variable Payload : Type.
Variable Unmarshal : EventKind → Event → option Payload.

(** A request is well formed when every timestamp it carries parses. *)
Definition valid_request (c : Context) : Prop :=
  (Query c "from" ≠ "" ∨ Query c "to" ≠ "" →
   ∃ w, TimeWindowFromContext now ParseRFC3339 c = Ok w) ∧
  (Query c "cursor" ≠ "" → is_Some (ParseRFC3339 (Query c "cursor"))) ∧
  (Query c "before" ≠ "" → is_Some (ParseRFC3339 (Query c "before"))).

(** Every stored document decodes into the struct of its kind. *)
Definition decodable (collection : list Event) : Prop :=
  ∀ e, e ∈ collection → is_Some (Unmarshal (kind_of (eventType e)) e).

(** The records a request selects: not of an excluded type, inside the
    time window when one is given, strictly after the cursor and strictly
    before [before]. *)
Definition selected (c : Context) (e : Event) : Prop :=
  (type e ∉ excludedTypes) ∧
  (Query c "from" ≠ "" ∨ Query c "to" ≠ "" →
   ∀ w, TimeWindowFromContext now ParseRFC3339 c = Ok w →
        w.1 ≤ timestamp e ∧ timestamp e ≤ w.2) ∧
  (Query c "cursor" ≠ "" →
   ∀ t, ParseRFC3339 (Query c "cursor") = Some t → t < timestamp e) ∧
  (Query c "before" ≠ "" →
   ∀ t, ParseRFC3339 (Query c "before") = Some t → timestamp e < t).

Definition ascending : relation Event := λ x y, timestamp x ≤ timestamp y.

(** The rows one query fetches out of the selected, sorted records. *)
Definition fetched (c : Context) (rows : list Event) : list Event :=
  take (Z.to_nat (limit c + 1)) (drop (Z.to_nat (skip c)) rows).

End Spec.

Section Response.
Variable FormatRFC3339 : Time → string.
Variable Payload : Type.
Variable timestampAsTime : Event → option Time.

(** The response assembled from the rows one query fetched and their
    decodings. *)
Definition response_of (c : Context) (total : Z) (rows : list Event)
    (decoded : list (EventResponse Payload)) : PaginatedEventsResponse Payload :=
  {| Data := take (Z.to_nat (limit c)) decoded;
     Pagination :=
       {| Limit := limit c;
          HasNext := bool_decide (limit c < Z.of_nat (length rows));
          HasPrevious := bool_decide (Query c "cursor" ≠ "");
          NextCursor :=
            cursorOf FormatRFC3339
              (bool_decide (limit c < Z.of_nat (length rows)))
              (extractTimestamp timestampAsTime
                 <$> last (take (Z.to_nat (limit c)) rows));
          PreviousCursor :=
            cursorOf FormatRFC3339
              (bool_decide (Query c "cursor" ≠ ""))
              (extractTimestamp timestampAsTime
                 <$> head (take (Z.to_nat (limit c)) rows));
          TotalCount :=
            if bool_decide (Query c "includeTotalCount" = "true")
            then Some total else None |} |}.

End Response.

End EventsSpec.

(** ** The vocabulary of the specification of the latency queries *)

Module LatencySpec.
Import VoteLatencies.

(** The percentile a threshold key asks for; an unknown key asks for p95. *)
Definition requested_percentile (p : string) : Q :=
  if decide (p = "p50") then 50 # 100
  else if decide (p = "p99") then 99 # 100
  else 95 # 100.

Definition by_sentTime : relation VoteLatency :=
  λ x y, sentTime x ≤ sentTime y.

(** Ordinary offset pagination. *)
Definition page_of {A} (page perPage : Z) (full : list A) : list A :=
  take (Z.to_nat perPage) (drop (Z.to_nat ((page - 1) * perPage)) full).

Section Spec.
Variable percentile : Q → list Z → Q.

(** The threshold T: the requested percentile of the latency over all
    confirmed samples of the window. *)
Definition threshold_of (coll : list VoteLatency) (from to : Time) (p : string) : Q :=
  percentile (requested_percentile p)
    (latency <$> filter (confirmedInWindow from to) coll).

(** The samples of one group of the vote statistics. *)
Definition in_group (from to : Time) (k : StatsId) (v : VoteLatency) : Prop :=
  confirmedInWindow from to v ∧ stats_id v = k.

Global Instance in_group_dec from to k v : Decision (in_group from to k v).
Proof. unfold in_group. apply _. Defined.

Definition group_p95 (group : list VoteLatency) : Q :=
  percentile (95 # 100) (latency <$> group).

Definition is_spike (group : list VoteLatency) (v : VoteLatency) : Prop :=
  (2 * group_p95 group <= inject_Z (latency v))%Q.

Global Instance is_spike_dec group v : Decision (is_spike group v).
Proof. unfold is_spike. apply _. Defined.

Definition spike_count (group : list VoteLatency) : Z :=
  Z.of_nat (length (filter (is_spike group) group)).

End Spec.

End LatencySpec.

(** ** Sample data *)

(** Concrete requests and collections on which the definitions are run. The
    clock and the two-entry RFC 3339 table stand in for Go's [time] package. *)
Module Samples.
Import ConsensusEvents.

Definition t0 : Time := 1704067200000.
Definition t1 : Time := 1704067201000.
Definition t2 : Time := 1704067202000.

Definition clock : Time := 1704067260000.

Definition parse (s : string) : option Time :=
  if decide (s = "2024-01-01T00:00:00Z") then Some t0
  else if decide (s = "2024-01-01T00:00:01Z") then Some t1
  else if decide (s = "2024-01-01T00:00:02Z") then Some t2
  else None.

Definition format (t : Time) : string :=
  if decide (t = t0) then "2024-01-01T00:00:00Z"
  else if decide (t = t1) then "2024-01-01T00:00:01Z"
  else if decide (t = t2) then "2024-01-01T00:00:02Z"
  else "".

Definition event (ty : string) (ts : Time) : Event :=
  {| type := ty; eventType := ty; timestamp := ts; nodeId := "";
     height := 0; vote_height := 0; vote_round := 0;
     vote_validatorIndex := 0; recipientPeerId := ""; sourcePeerId := "" |}.

Definition vote (ty : string) (ts : Time) (h : Z) (node recipient source : string)
  : Event :=
  {| type := ty; eventType := ty; timestamp := ts; nodeId := node;
     height := 0; vote_height := h; vote_round := 0;
     vote_validatorIndex := 0; recipientPeerId := recipient;
     sourcePeerId := source |}.

Definition step (ty : string) (ts : Time) (h : Z) : Event :=
  {| type := ty; eventType := ty; timestamp := ts; nodeId := "";
     height := h; vote_height := 0; vote_round := 0;
     vote_validatorIndex := 0; recipientPeerId := ""; sourcePeerId := "" |}.

(** The driver of the sample runs decodes every document and reads every
    timestamp back as a time. *)
Definition unmarshal (k : EventKind) (e : Event) : option Event := Some e.
Definition asTime (e : Event) : option Time := Some (timestamp e).

Definition handler : list Event → Context → _ :=
  GetConsensusEventsHandler clock parse format Event unmarshal asTime.

Definition three_events : list Event :=
  [ event "enteringNewRound" t2; event "p2pHasVote" t1;
    event "proposeStep" t1; event "enteringNewRound" t0 ].

Definition one_event : list Event := [ event "enteringNewRound" t0 ].

(** One row per page, after the first instant. *)
Definition second_page : Context :=
  [ ("limit", "1"); ("cursor", "2024-01-01T00:00:00Z");
    ("includeTotalCount", "true") ].

(** A nearest-rank percentile stands in for the store's accumulator. *)
Definition percentile (p : Q) (l : list Z) : Q :=
  let sorted := merge_sort Z.le l in
  let rank := Qceiling (p * inject_Z (Z.of_nat (length l))) in
  inject_Z (nth (Z.to_nat (rank - 1)) sorted 0).

Definition sample (sent received : Time) (st : string) : VoteLatencies.VoteLatency :=
  {| VoteLatencies.vote_height := 7;
     VoteLatencies.vote_round := 0;
     VoteLatencies.vote_type := "prevote";
     VoteLatencies.vote_validatorIndex := 1;
     VoteLatencies.senderPeerId := "A";
     VoteLatencies.recipientPeerId := "B";
     VoteLatencies.sentTime := sent;
     VoteLatencies.receivedTime := received;
     VoteLatencies.latency := received - sent;
     VoteLatencies.status := st |}.

(** Three sends at 0, 1, 2 received at 5, 3, 10, and a send never
    received. *)
Definition samples : list VoteLatencies.VoteLatency :=
  [ sample 2 10 "confirmed"; sample 0 5 "confirmed";
    sample 1 3 "confirmed"; sample 3 3 "unconfirmed" ].

Definition unconfirmed_only : list VoteLatencies.VoteLatency :=
  [ sample 3 3 "unconfirmed" ].

(** A vote sent by A to B at height 1 and its reception by B. *)
Definition sent_and_received : list Event :=
  [ vote "sendVote" t0 1 "A" "B" ""; vote "receiveVote" t1 1 "B" "" "A" ].

(** One round of height 5: entered at [t0], block complete at [t1]. *)
Definition one_round : list Event :=
  [ step "enteringNewRound" t0 5; step "receivedCompleteProposalBlock" t1 5 ].

End Samples.

(** ** Further vocabulary *)

Module EventErrors.

(** The three refusals of a malformed event request. *)
Definition refusals : list string :=
  [ "invalid time range"; "invalid cursor format, use RFC3339";
    "invalid before format, use RFC3339" ].

End EventErrors.

Module LatencyPages.
Import VoteLatencies LatencySpec.

Section Spec.
Variable percentile : Q → list Z → Q.

(** All the samples at or above the threshold, in the order of the table. *)
Definition above_sorted (coll : list VoteLatency) (from to : Time) (p : string)
  : list VoteLatency :=
  Mongo.stage_sort sentTime
    (filter (aboveThreshold from to (threshold_of percentile coll from to p)) coll).

End Spec.

(** The sum of a list of integers. *)
Definition total (l : list Z) : Z := foldr Z.add 0 l.

(** The group a row of the vote statistics stands for. *)
Definition row_key (r : VoteStatisticsResponse) : StatsId :=
  (Sender r, Receiver r, VoteType r).

End LatencyPages.

Module SuccessRateSpec.
Import EventMetrics.

(** The group a row of the success rate stands for. *)
Definition rate_key (r : MessageSuccessRate) : Z * string * string :=
  (msr_height r, sender r, receiver r).

End SuccessRateSpec.

(** ** metrics/vote_latencies.go: the block latency time series *)

Module BlockLatencyTimeSeries.
Import ConsensusEvents EventMetrics.

(** A document of the [$lookup] sub-pipeline after its [$project]. *)
Record RecvDoc : Type := {
  rd_height : Z;
  rd_sender : string;
  rd_receiver : string;
  rd_latencyMs : Z
}.

(** The [$expr] of the sub-pipeline, with the variables of [let] bound to
    the fields of the sending event. *)
Definition recvMatch (send e : Event) : Prop :=
  type e = "receiveVote" ∧
  vote_height e = vote_height send ∧
  vote_round e = vote_round send ∧
  vote_validatorIndex e = vote_validatorIndex send ∧
  sourcePeerId e = nodeId send ∧
  nodeId e = recipientPeerId send.

Global Instance recvMatch_dec send e : Decision (recvMatch send e).
Proof. unfold recvMatch. apply _. Defined.

(** [$lookup] into the collection named [events], for one sending event;
    [$subtract] of two dates is their distance in milliseconds. *)
Definition recvDocs (events : list Event) (send : Event) : list RecvDoc :=
  (λ e, {| rd_height := vote_height send;
           rd_sender := nodeId send;
           rd_receiver := recipientPeerId send;
           rd_latencyMs := timestamp e - timestamp send |})
    <$> Mongo.stage_match (recvMatch send) events.

(** The documents the pipeline yields: [$unwind] and [$replaceRoot] leave
    one document per joined reception. *)
Definition pipeline (events coll : list Event) (from to : Time) : list RecvDoc :=
  let s1 := Mongo.stage_match (matchTime from to) coll in
  let s2 := Mongo.stage_match (λ e, type e = "sendVote") s1 in
  let s3 := send ← s2; recvDocs events send in
  Mongo.stage_sort rd_height s3.

Section Queries.
Variable BlockLatencyPoint : Type.
(** [cur.All]: the driver decodes the documents into the result slice. *)
Variable All : list RecvDoc → result string (list BlockLatencyPoint).

Definition ComputeBlockLatencyTimeSeries (events coll : list Event)
    (from to : Time) : result string (list BlockLatencyPoint) :=
  All (pipeline events coll from to).
End Queries.

End BlockLatencyTimeSeries.

(** ** The vocabulary of the network overview *)

Module OverviewSpec.
Import NetworkLatency.

(** The message type entries of one summary document. *)
Definition entries (doc : M) : list (string * bson) :=
  match get doc "messageTypes" with
  | Some (BDoc messageTypes) => messageTypes
  | _ => []
  end.

(** The count and the 95th percentile of an entry that carries both with
    the types the loop asserts ([int32] and [int64]). *)
Definition counted (msgData : bson) : option (Z * Z) :=
  match msgData with
  | BDoc msgInfo =>
      match get msgInfo "count", get msgInfo "p95LatencyMs" with
      | Some (BInt32 count), Some (BInt64 p95Latency) => Some (count, p95Latency)
      | _, _ => None
      end
  | _ => None
  end.

(** No entry is named as the highest one. *)
Definition unnamed : LatencyInfo := {| Name := ""; LatencyMs := 0%float |}.

End OverviewSpec.

(** ** middleware: the rate limiter *)

Module RateLimit.

(** A rate-limited client. *)
Record Client : Type := {
  tokens : Z;
  lastSeen : Time
}.

Record RateLimiter : Type := {
  clients : gmap string Client;
  rate : Z;
  burst : Z;
  window : Z
}.

(** [time.Minute] and [time.Hour], as durations in nanoseconds. *)
Definition DurationMinute : Z := 60 * 1000000000.
Definition DurationHour : Z := 3600 * 1000000000.

Definition NewRateLimiter (rate burst : Z) : RateLimiter :=
  {| clients := ∅; rate := rate; burst := burst; window := DurationMinute |}.

Definition min (a b : Z) : Z := if a <? b then a else b.

Section Clock.
(** [t.Sub(u)], [d.Seconds()] and Go's conversion of a [float64] to an
    [int]. *)
Variable Sub : Time → Time → Z.
Variable Seconds : Z → float.
Variable int : float → Z.

Definition tokensToAdd (rl : RateLimiter) (elapsed : Z) : Z :=
  int (Seconds elapsed * NetworkLatency.float64 (rate rl) / 60)%float.

(** [Allow] at the instant [now]: the limiter after the call and the
    answer. *)
Definition Allow (rl : RateLimiter) (now : Time) (clientID : string)
  : RateLimiter * bool :=
  let store (client : Client) :=
    {| clients := <[clientID := client]> (clients rl);
       rate := rate rl; burst := burst rl; window := window rl |} in
  match clients rl !! clientID with
  | None =>
      (store {| tokens := GoInt.wrap64 (burst rl - 1); lastSeen := now |}, true)
  | Some client =>
      let elapsed := Sub now (lastSeen client) in
      let tokens := min (GoInt.wrap64 (tokens client + tokensToAdd rl elapsed))
                        (burst rl) in
      if 0 <? tokens
      then (store {| tokens := GoInt.wrap64 (tokens - 1); lastSeen := now |}, true)
      else (store {| tokens := tokens; lastSeen := now |}, false)
  end.

(** One tick of [cleanup] at the instant [now]. *)
Definition cleanup (rl : RateLimiter) (now : Time) : RateLimiter :=
  {| clients :=
       filter (λ kv : string * Client,
                 ¬ (DurationHour < Sub now (lastSeen kv.2)))
              (clients rl);
     rate := rate rl; burst := burst rl; window := window rl |}.

(** [n] calls of [Allow] by one client at the instant [now]. *)
Fixpoint requests (rl : RateLimiter) (now : Time) (clientID : string) (n : nat)
  : RateLimiter * list bool :=
  match n with
  | O => (rl, [])
  | S n' =>
      let '(rl', ok) := Allow rl now clientID in
      let '(rl'', oks) := requests rl' now clientID n' in
      (rl'', ok :: oks)
  end.

End Clock.

End RateLimit.

(** ** middleware and main.go: the way of a request to its handler *)

Module Middleware.

Record Request : Type := {
  Method : string;
  Header : list (string * string);
  ClientIP : string
}.

(** [c.GetHeader]: the first value sent under the key, or the empty
    string. *)
Definition GetHeader (r : Request) (key : string) : string :=
  Query (Header r) key.

(** The context of one request: what has been set on the writer, the
    status and the JSON fields written, and whether the chain was
    aborted. *)
Record Ctx : Type := {
  request : Request;
  WriterHeader : gmap string string;
  written : option (Z * list (string * string));
  aborted : bool
}.

Definition fresh (r : Request) : Ctx :=
  {| request := r; WriterHeader := ∅; written := None; aborted := false |}.

Definition Set_ (key value : string) (c : Ctx) : Ctx :=
  {| request := request c;
     WriterHeader := <[key := value]> (WriterHeader c);
     written := written c;
     aborted := aborted c |}.

Definition JSON (status : Z) (body : list (string * string)) (c : Ctx) : Ctx :=
  {| request := request c;
     WriterHeader := WriterHeader c;
     written := Some (status, body);
     aborted := aborted c |}.

Definition Abort (c : Ctx) : Ctx :=
  {| request := request c;
     WriterHeader := WriterHeader c;
     written := written c;
     aborted := true |}.

Definition AbortWithStatus (status : Z) (c : Ctx) : Ctx :=
  Abort (JSON status [] c).

(** [strings.Contains]. *)
Fixpoint Contains (s substr : string) : bool :=
  String.prefix substr s ||
  match s with
  | EmptyString => false
  | String _ s' => Contains s' substr
  end.

Definition SecurityHeadersMiddleware (c : Ctx) : Ctx :=
  Set_ "Server" ""
    (Set_ "Referrer-Policy" "strict-origin-when-cross-origin"
      (Set_ "Content-Security-Policy" "default-src 'self'"
        (Set_ "X-Frame-Options" "DENY"
          (Set_ "X-XSS-Protection" "1; mode=block"
            (Set_ "X-Content-Type-Options" "nosniff" c))))).

Definition allowedOrigins : list string :=
  [ "http://localhost:3000"; "http://localhost:3001"; "https://yourdomain.com" ].

Definition CORSMiddleware (c : Ctx) : Ctx :=
  let origin := GetHeader (request c) "Origin" in
  let isAllowed := bool_decide (origin ∈ allowedOrigins) in
  let c1 := if isAllowed then Set_ "Access-Control-Allow-Origin" origin c else c in
  let c2 := Set_ "Access-Control-Allow-Credentials" "true" c1 in
  let c3 :=
    Set_ "Access-Control-Allow-Headers"
      "Content-Type, Content-Length, Accept-Encoding, X-CSRF-Token, Authorization, accept, origin, Cache-Control, X-Requested-With"
      c2 in
  let c4 := Set_ "Access-Control-Allow-Methods" "POST, OPTIONS, GET, PUT, DELETE" c3 in
  let c5 := Set_ "Access-Control-Max-Age" "86400" c4 in
  if decide (Method (request c) = "OPTIONS")
  then AbortWithStatus 204 c5
  else c5.

(** The context of a request when the validation takes over. *)
Definition announced (r : Request) : Ctx :=
  CORSMiddleware (SecurityHeadersMiddleware (fresh r)).

Definition suspiciousPatterns : list string :=
  [ "sqlmap"; "nmap"; "nikto"; "scanner"; "crawler" ].

Section Validation.
(** [strings.ToLower]. *)
Variable ToLower : string → string.

Definition RequestValidationMiddleware (c : Ctx) : Ctx :=
  let method := Method (request c) in
  let contentType := GetHeader (request c) "Content-Type" in
  if bool_decide (method = "POST" ∨ method = "PUT" ∨ method = "PATCH")
     && negb (Contains contentType "application/json")
     && negb (Contains contentType "multipart/form-data")
  then Abort (JSON 415
                [("error", "Content-Type must be application/json or multipart/form-data")] c)
  else
    let accept := GetHeader (request c) "Accept" in
    if bool_decide (accept ≠ "")
       && negb (Contains accept "application/json")
       && negb (Contains accept "*/*")
    then Abort (JSON 406
                  [("error", "API only supports application/json responses")] c)
    else
      let userAgent := GetHeader (request c) "User-Agent" in
      if existsb (λ pattern, Contains (ToLower userAgent) pattern) suspiciousPatterns
      then Abort (JSON 403 [("error", "Request rejected")] c)
      else c.
End Validation.

(** The context of the request together with the limiter the middleware
    closes over. *)
Record State : Type := {
  ctx : Ctx;
  limiter : RateLimit.RateLimiter
}.

Definition lift (h : Ctx → Ctx) (s : State) : State :=
  {| ctx := h (ctx s); limiter := limiter s |}.

Section Chain.
Variable Sub : Time → Time → Z.
Variable Seconds : Z → float.
Variable int : float → Z.
Variable ToLower : string → string.

Definition RateLimitMiddleware (now : Time) (s : State) : State :=
  let clientID := ClientIP (request (ctx s)) in
  let '(rl, ok) := RateLimit.Allow Sub Seconds int (limiter s) now clientID in
  if negb ok
  then {| ctx := Abort (JSON 429 [("error", "Rate limit exceeded");
                                  ("retry_after", "60s")] (ctx s));
          limiter := rl |}
  else {| ctx := ctx s; limiter := rl |}.

(** The handlers of a chain run in turn until one of them aborts (each
    middleware of this repository calls [c.Next] as its last step, or
    aborts and returns). *)
Definition run (chain : list (State → State)) (s : State) : State :=
  foldl (λ s h, if aborted (ctx s) then s else h s) s chain.

(** The chain [main] installs in front of every route. *)
Definition router (now : Time) (route : Ctx → Ctx) : list (State → State) :=
  [ lift SecurityHeadersMiddleware;
    lift CORSMiddleware;
    lift (RequestValidationMiddleware ToLower);
    RateLimitMiddleware now;
    lift route ].

Definition serve (now : Time) (route : Ctx → Ctx) (r : Request)
    (rl : RateLimit.RateLimiter) : State :=
  run (router now route) {| ctx := fresh r; limiter := rl |}.
End Chain.

(** What the validation asks of a request. *)
Definition acceptable (ToLower : string → string) (r : Request) : Prop :=
  (Method r = "POST" ∨ Method r = "PUT" ∨ Method r = "PATCH" →
   Contains (GetHeader r "Content-Type") "application/json" = true ∨
   Contains (GetHeader r "Content-Type") "multipart/form-data" = true) ∧
  (GetHeader r "Accept" ≠ "" →
   Contains (GetHeader r "Accept") "application/json" = true ∨
   Contains (GetHeader r "Accept") "*/*" = true) ∧
  (∀ pattern, pattern ∈ suspiciousPatterns →
   Contains (ToLower (GetHeader r "User-Agent")) pattern = false).

End Middleware.

(** ** handlers: the first steps of CreateSimulationHandler *)

Module Simulations.

(** [s[:high]]: a slice expression panics when [high] is beyond the
    length of the string. *)
Definition slice_to (s : string) (high : nat) : option string :=
  if (high <=? String.length s)%nat then Some (substring 0 high s) else None.

Inductive Body : Type := MultipartForm | JSONBody.

(** How far the handler gets before it reads the request: it answers, it
    panics, or it goes on to read a body of one of the two kinds. *)
Inductive Dispatch : Type :=
| Answers (status : Z) (error : string)
| Panics
| Reads (body : Body).

Section Handler.
(** [primitive.ObjectIDFromHex] accepts the string. *)
Variable ObjectIDFromHex : string → bool.

Definition CreateSimulationHandler (projectID userID contentType : string)
  : Dispatch :=
  if negb (ObjectIDFromHex projectID) then Answers 400 "Invalid project ID"
  else if negb (ObjectIDFromHex userID) then Answers 400 "Invalid user ID"
  else if decide (contentType ≠ "") then
    match slice_to contentType 19 with
    | None => Panics
    | Some head =>
        if decide (head = "multipart/form-data")
        then Reads MultipartForm else Reads JSONBody
    end
  else Reads JSONBody.
End Handler.

End Simulations.

(** ** Deciding the selection of a request *)

Module EventSelection.
Import ConsensusEvents EventsSpec.

Global Instance forall_Ok_dec {E A} (r : result E A) (P : A → Prop)
    `{!∀ a, Decision (P a)} : Decision (∀ a, r = Ok a → P a).
Proof.
  destruct r as [a|err].
  - destruct (decide (P a)) as [Hp|Hp].
    + left. by intros ? [= <-].
    + right. intros Hall. apply Hp. by apply Hall.
  - left. by intros ? ?.
Defined.

Global Instance forall_Some_dec {A} (o : option A) (P : A → Prop)
    `{!∀ a, Decision (P a)} : Decision (∀ a, o = Some a → P a).
Proof.
  destruct o as [a|].
  - destruct (decide (P a)) as [Hp|Hp].
    + left. by intros ? [= <-].
    + right. intros Hall. apply Hp. by apply Hall.
  - left. by intros ? ?.
Defined.

Global Instance selected_dec now ParseRFC3339 c e :
  Decision (selected now ParseRFC3339 c e).
Proof. unfold selected. apply _. Defined.

End EventSelection.

(** ** The vocabulary of the block latency time series *)

Module TimeSeriesSpec.
Import ConsensusEvents BlockLatencyTimeSeries.

(** Every stored document of the one collection with every stored
    document of the other. *)
Definition pairs (coll events : list Event) : list (Event * Event) :=
  send ← coll; (λ recv, (send, recv)) <$> events.

(** A vote sent in the window, and its reception. *)
Definition answered (from to : Time) (p : Event * Event) : Prop :=
  type p.1 = "sendVote" ∧ from ≤ timestamp p.1 ∧ timestamp p.1 ≤ to ∧
  type p.2 = "receiveVote" ∧
  vote_height p.2 = vote_height p.1 ∧
  vote_round p.2 = vote_round p.1 ∧
  vote_validatorIndex p.2 = vote_validatorIndex p.1 ∧
  sourcePeerId p.2 = nodeId p.1 ∧
  nodeId p.2 = recipientPeerId p.1.

Global Instance answered_dec from to p : Decision (answered from to p).
Proof. unfold answered. apply _. Defined.

Definition point (p : Event * Event) : RecvDoc :=
  {| rd_height := vote_height p.1;
     rd_sender := nodeId p.1;
     rd_receiver := recipientPeerId p.1;
     rd_latencyMs := timestamp p.2 - timestamp p.1 |}.

End TimeSeriesSpec.

Module MoreSamples.

(** The request that follows [Samples.second_page]. *)
Definition third_page : Context :=
  [ ("limit", "1"); ("cursor", "2024-01-01T00:00:01Z");
    ("includeTotalCount", "true") ].

(** Two confirmed votes sent at [t0] and [t1]. *)
Definition timed_samples : list VoteLatencies.VoteLatency :=
  [ Samples.sample Samples.t1 Samples.t2 "confirmed";
    Samples.sample Samples.t0 Samples.t1 "confirmed" ].

Definition window_request : Context :=
  [ ("from", "2024-01-01T00:00:00Z"); ("to", "2024-01-01T00:00:02Z");
    ("perPage", "1"); ("threshold", "p50") ].

(** The largest page number a Go int holds. *)
Definition far_page : Context :=
  [ ("from", "2024-01-01T00:00:00Z"); ("to", "2024-01-01T00:00:02Z");
    ("page", "9223372036854775807") ].

(** A summary whose count was stored as a 64-bit integer. *)
Definition wide_count : NetworkLatency.M :=
  [ ("node1Id", NetworkLatency.BString "A");
    ("node2Id", NetworkLatency.BString "B");
    ("messageTypes",
      NetworkLatency.BDoc
        [("vote", NetworkLatency.BDoc
                    [("count", NetworkLatency.BInt64 10);
                     ("p95LatencyMs", NetworkLatency.BInt64 100)])]) ].

(** The clock of the limiter runs in nanoseconds. *)
Definition sub (t u : Time) : Z := t - u.

Definition seconds (d : Z) : float :=
  (NetworkLatency.float64 (d ÷ 1000000000)
   + NetworkLatency.float64 (Z.rem d 1000000000)
     / NetworkLatency.float64 1000000000)%float.

(** The conversion of a [float64] to an [int] that truncates, and yields
    the smallest integer where the value has no place. *)
Definition truncate (f : float) : Z :=
  match Prim2SF f with
  | S754_zero _ => 0
  | S754_finite s m e =>
      let magnitude :=
        if 0 <=? e then Z.pos m * 2 ^ e else Z.pos m / 2 ^ (- e) in
      let value := if s then - magnitude else magnitude in
      if (GoInt.minInt <=? value) && (value <=? GoInt.maxInt)
      then value else GoInt.minInt
  | _ => GoInt.minInt
  end.

(** The limiter the server installs. *)
Definition installed : RateLimit.RateLimiter := RateLimit.NewRateLimiter 6000 10.

(** Lower case of the letters A to Z. *)
Fixpoint lower (s : string) : string :=
  match s with
  | EmptyString => EmptyString
  | String a s' =>
      String (if ((65 <=? nat_of_ascii a) && (nat_of_ascii a <=? 90))%nat
              then ascii_of_nat (nat_of_ascii a + 32) else a)
             (lower s')
  end.

Definition preflight : Middleware.Request :=
  {| Middleware.Method := "OPTIONS";
     Middleware.Header := [ ("Origin", "http://localhost:3000");
                            ("User-Agent", "sqlmap/1.7") ];
     Middleware.ClientIP := "10.0.0.1" |}.

(** A scanner asking for the events. *)
Definition scan : Middleware.Request :=
  {| Middleware.Method := "GET";
     Middleware.Header := [ ("Accept", "*/*"); ("User-Agent", "Nikto/2.5") ];
     Middleware.ClientIP := "10.0.0.1" |}.

(** A JSON request to create a simulation. *)
Definition create : Middleware.Request :=
  {| Middleware.Method := "POST";
     Middleware.Header := [ ("Content-Type", "application/json");
                            ("Accept", "application/json");
                            ("User-Agent", "curl/8.0") ];
     Middleware.ClientIP := "10.0.0.1" |}.

(** An identifier is 24 characters long in the sample runs. *)
Definition hex24 (s : string) : bool := (String.length s =? 24)%nat.

(** A formatter that keeps whole seconds, as the RFC 3339 layout does. *)
Definition format_seconds (t : Time) : string :=
  Samples.format (t - t `mod` 1000).

(** Two events stamped between the seconds. *)
Definition sub_second_events : list ConsensusEvents.Event :=
  [ Samples.event "proposeStep" (Samples.t0 + 500);
    Samples.event "proposeStep" (Samples.t1 + 250) ].

Definition first_page : Context := [ ("limit", "1") ].

(** The request that follows [first_page] with the cursor it was given. *)
Definition next_page : Context :=
  [ ("limit", "1"); ("cursor", "2024-01-01T00:00:00Z") ].

(** One group of 200 confirmed samples: 193 latencies of 1 and 7 of 2. *)
Definition spiky : list VoteLatencies.VoteLatency :=
  replicate 193 (Samples.sample 0 1 "confirmed")
  ++ replicate 7 (Samples.sample 0 2 "confirmed").

End MoreSamples.

(** * Properties *)

(** ** Facts about Go integers *)

Module GoIntFacts.
Import GoInt.

Lemma wrap64_id z : minInt ≤ z ≤ maxInt → wrap64 z = z.
Proof.
  unfold wrap64, minInt, maxInt. intros Hz.
  rewrite Z.mod_small; lia.
Qed.

Lemma wrap64_range z : minInt ≤ wrap64 z ≤ maxInt.
Proof.
  unfold wrap64, minInt, maxInt.
  pose proof (Z.mod_pos_bound (z + 2 ^ 63) (2 ^ 64)). lia.
Qed.

End GoIntFacts.

(** ** Facts about binary64 arithmetic *)

Module Binary64Facts.

(** *** Digits and shifts *)

Lemma digits2_pos_bounds (p : positive) :
  2 ^ (Z.pos (digits2_pos p) - 1) ≤ Z.pos p < 2 ^ Z.pos (digits2_pos p).
Proof.
  induction p as [p IH|p IH|]; simpl digits2_pos.
  - rewrite Pos2Z.inj_succ.
    replace (Z.succ (Z.pos (digits2_pos p)) - 1) with (Z.succ (Z.pos (digits2_pos p) - 1)) by lia.
    rewrite !Z.pow_succ_r by lia. lia.
  - rewrite Pos2Z.inj_succ.
    replace (Z.succ (Z.pos (digits2_pos p)) - 1) with (Z.succ (Z.pos (digits2_pos p) - 1)) by lia.
    rewrite !Z.pow_succ_r by lia. lia.
  - simpl. lia.
Qed.

Lemma Zdigits2_bound (m e : Z) :
  0 ≤ m → m < 2 ^ e → 0 ≤ e → Zdigits2 m ≤ e.
Proof.
  intros Hm Hlt He. destruct m as [|p|p]; simpl; [done| |lia].
  pose proof (digits2_pos_bounds p) as [Hlow _].
  destruct (Z.le_gt_cases (Z.pos (digits2_pos p)) e) as [|Hgt]; [done|].
  assert (2 ^ e ≤ 2 ^ (Z.pos (digits2_pos p) - 1))
    by (apply Z.pow_le_mono_r; lia).
  lia.
Qed.

Lemma pow2_pos (k : Z) : 0 ≤ k → 0 < 2 ^ k.
Proof. intros. apply Z.pow_pos_nonneg; lia. Qed.

Lemma pow2_split (a b : Z) : 0 ≤ a → 0 ≤ b → 2 ^ (a + b) = 2 ^ a * 2 ^ b.
Proof. intros. by apply Z.pow_add_r. Qed.

Lemma pow2_xO (p : positive) : 2 ^ Z.pos p~0 = 2 ^ Z.pos p * 2 ^ Z.pos p.
Proof.
  replace (Z.pos p~0) with (Z.pos p + Z.pos p) by lia. apply pow2_split; lia.
Qed.

Lemma pow2_xI (p : positive) :
  2 ^ Z.pos p~1 = 2 * (2 ^ Z.pos p * 2 ^ Z.pos p).
Proof.
  replace (Z.pos p~1) with (Z.succ (Z.pos p + Z.pos p)) by lia.
  rewrite Z.pow_succ_r, pow2_split by lia. done.
Qed.

Lemma shr_1_m (mrs : shr_record) :
  0 ≤ shr_m mrs → shr_m (shr_1 mrs) = shr_m mrs / 2.
Proof.
  destruct mrs as [m r s]. simpl. intros Hm.
  rewrite <- Z.div2_div. destruct m as [|[p|p|]|p]; simpl; done || lia.
Qed.

Lemma shr_1_exact (mrs : shr_record) :
  0 ≤ shr_m mrs → shr_r mrs = false → shr_s mrs = false →
  shr_m mrs mod 2 = 0 →
  shr_r (shr_1 mrs) = false ∧ shr_s (shr_1 mrs) = false.
Proof.
  destruct mrs as [m r s]. simpl. intros Hm -> -> Hmod.
  destruct m as [|[p|p|]|p]; simpl; try done; try lia.
  rewrite Pos2Z.inj_xI in Hmod.
  rewrite Z.add_comm, Z.mul_comm, Z.mod_add in Hmod by lia. done.
Qed.

Lemma iter_shr_1 (p : positive) (mrs : shr_record) :
  0 ≤ shr_m mrs →
  shr_m (SpecFloat.iter_pos shr_1 p mrs) = shr_m mrs / 2 ^ Z.pos p ∧
  (shr_r mrs = false → shr_s mrs = false → shr_m mrs mod 2 ^ Z.pos p = 0 →
   shr_r (SpecFloat.iter_pos shr_1 p mrs) = false ∧ shr_s (SpecFloat.iter_pos shr_1 p mrs) = false).
Proof.
  revert mrs. induction p as [p IH|p IH|]; intros mrs Hm.
  - simpl SpecFloat.iter_pos.
    assert (0 ≤ shr_m (shr_1 mrs)) as H1
      by (rewrite shr_1_m by done; apply Z.div_pos; lia).
    destruct (IH (shr_1 mrs) H1) as [Hm1 Hx1].
    assert (0 ≤ shr_m (SpecFloat.iter_pos shr_1 p (shr_1 mrs))) as H2
      by (rewrite Hm1; apply Z.div_pos; [done | by apply pow2_pos]).
    destruct (IH _ H2) as [Hm2 Hx2].
    pose proof (pow2_xI p) as Hpow.
    pose proof (pow2_pos (Z.pos p) ltac:(lia)) as Hpos.
    split.
    + rewrite Hm2, Hm1, shr_1_m, Hpow by done.
      rewrite !Z.div_div by lia. done.
    + intros Hr Hs Hmod. rewrite Hpow in Hmod.
      apply Z.mod_divide in Hmod; [|lia]. destruct Hmod as [q Hq].
      destruct (shr_1_exact mrs Hm Hr Hs) as [Hr1 Hs1].
      { rewrite Hq. replace (q * (2 * (2 ^ Z.pos p * 2 ^ Z.pos p)))
          with (q * (2 ^ Z.pos p * 2 ^ Z.pos p) * 2) by lia.
        by rewrite Z.mod_mul by lia. }
      assert (shr_m (shr_1 mrs) = q * 2 ^ Z.pos p * 2 ^ Z.pos p) as Hq1.
      { rewrite shr_1_m, Hq by done.
        replace (q * (2 * (2 ^ Z.pos p * 2 ^ Z.pos p)))
          with (q * 2 ^ Z.pos p * 2 ^ Z.pos p * 2) by lia.
        by rewrite Z.div_mul by lia. }
      destruct (Hx1 Hr1 Hs1) as [Hr2 Hs2].
      { rewrite Hq1. by rewrite Z.mod_mul by lia. }
      apply Hx2; [done|done|].
      rewrite Hm1, Hq1, Z.div_mul by lia. by rewrite Z.mod_mul by lia.
  - simpl SpecFloat.iter_pos.
    destruct (IH mrs Hm) as [Hm1 Hx1].
    assert (0 ≤ shr_m (SpecFloat.iter_pos shr_1 p mrs)) as H2
      by (rewrite Hm1; apply Z.div_pos; [done | by apply pow2_pos]).
    destruct (IH _ H2) as [Hm2 Hx2].
    pose proof (pow2_xO p) as Hpow.
    pose proof (pow2_pos (Z.pos p) ltac:(lia)) as Hpos.
    split.
    + rewrite Hm2, Hm1, Hpow. rewrite Z.div_div by lia. done.
    + intros Hr Hs Hmod. rewrite Hpow in Hmod.
      apply Z.mod_divide in Hmod; [|lia]. destruct Hmod as [q Hq].
      destruct (Hx1 Hr Hs) as [Hr2 Hs2].
      { rewrite Hq. replace (q * (2 ^ Z.pos p * 2 ^ Z.pos p))
          with (q * 2 ^ Z.pos p * 2 ^ Z.pos p) by lia.
        by rewrite Z.mod_mul by lia. }
      apply Hx2; [done|done|].
      rewrite Hm1, Hq.
      replace (q * (2 ^ Z.pos p * 2 ^ Z.pos p))
        with (q * 2 ^ Z.pos p * 2 ^ Z.pos p) by lia.
      rewrite Z.div_mul by lia. by rewrite Z.mod_mul by lia.
  - simpl SpecFloat.iter_pos. change (2 ^ 1) with 2. split.
    + by apply shr_1_m.
    + by apply shr_1_exact.
Qed.

(** A shift to the canonical exponent: the mantissa is divided by a power
    of two, the exponent stays at or below zero, and nothing is lost when
    the mantissa was a multiple of that power. *)
Lemma shr_fexp_spec (m e : Z) (l : location) :
  0 ≤ m → e ≤ 0 → m < 2 ^ (53 - e) →
  ∃ k, 0 ≤ k ∧
    (shr_fexp prec emax m e l).2 = e + k ∧ e + k ≤ 0 ∧
    shr_m (shr_fexp prec emax m e l).1 = m / 2 ^ k ∧
    (l = loc_Exact → m mod 2 ^ k = 0 →
     loc_of_shr_record (shr_fexp prec emax m e l).1 = loc_Exact).
Proof.
  intros Hm He Hlt.
  assert (Zdigits2 m + e ≤ 53) as Hd
    by (pose proof (Zdigits2_bound m (53 - e) Hm Hlt ltac:(lia)); lia).
  assert (shr_m (shr_record_of_loc m l) = m) as Hrec
    by (by destruct l as [|[]]).
  unfold shr_fexp, shr.
  destruct (fexp prec emax (Zdigits2 m + e) - e) as [|p|p] eqn:Hn.
  - exists 0. simpl. rewrite Z.add_0_r, Z.div_1_r.
    split; [done|]. split; [done|]. split; [done|]. split; [done|].
    by intros ->.
  - exists (Z.pos p). simpl.
    destruct (iter_shr_1 p (shr_record_of_loc m l)) as [Hsm Hex];
      [by rewrite Hrec|].
    split; [lia|]. split; [done|]. split.
    { unfold fexp, SpecFloat.emin, prec, emax in Hn. lia. }
    split; [by rewrite Hsm, Hrec|].
    intros -> Hmod. simpl in Hex. destruct Hex as [Hr Hs]; [done..|].
    destruct (SpecFloat.iter_pos shr_1 p _) as [m' r s]. simpl in *. by subst.
  - exists 0. simpl. rewrite Z.add_0_r, Z.div_1_r.
    split; [done|]. split; [done|]. split; [done|]. split; [done|].
    by intros ->.
Qed.

Lemma round_nearest_even_bounds (m : Z) (l : location) :
  m ≤ round_nearest_even m l ≤ m + 1 ∧
  (l = loc_Exact → round_nearest_even m l = m).
Proof.
  destruct l as [|[]]; simpl; try destruct (Z.even m); split; done || lia.
Qed.

(** *** Rounding stays below an integer bound

    [mx * 2 ^ ex], with something more when [lx] is not exact, is what is
    rounded; [B] is an integer below [2 ^ 53], so it lies on every grid the
    rounding goes through. *)
Lemma binary_round_aux_upper (sx : bool) (mx ex : Z) (lx : location) (B : Z) :
  0 ≤ mx → ex ≤ 0 → 1 ≤ B < 2 ^ 53 →
  mx ≤ B * 2 ^ (- ex) →
  (lx ≠ loc_Exact → mx + 1 ≤ B * 2 ^ (- ex)) →
  binary_round_aux prec emax sx mx ex lx = S754_zero sx ∨
  ∃ m e, binary_round_aux prec emax sx mx ex lx = S754_finite sx m e ∧
         e ≤ 0 ∧ Z.pos m ≤ B * 2 ^ (- e).
Proof.
  intros Hmx Hex HB Hmx' Hbound.
  assert (∀ m e, 0 ≤ m → e ≤ 0 → m ≤ B * 2 ^ (- e) → m < 2 ^ (53 - e)) as Hsize.
  { intros m e Hm He Hle.
    replace (53 - e) with (53 + - e) by lia. rewrite pow2_split by lia.
    pose proof (pow2_pos (- e) ltac:(lia)). nia. }
  unfold binary_round_aux.
  destruct (shr_fexp_spec mx ex lx Hmx Hex (Hsize _ _ Hmx Hex Hmx'))
    as (k1 & Hk1 & He1 & He1' & Hm1 & Hexact1).
  destruct (shr_fexp prec emax mx ex lx) as [mrs1 e1]. simpl in He1, Hm1, Hexact1.
  subst e1.
  set (m2 := round_nearest_even (shr_m mrs1) (loc_of_shr_record mrs1)).
  pose proof (pow2_pos k1 Hk1) as Hpos1.
  pose proof (pow2_pos (- (ex + k1)) ltac:(lia)) as Hpos1'.
  assert (B * 2 ^ (- ex) = B * 2 ^ (- (ex + k1)) * 2 ^ k1) as Hgrid1.
  { replace (- ex) with (- (ex + k1) + k1) at 1 by lia.
    rewrite pow2_split by lia. lia. }
  assert (0 ≤ shr_m mrs1) as Hm1pos by (rewrite Hm1; apply Z.div_pos; lia).
  assert (0 ≤ m2 ∧ m2 ≤ B * 2 ^ (- (ex + k1))) as [Hm2 Hm2'].
  { destruct (round_nearest_even_bounds (shr_m mrs1) (loc_of_shr_record mrs1))
      as [[Hlo Hhi] Hsame]. fold m2 in Hlo, Hhi, Hsame.
    split; [lia|].
    assert (mx < B * 2 ^ (- (ex + k1)) * 2 ^ k1 →
            shr_m mrs1 + 1 ≤ B * 2 ^ (- (ex + k1))) as Hstrict.
    { intros Hlt. rewrite Hm1.
      assert (mx / 2 ^ k1 < B * 2 ^ (- (ex + k1)))
        by (apply Z.div_lt_upper_bound; lia).
      lia. }
    destruct lx as [|c].
    - destruct (Z.eq_dec (mx mod 2 ^ k1) 0) as [Hmod|Hmod].
      + rewrite (Hsame (Hexact1 eq_refl Hmod)), Hm1.
        apply Z.div_le_upper_bound; lia.
      + destruct (Z.eq_dec mx (B * 2 ^ (- (ex + k1)) * 2 ^ k1)) as [Heq|Hne].
        * exfalso. apply Hmod. rewrite Heq. apply Z.mod_mul. lia.
        * specialize (Hstrict ltac:(lia)). lia.
    - specialize (Hbound ltac:(done)). specialize (Hstrict ltac:(lia)). lia. }
  destruct (shr_fexp_spec m2 (ex + k1) loc_Exact Hm2 He1' (Hsize _ _ Hm2 He1' Hm2'))
    as (k2 & Hk2 & He2 & He2' & Hm3 & _).
  destruct (shr_fexp prec emax m2 (ex + k1) loc_Exact) as [mrs2 e2].
  simpl in He2, Hm3. subst e2.
  pose proof (pow2_pos k2 Hk2) as Hpos2.
  assert (B * 2 ^ (- (ex + k1)) = B * 2 ^ (- (ex + k1 + k2)) * 2 ^ k2) as Hgrid2.
  { replace (- (ex + k1)) with (- (ex + k1 + k2) + k2) at 1 by lia.
    rewrite pow2_split by lia. lia. }
  pose proof (pow2_pos (- (ex + k1 + k2)) ltac:(lia)) as Hpos2'.
  assert (0 ≤ shr_m mrs2 ≤ B * 2 ^ (- (ex + k1 + k2))) as Hm3'.
  { rewrite Hm3. split; [apply Z.div_pos; lia|].
    apply Z.div_le_upper_bound; lia. }
  destruct (shr_m mrs2) as [|m|m]; [by left| |lia].
  right. exists m, (ex + k1 + k2).
  destruct (Z.leb_spec (ex + k1 + k2) (emax - prec)) as [_|Hover].
  - split; [done|]. split; [done | lia].
  - unfold emax, prec in Hover. lia.
Qed.

(** *** Comparison of canonical numbers *)

Lemma SFleb_bound (m MB : positive) (e EB B : Z) :
  canonical_mantissa prec emax m e = true →
  e ≤ 0 → Z.pos m ≤ B * 2 ^ (- e) →
  -1074 ≤ EB ≤ 0 → Z.pos MB = B * 2 ^ (- EB) → Z.pos MB < 2 ^ 53 →
  SFleb (S754_finite false m e) (S754_finite false MB EB) = true.
Proof.
  intros Hcanon He Hle HEB HMB Hnorm.
  unfold SFleb, SFcompare.
  destruct (Z.compare_spec e EB) as [->|Hlt|Hgt]; [|done|exfalso].
  - rewrite Pos.compare_cont_spec. simpl.
    destruct (Pos.compare_spec m MB); [done|done|lia].
  - unfold canonical_mantissa, fexp, SpecFloat.emin, prec, emax in Hcanon.
    apply Z.eqb_eq in Hcanon.
    assert (Z.pos (digits2_pos m) = 53) as Hd by lia.
    pose proof (digits2_pos_bounds m) as [Hlow _]. rewrite Hd in Hlow.
    assert (2 ^ (- EB) = 2 ^ (- e) * 2 ^ (e - EB)) as Hsplit.
    { replace (- EB) with (- e + (e - EB)) by lia. by rewrite pow2_split by lia. }
    assert (2 ^ 1 ≤ 2 ^ (e - EB)) as Htwo by (apply Z.pow_le_mono_r; lia).
    pose proof (pow2_pos (- e) ltac:(lia)).
    change (2 ^ (53 - 1)) with 4503599627370496 in Hlow.
    change (2 ^ 53) with 9007199254740992 in Hnorm.
    change (2 ^ 1) with 2 in Htwo.
    assert (0 < B) by nia.
    nia.
Qed.

Lemma SFleb_zero_finite (m : positive) (e : Z) :
  SFleb (S754_zero false) (S754_finite false m e) = true.
Proof. done. Qed.

End Binary64Facts.

Module Binary64Ratio.
Import Binary64Facts.

(** *** Integers below [2 ^ 53] convert exactly *)

Lemma iter_xO (p q : positive) :
  Z.pos (Pos.iter xO p q) = Z.pos p * 2 ^ Z.pos q ∧
  Z.pos (digits2_pos (Pos.iter xO p q)) = Z.pos (digits2_pos p) + Z.pos q.
Proof.
  induction q as [|q [IHv IHd]] using Pos.peano_ind.
  - simpl. split; lia.
  - rewrite Pos.iter_succ, Pos2Z.inj_succ, Z.pow_succ_r by lia.
    simpl digits2_pos. rewrite Pos2Z.inj_succ, IHd, Pos2Z.inj_xO, IHv.
    split; lia.
Qed.

Lemma binary_round_aux_canonical (m : positive) (e : Z) :
  Z.pos (digits2_pos m) = 53 → -1074 ≤ e ≤ 971 →
  binary_round_aux prec emax false (Z.pos m) e loc_Exact = S754_finite false m e.
Proof.
  intros Hd He.
  assert (shr_fexp prec emax (Z.pos m) e loc_Exact
          = ({| shr_m := Z.pos m; shr_r := false; shr_s := false |}, e)) as Hshr.
  { unfold shr_fexp. simpl Zdigits2. rewrite Hd.
    assert (fexp prec emax (53 + e) - e = 0) as ->
      by (unfold fexp, SpecFloat.emin, prec, emax; lia).
    done. }
  unfold binary_round_aux. rewrite Hshr. simpl. rewrite Hshr. simpl.
  destruct (Z.leb_spec e (emax - prec)) as [|Hover]; [done|].
  unfold emax, prec in Hover. lia.
Qed.

(** The double of a positive integer below [2 ^ 53]: a mantissa of 53
    digits whose value is the integer. *)
Lemma toDouble_exact (n : Z) :
  1 ≤ n < 2 ^ 53 →
  ∃ m e, Prim2SF (Mongo.toDouble n) = S754_finite false m e ∧
         Z.pos (digits2_pos m) = 53 ∧ -52 ≤ e ≤ 0 ∧
         Z.pos m = n * 2 ^ (- e).
Proof.
  intros Hn. destruct n as [|p|p]; [lia| |lia].
  set (d := Z.pos (digits2_pos p)).
  assert (1 ≤ d ≤ 53) as Hd.
  { split; [unfold d; lia|]. apply (Zdigits2_bound (Z.pos p) 53); lia. }
  assert (∃ m, shl_align p 0 (d - 53) = (m, d - 53) ∧
               Z.pos (digits2_pos m) = 53 ∧
               Z.pos m = Z.pos p * 2 ^ (- (d - 53))) as (m & Halign & Hdm & Hvm).
  { unfold shl_align. rewrite Z.sub_0_r.
    destruct (d - 53) as [|q|q] eqn:Hq; [|lia|].
    - exists p. split; [done|]. split; [fold d; lia|]. simpl. lia.
    - exists (Pos.iter xO p q). destruct (iter_xO p q) as [Hv Hdig].
      split; [done|]. split; [fold d in Hdig; lia|]. rewrite Hv. done. }
  assert (binary_normalize prec emax (Z.pos p) 0 false = S754_finite false m (d - 53))
    as Hnorm.
  { unfold binary_normalize, binary_round.
    assert (fexp prec emax (Z.pos (digits2_pos p) + 0) = d - 53) as ->
      by (fold d; unfold fexp, SpecFloat.emin, prec, emax; lia).
    rewrite Halign. apply binary_round_aux_canonical; [done | lia]. }
  exists m, (d - 53). unfold Mongo.toDouble. rewrite Hnorm.
  rewrite Prim2SF_SF2Prim.
  - split; [done|]. split; [done|]. split; [lia | done].
  - unfold valid_binary, bounded, canonical_mantissa. rewrite Hdm.
    apply andb_true_iff. split.
    + apply Z.eqb_eq. unfold fexp, SpecFloat.emin, prec, emax. lia.
    + apply Z.leb_le. unfold prec, emax. lia.
Qed.

Lemma toDouble_zero : Prim2SF (Mongo.toDouble 0) = S754_zero false.
Proof. reflexivity. Qed.

(** *** A ratio of two counts, as a percentage *)

Lemma new_location_inexact (nb_steps k : Z) :
  new_location nb_steps k ≠ loc_Exact → k ≠ 0.
Proof.
  intros Hloc ->. apply Hloc.
  unfold new_location, new_location_even, new_location_odd.
  by destruct (Z.even nb_steps).
Qed.

(** The quotient of two doubles of 53 digits, the first at most the
    second, is at most one. *)
Lemma SFdiv_upper (ma mb : positive) (ea eb : Z) :
  Z.pos (digits2_pos ma) = 53 → Z.pos (digits2_pos mb) = 53 →
  -52 ≤ ea ≤ 0 → -52 ≤ eb ≤ 0 →
  Z.pos ma * 2 ^ (- eb) ≤ Z.pos mb * 2 ^ (- ea) →
  SFdiv prec emax (S754_finite false ma ea) (S754_finite false mb eb)
    = S754_zero false ∨
  ∃ m e, SFdiv prec emax (S754_finite false ma ea) (S754_finite false mb eb)
           = S754_finite false m e ∧
         e ≤ 0 ∧ Z.pos m ≤ 1 * 2 ^ (- e).
Proof.
  intros Hda Hdb Hea Heb Hle.
  unfold SFdiv, SFdiv_core_binary. simpl Zdigits2. rewrite Hda, Hdb.
  assert (Z.min (fexp prec emax (53 + ea - (53 + eb))) (ea - eb) = ea - eb - 53)
    as -> by (unfold fexp, SpecFloat.emin, prec, emax; lia).
  assert (ea - eb - (ea - eb - 53) = 53) as -> by lia.
  change (IntDef.Z.shiftl (Z.pos ma) 53) with (Z.shiftl (Z.pos ma) 53).
  rewrite Z.shiftl_mul_pow2 by lia.
  change (IntDef.Z.div_eucl ?a ?b) with (Z.div_eucl a b).
  pose proof (Z_div_mod (Z.pos ma * 2 ^ 53) (Z.pos mb) ltac:(lia)) as Hdiv.
  destruct (Z.div_eucl (Z.pos ma * 2 ^ 53) (Z.pos mb)) as [q r].
  destruct Hdiv as [Hqr Hr]. simpl xorb.
  pose proof (pow2_pos (- ea) ltac:(lia)) as Hpa.
  pose proof (pow2_pos (- eb) ltac:(lia)) as Hpb.
  pose proof (pow2_pos (- (ea - eb - 53)) ltac:(lia)) as Hpe.
  assert (Z.pos ma * 2 ^ 53 ≤ Z.pos mb * 2 ^ (- (ea - eb - 53))) as Hnum.
  { assert (2 ^ (- (ea - eb - 53)) * 2 ^ (- eb) = 2 ^ 53 * 2 ^ (- ea)) as Hsplit.
    { rewrite <- !pow2_split by lia. f_equal. lia. }
    change (2 ^ 53) with 9007199254740992 in *. nia. }
  assert (0 ≤ q) as Hq by nia.
  apply binary_round_aux_upper.
  - done.
  - lia.
  - done.
  - rewrite Z.mul_1_l. nia.
  - intros Hloc. apply new_location_inexact in Hloc. rewrite Z.mul_1_l. nia.
Qed.

(** The product of a double that is at most one with 100 is at most
    100. *)
Lemma SFmul_upper (m : positive) (e : Z) :
  e ≤ 0 → Z.pos m ≤ 1 * 2 ^ (- e) →
  SFmul prec emax (S754_finite false m e) (Prim2SF 100) = S754_zero false ∨
  ∃ m' e', SFmul prec emax (S754_finite false m e) (Prim2SF 100)
             = S754_finite false m' e' ∧
           e' ≤ 0 ∧ Z.pos m' ≤ 100 * 2 ^ (- e').
Proof.
  intros He Hle.
  change (Prim2SF 100) with (S754_finite false 7036874417766400 (-46)).
  unfold SFmul. simpl xorb.
  pose proof (pow2_pos (- e) ltac:(lia)) as Hpe.
  apply binary_round_aux_upper.
  - lia.
  - lia.
  - done.
  - replace (- (e + -46)) with (- e + 46) by lia.
    rewrite pow2_split by lia. change (2 ^ 46) with 70368744177664.
    rewrite Pos2Z.inj_mul. nia.
  - done.
Qed.

(** A count out of a larger one, as a percentage in binary64: it lies
    between 0 and 100, and it is 0 for the count 0. *)
Lemma percentage_bounds (s n : Z) :
  0 ≤ s ≤ n → 1 ≤ n < 2 ^ 53 →
  (0 <=? Mongo.toDouble s / Mongo.toDouble n * 100)%float = true ∧
  (Mongo.toDouble s / Mongo.toDouble n * 100 <=? 100)%float = true ∧
  (s = 0 → (Mongo.toDouble s / Mongo.toDouble n * 100)%float = 0%float).
Proof.
  intros Hs Hn.
  destruct (toDouble_exact n Hn) as (mb & eb & Hb & Hdb & Heb & Hvb).
  set (p := (Mongo.toDouble s / Mongo.toDouble n * 100)%float).
  assert (Prim2SF p = S754_zero false ∨
          ∃ m e, Prim2SF p = S754_finite false m e ∧
                 e ≤ 0 ∧ Z.pos m ≤ 100 * 2 ^ (- e)) as Hp.
  { unfold p. rewrite mul_spec, div_spec, Hb. unfold SF64mul, SF64div.
    destruct (Z.eq_dec s 0) as [->|Hs0].
    - rewrite toDouble_zero. by left.
    - destruct (toDouble_exact s ltac:(lia)) as (ma & ea & Ha & Hda & Hea & Hva).
      rewrite Ha.
      destruct (SFdiv_upper ma mb ea eb Hda Hdb Hea Heb) as [->|(m & e & -> & He & Hm)].
      + rewrite Hva, Hvb.
        pose proof (pow2_pos (- ea) ltac:(lia)).
        pose proof (pow2_pos (- eb) ltac:(lia)). nia.
      + by left.
      + by apply SFmul_upper. }
  split; [|split].
  - rewrite leb_spec. change (Prim2SF 0) with (S754_zero false).
    destruct Hp as [->|(m & e & -> & _)]; done.
  - rewrite leb_spec.
    pose proof (Prim2SF_valid p) as Hvalid.
    destruct Hp as [Hz|(m & e & Hf & He & Hm)].
    + rewrite Hz. done.
    + rewrite Hf in Hvalid |- *.
      change (Prim2SF 100) with (S754_finite false 7036874417766400 (-46)).
      apply andb_true_iff in Hvalid as [Hcanon _].
      apply (SFleb_bound m 7036874417766400 e (-46) 100); done || lia.
  - intros ->. apply Prim2SF_inj. unfold p.
    rewrite mul_spec, div_spec, Hb, toDouble_zero. done.
Qed.

End Binary64Ratio.

(** ** Facts about the stages and the helpers *)

Module MongoFacts.
Import Mongo.

Global Instance key_le_total {A} (key : A → Z) : Total (key_le key).
Proof. intros x y. unfold key_le. lia. Qed.

Global Instance key_le_trans {A} (key : A → Z) : Transitive (key_le key).
Proof. intros x y z. unfold key_le. lia. Qed.

Lemma stage_sort_Permutation {A} (key : A → Z) (l : list A) :
  stage_sort key l ≡ₚ l.
Proof. apply merge_sort_Permutation. Qed.

Lemma stage_sort_Sorted {A} (key : A → Z) (l : list A) :
  Sorted (key_le key) (stage_sort key l).
Proof. apply (Sorted_merge_sort (key_le key)). Qed.

Lemma stage_group_members {A K} `{!EqDecision K} (key : A → K) l k g :
  (k, g) ∈ stage_group key l →
  g = filter (λ x, key x = k) l ∧ ∃ x, x ∈ l ∧ key x = k.
Proof.
  unfold stage_group. intros Hin.
  apply list_elem_of_fmap in Hin as (k' & Heq & Hk').
  injection Heq as -> ->. split; [done|].
  apply elem_of_remove_dups, list_elem_of_fmap in Hk' as (x & -> & Hx).
  eauto.
Qed.

Lemma stage_group_nonempty {A K} `{!EqDecision K} (key : A → K) l k g :
  (k, g) ∈ stage_group key l → g ≠ [].
Proof.
  intros Hin. apply stage_group_members in Hin as (-> & x & Hx & Hk).
  intros Hnil.
  assert (x ∈ filter (λ y, key y = k) l) as Hmem
    by (apply list_elem_of_filter; done).
  rewrite Hnil in Hmem. by apply not_elem_of_nil in Hmem.
Qed.

Lemma stage_skip_ok {A} (n : Z) (l : list A) :
  0 ≤ n → stage_skip n l = Ok (drop (Z.to_nat n) l).
Proof.
  intros Hn. unfold stage_skip.
  destruct (Z.ltb_spec n 0); [lia | done].
Qed.

Lemma stage_limit_ok {A} (n : Z) (l : list A) :
  0 < n → stage_limit n l = Ok (take (Z.to_nat n) l).
Proof.
  intros Hn. unfold stage_limit.
  destruct (Z.leb_spec n 0); [lia | done].
Qed.

(** The loop over fetched rows succeeds when every row decodes, and it
    commutes with truncation. *)
Lemma rmapM_ok {E A B} (f : A → result E B) (l : list A) :
  (∀ x, x ∈ l → ∃ y, f x = Ok y) →
  ∃ ys, rmapM f l = Ok ys ∧ length ys = length l.
Proof.
  induction l as [|x l IH]; intros Hall; simpl.
  - by exists [].
  - destruct (Hall x) as [y Hy]; [by left|].
    destruct IH as (ys & Hys & Hlen); [intros; apply Hall; by right|].
    exists (y :: ys). rewrite Hy. simpl. rewrite Hys. simpl.
    split; [done | by rewrite Hlen].
Qed.

Lemma rmapM_take {E A B} (f : A → result E B) (l : list A) ys n :
  rmapM f l = Ok ys → rmapM f (take n l) = Ok (take n ys).
Proof.
  revert ys n. induction l as [|x l IH]; intros ys n; simpl.
  - intros [= <-]. by destruct n.
  - destruct (f x) as [y|e] eqn:Hfx; simpl; [|done].
    destruct (rmapM f l) as [zs|e] eqn:Hl; simpl; [|done].
    intros [= <-]. destruct n as [|n]; simpl; [done|].
    rewrite Hfx. simpl. by rewrite (IH zs n eq_refl).
Qed.

(** Filters. *)
Lemma filter_none {A} (P : A → Prop) `{!∀ x, Decision (P x)} (l : list A) :
  (∀ x, x ∈ l → ¬ P x) → filter P l = [].
Proof.
  induction l as [|x l IH]; intros Hnone; [done|].
  rewrite filter_cons. destruct (decide (P x)) as [Hp|_].
  - exfalso. apply (Hnone x); [by left | done].
  - apply IH. intros y Hy. apply Hnone. by right.
Qed.

Lemma filter_sub_nil {A} (P R : A → Prop) `{!∀ x, Decision (P x)}
    `{!∀ x, Decision (R x)} (l : list A) :
  (∀ x, R x → P x) → filter P l = [] → filter R l = [].
Proof.
  intros Himp Hnil. induction l as [|x l IH]; [done|].
  rewrite filter_cons in Hnil. rewrite filter_cons.
  destruct (decide (P x)) as [|Hn]; [done|].
  destruct (decide (R x)) as [Hr|]; [by apply Himp in Hr|]. by apply IH.
Qed.

Lemma filter_length_fmap {A B} (f : A → B) (P : B → Prop)
    `{!∀ y, Decision (P y)} (l : list A) :
  length (filter P (f <$> l)) = length (filter (λ x, P (f x)) l).
Proof.
  induction l as [|x l IH]; [done|].
  rewrite fmap_cons, !filter_cons. destruct (decide (P (f x))); simpl; lia.
Qed.

End MongoFacts.

(** ** Page sizes *)

Module PageSizes.

Lemma limit_range (c : Context) : 0 < ConsensusEvents.limit c ≤ 50000.
Proof.
  unfold ConsensusEvents.limit.
  destruct (decide _); [|lia].
  destruct (GoInt.Atoi _) as [v|]; [|lia].
  destruct (Z.ltb_spec 0 v), (Z.leb_spec v 50000); simpl; lia.
Qed.

Lemma perPage_range (c : Context) : 0 < MetricsHandler.perPage c ≤ 1000.
Proof.
  unfold MetricsHandler.perPage.
  destruct (decide _); [|lia].
  destruct (GoInt.Atoi _) as [v|]; [|lia].
  destruct (Z.ltb_spec 0 v), (Z.leb_spec v 1000); simpl; lia.
Qed.

(** The offset of segment [s] is [(s - 1) * limit] (as long as it fits an
    [int]), and no segment means no offset. *)
Lemma skip_of_segment (c : Context) :
  (∀ segment,
      GoInt.Atoi (Query c "segment") = Some segment →
      0 < segment →
      (segment - 1) * ConsensusEvents.limit c ≤ GoInt.maxInt →
      ConsensusEvents.skip c = (segment - 1) * ConsensusEvents.limit c) ∧
  (Query c "segment" = "" → ConsensusEvents.skip c = 0).
Proof.
  pose proof (limit_range c) as Hlim. unfold ConsensusEvents.skip. split.
  - intros segment Hseg Hpos Hfit. rewrite Hseg.
    destruct (decide _) as [_|Hn].
    + destruct (Z.ltb_spec 0 segment); [|lia].
      apply GoIntFacts.wrap64_id. unfold GoInt.minInt. nia.
    + apply dec_stable in Hn. rewrite Hn in Hseg. discriminate Hseg.
  - intros ->. by destruct (decide _).
Qed.

(** A parameter is usable when it is an integer of the half-open range
    (0, hi]. *)
Definition usable (hi : Z) (s : string) (v : Z) : Prop :=
  GoInt.Atoi s = Some v ∧ 0 < v ∧ v ≤ hi.

(** C9. The effective limit of event pagination lies in (0, 50000]; it is
    10000 when the [limit] parameter is absent or is not an integer of that
    range, and the parameter itself otherwise. The effective perPage of the
    paged latency table lies in (0, 1000]; it is 100 when the [perPage]
    parameter is absent or is not an integer of that range, and the
    parameter itself otherwise. *)
Theorem effective_page_sizes (c : Context) :
  (0 < ConsensusEvents.limit c ≤ 50000 ∧
   ((Query c "limit" = "" ∨ ∀ v, ¬ usable 50000 (Query c "limit") v) →
    ConsensusEvents.limit c = 10000) ∧
   (∀ v, usable 50000 (Query c "limit") v → ConsensusEvents.limit c = v)) ∧
  (0 < MetricsHandler.perPage c ≤ 1000 ∧
   ((Query c "perPage" = "" ∨ ∀ v, ¬ usable 1000 (Query c "perPage") v) →
    MetricsHandler.perPage c = 100) ∧
   (∀ v, usable 1000 (Query c "perPage") v → MetricsHandler.perPage c = v)).
Proof.
  split; (split; [first [apply limit_range | apply perPage_range]|]).
  - unfold ConsensusEvents.limit, usable. split.
    + intros [Hq | Hq].
      * rewrite Hq. by destruct (decide _).
      * destruct (decide _); [|done].
        destruct (GoInt.Atoi _) as [v|] eqn:Hv; [|done].
        destruct (Z.ltb_spec 0 v), (Z.leb_spec v 50000); simpl; try done.
        exfalso. apply (Hq v). repeat split; first [done | lia].
    + intros v (Hv & Hlo & Hhi). rewrite Hv.
      destruct (decide _) as [_|Hn].
      * destruct (Z.ltb_spec 0 v), (Z.leb_spec v 50000); simpl; first [done | lia].
      * apply dec_stable in Hn. rewrite Hn in Hv. discriminate Hv.
  - unfold MetricsHandler.perPage, usable. split.
    + intros [Hq | Hq].
      * rewrite Hq. by destruct (decide _).
      * destruct (decide _); [|done].
        destruct (GoInt.Atoi _) as [v|] eqn:Hv; [|done].
        destruct (Z.ltb_spec 0 v), (Z.leb_spec v 1000); simpl; try done.
        exfalso. apply (Hq v). repeat split; first [done | lia].
    + intros v (Hv & Hlo & Hhi). rewrite Hv.
      destruct (decide _) as [_|Hn].
      * destruct (Z.ltb_spec 0 v), (Z.leb_spec v 1000); simpl; first [done | lia].
      * apply dec_stable in Hn. rewrite Hn in Hv. discriminate Hv.
Qed.

(** The clamp at work on concrete requests. *)
Example limit_examples :
  ConsensusEvents.limit [] = 10000 ∧
  ConsensusEvents.limit [("limit", "250")] = 250 ∧
  ConsensusEvents.limit [("limit", "50000")] = 50000 ∧
  ConsensusEvents.limit [("limit", "50001")] = 10000 ∧
  ConsensusEvents.limit [("limit", "0")] = 10000 ∧
  ConsensusEvents.limit [("limit", "-3")] = 10000 ∧
  ConsensusEvents.limit [("limit", "many")] = 10000 ∧
  MetricsHandler.perPage [] = 100 ∧
  MetricsHandler.perPage [("perPage", "1000")] = 1000 ∧
  MetricsHandler.perPage [("perPage", "1001")] = 100.
Proof. vm_compute. repeat split. Qed.

End PageSizes.

(** ** Event pagination *)

Module ConsensusEventsFacts.
Import ConsensusEvents EventsSpec Mongo MongoFacts.

(** One step of a loop, without unfolding its body. *)
Ltac loop_step :=
  cbn beta iota zeta delta [rmapM mbind result_bind mret result_ret].

Section Facts.
Variable now : Time.
Variable ParseRFC3339 : string → option Time.
Variable FormatRFC3339 : Time → string.
Variable Payload : Type.
Variable Unmarshal : EventKind → Event → option Payload.
Variable timestampAsTime : Event → option Time.

Abbreviation matchConditions := (matchConditions now ParseRFC3339).
Abbreviation handler :=
  (GetConsensusEventsHandler now ParseRFC3339 FormatRFC3339 Payload
     Unmarshal timestampAsTime).
Abbreviation Decode := (DecodeConsensusEvent Payload Unmarshal).
Abbreviation valid_request := (valid_request now ParseRFC3339).
Abbreviation selected := (selected now ParseRFC3339).
Abbreviation decodable := (decodable Payload Unmarshal).
Abbreviation decodeRow := (decodeRow Payload Unmarshal timestampAsTime).
Abbreviation cursorOf := (cursorOf FormatRFC3339).
Abbreviation readBack := (extractTimestamp timestampAsTime).
Abbreviation response_of := (response_of FormatRFC3339 Payload timestampAsTime).
Abbreviation sorted_matches conds collection :=
  (stage_sort timestamp (stage_match (matches conds) collection)).

Lemma valid_request_conditions c :
  valid_request c → ∃ conds, matchConditions c = Ok conds.
Proof.
  intros (Hw & Hc & Hb). unfold ConsensusEvents.matchConditions.
  destruct (bool_decide _) eqn:Ht.
  - apply bool_decide_eq_true in Ht. destruct (Hw Ht) as [[f t] ->]. simpl.
    destruct (decide (Query c "cursor" ≠ "")) as [Hcur|_];
      [destruct (Hc Hcur) as [ct ->]|];
      (destruct (decide (Query c "before" ≠ "")) as [Hbef|_];
        [destruct (Hb Hbef) as [bt ->]|]); simpl; eauto.
  - simpl.
    destruct (decide (Query c "cursor" ≠ "")) as [Hcur|_];
      [destruct (Hc Hcur) as [ct ->]|];
      (destruct (decide (Query c "before" ≠ "")) as [Hbef|_];
        [destruct (Hb Hbef) as [bt ->]|]); simpl; eauto.
Qed.

Lemma conditions_selected c conds :
  matchConditions c = Ok conds → ∀ e, matches conds e ↔ selected c e.
Proof.
  unfold ConsensusEvents.matchConditions, EventsSpec.selected.
  destruct (bool_decide _) eqn:Ht.
  - apply bool_decide_eq_true in Ht.
    destruct (TimeWindowFromContext _ _ _) as [[f t]|]; simpl; [|done].
    destruct (decide (Query c "cursor" ≠ "")) as [Hcur|Hcur];
      [destruct (ParseRFC3339 (Query c "cursor")) as [ct|]; simpl; [|done]|];
      (destruct (decide (Query c "before" ≠ "")) as [Hbef|Hbef];
        [destruct (ParseRFC3339 (Query c "before")) as [bt|]; simpl; [|done]|]);
      simpl; intros [= <-] e; unfold matches, timestamp_ok; simpl;
      (split;
        [ intros (Hty & (Hge & Hle & Hgt & Hlt)); split; [done|];
          repeat split; intros; simplify_eq/=; try done; lia
        | intros (Hty & H1 & H2 & H3); split; [done|];
          specialize (H1 Ht _ eq_refl); simpl in H1;
          repeat split; try done; try lia;
          first [ apply Z.lt_gt, H2; done | apply H3; done ] ]).
  - apply bool_decide_eq_false in Ht. simpl.
    destruct (decide (Query c "cursor" ≠ "")) as [Hcur|Hcur];
      [destruct (ParseRFC3339 (Query c "cursor")) as [ct|]; simpl; [|done]|];
      (destruct (decide (Query c "before" ≠ "")) as [Hbef|Hbef];
        [destruct (ParseRFC3339 (Query c "before")) as [bt|]; simpl; [|done]|]);
      simpl; intros [= <-] e; unfold matches, timestamp_ok; simpl;
      (split;
        [ intros (Hty & Hrest); split; [done|];
          repeat split; intros; simplify_eq/=; try done;
          destruct_and?; lia
        | intros (Hty & H1 & H2 & H3); split; [done|];
          repeat split; try done;
          first [ apply Z.lt_gt, H2; done | apply H3; done ] ]).
Qed.

Lemma fetch_ok collection conds c :
  fetch collection conds (skip c) (limit c + 1) =
    Ok (fetched c (sorted_matches conds collection)).
Proof.
  pose proof (PageSizes.limit_range c) as Hlim.
  unfold fetch, fetched.
  destruct (Z.ltb_spec 0 (skip c)) as [Hs|Hs].
  - rewrite stage_skip_ok by lia. simpl. apply stage_limit_ok. lia.
  - simpl. replace (Z.to_nat (skip c)) with 0%nat by lia.
    apply stage_limit_ok. lia.
Qed.

Lemma fetched_subseteq c conds collection e :
  e ∈ fetched c (sorted_matches conds collection) →
  e ∈ collection ∧ matches conds e.
Proof.
  unfold fetched. intros He.
  apply subseteq_take, subseteq_drop in He.
  rewrite stage_sort_Permutation in He.
  by apply list_elem_of_filter in He as [? ?].
Qed.

Lemma fetched_length c rows :
  (length (fetched c rows) ≤ Z.to_nat (limit c + 1))%nat.
Proof. unfold fetched. rewrite length_take. lia. Qed.

(** The loop over the fetched rows decodes each of them and keeps the
    timestamp read back from it. *)
Lemma decodeRow_unfold raw :
  decodeRow raw =
    match Decode raw with
    | Ok ev => Ok {| ewt_event := ev; ewt_timestamp := readBack raw |}
    | Err err => Err err
    end.
Proof. done. Qed.

Lemma decodeRow_rows rows all :
  rmapM decodeRow rows = Ok all →
  rmapM Decode rows = Ok (ewt_event Payload <$> all) ∧
  ewt_timestamp Payload <$> all = readBack <$> rows.
Proof.
  revert all. induction rows as [|raw rows IH]; intros all; loop_step.
  - by intros [= <-].
  - rewrite (decodeRow_unfold raw).
    destruct (Decode raw) as [ev|err]; loop_step; [|done].
    destruct (rmapM decodeRow rows) as [rest|err]; loop_step; [|done].
    intros [= <-]. destruct (IH rest eq_refl) as [Hev Hts].
    rewrite Hev, !fmap_cons, Hts. done.
Qed.

Lemma decodeRow_total rows decoded :
  rmapM Decode rows = Ok decoded → ∃ all, rmapM decodeRow rows = Ok all.
Proof.
  revert decoded. induction rows as [|raw rows IH]; intros decoded; loop_step.
  - by eexists.
  - rewrite (decodeRow_unfold raw).
    destruct (Decode raw) as [ev|err]; loop_step; [|done].
    destruct (rmapM Decode rows) as [rest|err]; loop_step; [|done].
    intros _. destruct (IH rest eq_refl) as [all ->]. by eexists.
Qed.

(** Once the request has passed validation and the fetched rows have been
    decoded, the handler answers with the assembled response. *)
Lemma handler_shape collection c conds all :
  matchConditions c = Ok conds →
  rmapM decodeRow (fetched c (sorted_matches conds collection)) = Ok all →
  handler collection c =
    Ok (response_of c
          (Z.of_nat (length (filter (matches conds) collection)))
          (fetched c (sorted_matches conds collection))
          (ewt_event Payload <$> all)).
Proof.
  intros Hconds Hall.
  destruct (decodeRow_rows _ _ Hall) as [_ Hts].
  assert (length all = length (fetched c (sorted_matches conds collection)))
    as Hlen.
  { rewrite <- (length_fmap (ewt_timestamp Payload)), Hts. apply length_fmap. }
  unfold GetConsensusEventsHandler. rewrite Hconds. simpl.
  rewrite fetch_ok. simpl. rewrite Hall. simpl.
  unfold EventsSpec.response_of. rewrite Hlen.
  assert ((if bool_decide
                (limit c < Z.of_nat (length (fetched c (sorted_matches conds collection))))
           then take (Z.to_nat (limit c)) all else all)
          = take (Z.to_nat (limit c)) all) as ->.
  { case_bool_decide; [done|]. rewrite take_ge; [done|lia]. }
  rewrite fmap_take.
  assert (ewt_timestamp Payload <$> last (take (Z.to_nat (limit c)) all)
          = readBack <$> last (take (Z.to_nat (limit c))
                                 (fetched c (sorted_matches conds collection))))
    as ->.
  { by rewrite <- !fmap_last, !fmap_take, Hts. }
  assert (ewt_timestamp Payload <$> head (take (Z.to_nat (limit c)) all)
          = readBack <$> head (take (Z.to_nat (limit c))
                                 (fetched c (sorted_matches conds collection))))
    as ->.
  { by rewrite !head_lookup, <- !list_lookup_fmap, !fmap_take, Hts. }
  done.
Qed.

(** A well-formed request on a decodable collection is answered. *)
Lemma handler_ok collection c :
  valid_request c →
  decodable collection →
  ∃ conds decoded,
    matchConditions c = Ok conds ∧
    rmapM Decode (fetched c (sorted_matches conds collection)) = Ok decoded ∧
    handler collection c =
      Ok (response_of c
            (Z.of_nat (length (filter (matches conds) collection)))
            (fetched c (sorted_matches conds collection)) decoded).
Proof.
  intros Hvalid Hdec.
  destruct (valid_request_conditions c Hvalid) as [conds Hconds].
  destruct (rmapM_ok Decode (fetched c (sorted_matches conds collection)))
    as (decoded & Hdecoded & _).
  { intros e He. apply fetched_subseteq in He as [He _].
    destruct (Hdec e He) as [p Hp].
    unfold DecodeConsensusEvent. rewrite Hp. eauto. }
  destruct (decodeRow_total _ _ Hdecoded) as [all Hall].
  destruct (decodeRow_rows _ _ Hall) as [Hev _].
  rewrite Hdecoded in Hev. injection Hev as ->.
  exists conds, (ewt_event Payload <$> all). by auto using handler_shape.
Qed.

(** Every answer of the handler was assembled that way. *)
Lemma handler_inv collection c resp :
  handler collection c = Ok resp →
  ∃ conds decoded,
    matchConditions c = Ok conds ∧
    rmapM Decode (fetched c (sorted_matches conds collection)) = Ok decoded ∧
    resp = response_of c
             (Z.of_nat (length (filter (matches conds) collection)))
             (fetched c (sorted_matches conds collection)) decoded.
Proof.
  intros Hresp.
  destruct (matchConditions c) as [conds|err] eqn:Hconds.
  - destruct (rmapM decodeRow (fetched c (sorted_matches conds collection)))
      as [all|err] eqn:Hall.
    + rewrite (handler_shape _ _ _ _ Hconds Hall) in Hresp.
      injection Hresp as <-. exists conds, (ewt_event Payload <$> all).
      by destruct (decodeRow_rows _ _ Hall) as [-> _].
    + unfold GetConsensusEventsHandler in Hresp. rewrite Hconds in Hresp.
      simpl in Hresp. rewrite fetch_ok in Hresp. simpl in Hresp.
      rewrite Hall in Hresp. done.
  - unfold GetConsensusEventsHandler in Hresp. by rewrite Hconds in Hresp.
Qed.

Lemma cursorOf_Some enabled ts s :
  cursorOf enabled ts = Some s ↔
  enabled = true ∧ ∃ t, ts = Some t ∧ t ≠ zeroTime ∧ s = FormatRFC3339 t.
Proof.
  unfold ConsensusEvents.cursorOf, IsZero. split.
  - destruct ts as [t|]; [|done]. destruct enabled; [|done]. simpl.
    case_bool_decide as Hz; simpl; [done|].
    intros [= <-]. split; [done|]. by exists t.
  - intros (-> & t & -> & Hnz & ->). simpl.
    by rewrite bool_decide_eq_false_2.
Qed.

(** The same, on the record at one end of the page. *)
Lemma cursorOf_record enabled (at_ : option Event) s :
  cursorOf enabled (readBack <$> at_) = Some s ↔
  enabled = true ∧
  ∃ e, at_ = Some e ∧ readBack e ≠ zeroTime ∧ s = FormatRFC3339 (readBack e).
Proof.
  rewrite cursorOf_Some. split.
  - intros (Hen & t & Ht & Hnz & ->).
    apply fmap_Some in Ht as (e & -> & ->). eauto.
  - intros (Hen & e & -> & Hnz & ->). split; [done|]. by exists (readBack e).
Qed.

(** C5. On every well-formed request the handler fetches, out of the
    selected records sorted by ascending timestamp (selected: not of an
    excluded type, inside the time window, strictly after the cursor,
    strictly before [before]) and after the segment offset, at most
    [limit + 1] rows; [hasNext] holds exactly when [limit + 1] rows came
    back, the response carries the first [limit] of them (the extra row is
    dropped), and [hasPrevious] holds exactly when a cursor was supplied.
    The offset of segment [s] is [(s - 1) * limit], and 0 without a
    segment. *)
Theorem pagination_page collection c :
  valid_request c →
  decodable collection →
  ∃ resp conds rows,
    handler collection c = Ok resp ∧
    (∀ e, matches conds e ↔ selected c e) ∧
    rows ≡ₚ filter (matches conds) collection ∧
    Sorted ascending rows ∧
    (HasNext (Pagination resp) = true ↔
     length (fetched c rows) = Z.to_nat (limit c + 1)) ∧
    rmapM Decode (take (Z.to_nat (limit c)) (fetched c rows)) = Ok (Data resp) ∧
    (length (Data resp) ≤ Z.to_nat (limit c))%nat ∧
    (HasPrevious (Pagination resp) = true ↔ Query c "cursor" ≠ "") ∧
    (∀ segment,
        GoInt.Atoi (Query c "segment") = Some segment →
        0 < segment →
        (segment - 1) * limit c ≤ GoInt.maxInt →
        skip c = (segment - 1) * limit c) ∧
    (Query c "segment" = "" → skip c = 0).
Proof.
  intros Hvalid Hdec.
  destruct (handler_ok collection c Hvalid Hdec)
    as (conds & decoded & Hconds & Hdecoded & ->).
  pose proof (PageSizes.limit_range c) as Hlim.
  eexists _, conds, (sorted_matches conds collection).
  split; [done|]. unfold EventsSpec.response_of. simpl.
  split; [by apply conditions_selected|].
  split; [apply stage_sort_Permutation|].
  split; [apply stage_sort_Sorted|].
  split.
  { rewrite bool_decide_eq_true.
    pose proof (fetched_length c (sorted_matches conds collection)). lia. }
  split; [by apply rmapM_take|].
  split; [rewrite length_take; lia|].
  split; [by rewrite bool_decide_eq_true|].
  apply PageSizes.skip_of_segment.
Qed.

(** C6, as the code has it. On every well-formed request, [nextCursor] is
    present exactly when [hasNext] holds and the timestamp read back from
    the last returned record is not the zero time, and it is then that
    timestamp in RFC 3339; [previousCursor] is present exactly when a
    cursor was supplied, the page is not empty and the timestamp read back
    from the first returned record is not the zero time, and it is then
    that timestamp in RFC 3339. Both are absent on an empty page. The
    timestamp read back is the record's own whenever the driver yields it
    as a time. *)
Theorem cursors_follow_flags collection c :
  valid_request c →
  decodable collection →
  ∃ resp returned,
    handler collection c = Ok resp ∧
    rmapM Decode returned = Ok (Data resp) ∧
    (∀ s, NextCursor (Pagination resp) = Some s ↔
          HasNext (Pagination resp) = true ∧
          ∃ e, last returned = Some e ∧
               extractTimestamp timestampAsTime e ≠ zeroTime ∧
               s = FormatRFC3339 (extractTimestamp timestampAsTime e)) ∧
    (∀ s, PreviousCursor (Pagination resp) = Some s ↔
          Query c "cursor" ≠ "" ∧
          ∃ e, head returned = Some e ∧
               extractTimestamp timestampAsTime e ≠ zeroTime ∧
               s = FormatRFC3339 (extractTimestamp timestampAsTime e)) ∧
    (returned = [] →
     NextCursor (Pagination resp) = None ∧
     PreviousCursor (Pagination resp) = None) ∧
    (∀ e, timestampAsTime e = Some (timestamp e) →
          extractTimestamp timestampAsTime e = timestamp e).
Proof.
  intros Hvalid Hdec.
  destruct (handler_ok collection c Hvalid Hdec)
    as (conds & decoded & Hconds & Hdecoded & ->).
  eexists _, (take (Z.to_nat (limit c))
                (fetched c (sorted_matches conds collection))).
  split; [done|]. unfold EventsSpec.response_of. simpl.
  split; [by apply rmapM_take|].
  split; [intros s; apply cursorOf_record|].
  split; [intros s; rewrite cursorOf_record, bool_decide_eq_true; done|].
  split.
  - intros ->. simpl. unfold ConsensusEvents.cursorOf. done.
  - intros e He. unfold extractTimestamp. by rewrite He.
Qed.

(** C10. Whatever the window, cursor, [before], segment and limit of the
    request, the events of a response are the decodings of stored documents
    none of which has one of the seven excluded types, and the total count,
    when requested, counts selected records only, which excludes these types
    as well. *)
Theorem excluded_types_never_returned collection c resp :
  handler collection c = Ok resp →
  ∃ docs conds,
    rmapM Decode docs = Ok (Data resp) ∧
    docs ⊆ collection ∧
    Forall (λ e, type e ∉ excludedTypes) docs ∧
    (∀ e, matches conds e ↔ selected c e) ∧
    (∀ e, matches conds e → type e ∉ excludedTypes) ∧
    TotalCount (Pagination resp) =
      (if decide (Query c "includeTotalCount" = "true")
       then Some (Z.of_nat (length (filter (matches conds) collection)))
       else None).
Proof.
  intros Hresp.
  destruct (handler_inv collection c resp Hresp)
    as (conds & decoded & Hconds & Hdecoded & ->).
  pose proof (conditions_selected c conds Hconds) as Hsel.
  exists (take (Z.to_nat (limit c))
            (fetched c (sorted_matches conds collection))), conds.
  unfold EventsSpec.response_of. simpl.
  split; [by apply rmapM_take|].
  split.
  { intros e He. apply subseteq_take in He.
    by apply fetched_subseteq in He as [? _]. }
  split.
  { apply Forall_forall. intros e He. apply subseteq_take in He.
    apply fetched_subseteq in He as [_ Hm]. by apply Hsel in Hm as [? _]. }
  split; [done|].
  split; [intros e Hm; by apply Hsel in Hm as [? _]|].
  case_bool_decide; case_decide; done.
Qed.

End Facts.

Import Samples.

Lemma sample_request_valid :
  EventsSpec.valid_request clock parse second_page.
Proof.
  repeat split; intros H; vm_compute in H |- *;
    first [ by eauto | by destruct H | done ].
Qed.

Lemma sample_decodable collection :
  EventsSpec.decodable Event unmarshal collection.
Proof. intros e _. by eexists. Qed.

Lemma pagination_page_witness :
  ∃ resp conds rows,
    handler three_events second_page = Ok resp ∧
    (∀ e, matches conds e ↔ EventsSpec.selected clock parse second_page e) ∧
    rows ≡ₚ filter (matches conds) three_events ∧
    Sorted ascending rows ∧
    (HasNext (Pagination resp) = true ↔
     length (fetched second_page rows) = Z.to_nat (limit second_page + 1)) ∧
    rmapM (DecodeConsensusEvent Event unmarshal)
      (take (Z.to_nat (limit second_page)) (fetched second_page rows))
      = Ok (Data resp) ∧
    (length (Data resp) ≤ Z.to_nat (limit second_page))%nat ∧
    (HasPrevious (Pagination resp) = true ↔ Query second_page "cursor" ≠ "") ∧
    (∀ segment,
        GoInt.Atoi (Query second_page "segment") = Some segment →
        0 < segment →
        (segment - 1) * limit second_page ≤ GoInt.maxInt →
        skip second_page = (segment - 1) * limit second_page) ∧
    (Query second_page "segment" = "" → skip second_page = 0).
Proof.
  apply (pagination_page clock parse format Event unmarshal asTime
           three_events second_page).
  - apply sample_request_valid.
  - apply sample_decodable.
Defined.

Lemma cursors_follow_flags_witness :
  ∃ resp returned,
    handler three_events second_page = Ok resp ∧
    rmapM (DecodeConsensusEvent Event unmarshal) returned = Ok (Data resp) ∧
    (∀ s, NextCursor (Pagination resp) = Some s ↔
          HasNext (Pagination resp) = true ∧
          ∃ e, last returned = Some e ∧
               extractTimestamp asTime e ≠ zeroTime ∧
               s = format (extractTimestamp asTime e)) ∧
    (∀ s, PreviousCursor (Pagination resp) = Some s ↔
          Query second_page "cursor" ≠ "" ∧
          ∃ e, head returned = Some e ∧
               extractTimestamp asTime e ≠ zeroTime ∧
               s = format (extractTimestamp asTime e)) ∧
    (returned = [] →
     NextCursor (Pagination resp) = None ∧
     PreviousCursor (Pagination resp) = None) ∧
    (∀ e, asTime e = Some (timestamp e) →
          extractTimestamp asTime e = timestamp e).
Proof.
  apply (cursors_follow_flags clock parse format Event unmarshal asTime
           three_events second_page).
  - apply sample_request_valid.
  - apply sample_decodable.
Defined.

Lemma excluded_types_never_returned_witness :
  ∃ resp,
    handler three_events second_page = Ok resp ∧
    ∃ docs conds,
      rmapM (DecodeConsensusEvent Event unmarshal) docs = Ok (Data resp) ∧
      docs ⊆ three_events ∧
      Forall (λ e, type e ∉ excludedTypes) docs ∧
      (∀ e, matches conds e ↔ EventsSpec.selected clock parse second_page e) ∧
      (∀ e, matches conds e → type e ∉ excludedTypes) ∧
      TotalCount (Pagination resp) =
        (if decide (Query second_page "includeTotalCount" = "true")
         then Some (Z.of_nat (length (filter (matches conds) three_events)))
         else None).
Proof.
  eexists. split; [vm_compute; reflexivity|].
  apply (excluded_types_never_returned clock parse format Event unmarshal
           asTime three_events second_page).
  vm_compute. reflexivity.
Defined.

(** C6 as stated fails: a first page without a next page is not empty and
    carries neither cursor, although its only record has a timestamp. *)
Lemma cursors_absent_on_nonempty_page :
  ∃ resp e,
    handler one_event [] = Ok resp ∧
    rmapM (DecodeConsensusEvent Event unmarshal) [e] = Ok (Data resp) ∧
    timestamp e = t0 ∧
    format (timestamp e) = "2024-01-01T00:00:00Z" ∧
    NextCursor (Pagination resp) = None ∧
    PreviousCursor (Pagination resp) = None.
Proof.
  eexists _, (event "enteringNewRound" t0).
  split; [vm_compute; reflexivity|].
  vm_compute. repeat split.
Qed.

(** The second page of the sample: of the two records after the cursor the
    first is returned and the second announces a next page; the excluded
    [p2pHasVote] record is neither returned nor counted. *)
Example second_page_response :
  ∃ resp,
    handler three_events second_page = Ok resp ∧
    length (Data resp) = 1%nat ∧
    HasNext (Pagination resp) = true ∧
    HasPrevious (Pagination resp) = true ∧
    NextCursor (Pagination resp) = Some "2024-01-01T00:00:01Z" ∧
    PreviousCursor (Pagination resp) = Some "2024-01-01T00:00:01Z" ∧
    TotalCount (Pagination resp) = Some 2.
Proof.
  eexists. split; [vm_compute; reflexivity|].
  vm_compute. repeat split.
Qed.

(** A malformed cursor is refused before any query runs. *)
Example malformed_cursor_refused :
  handler three_events [("cursor", "yesterday")]
    = Err (StatusBadRequest, "invalid cursor format, use RFC3339").
Proof. vm_compute. reflexivity. Qed.

End ConsensusEventsFacts.

(** ** The percentile threshold filter and the vote statistics *)

Module VoteLatenciesFacts.
Import VoteLatencies LatencySpec Mongo MongoFacts.

Lemma percentileSwitch_value p :
  (percentileSwitch p).1 = requested_percentile p.
Proof.
  unfold percentileSwitch, requested_percentile.
  repeat case_decide; simplify_eq/=; done.
Qed.

Lemma percentileSwitch_key p : (percentileSwitch p).2 ≠ "_id".
Proof. unfold percentileSwitch. repeat case_decide; done. Qed.

Section Facts.
Variable percentile : Q → list Z → Q.

(** C7. A window without a confirmed sample gives the empty result with
    total 0 and no error, whatever the page, the page size and the
    threshold key. *)
Theorem no_confirmed_sample_empty_result coll from to page perPage p :
  filter (confirmedInWindow from to) coll = [] →
  GetVoteLatencies percentile coll from to page perPage p
    = Ok {| Data := []; Total := 0 |}.
Proof.
  intros Hnone. unfold GetVoteLatencies, stage_match.
  destruct (percentileSwitch p) as [pv key].
  rewrite Hnone. by rewrite lookup_empty.
Qed.

(** C4. For every window and threshold key, on a page at least 1 with a
    positive page size (the offset fitting an [int]), the filter returns
    the page [(page - 1) * perPage, +perPage) of the samples that are
    confirmed, inside the window and of latency at least T, sorted by
    ascending [sentTime]; T is the requested percentile of the latency over
    all confirmed samples of the window, and the total counts all samples
    at or above T. *)
Theorem threshold_filter_page coll from to page perPage p :
  1 ≤ page →
  0 < perPage →
  (page - 1) * perPage ≤ GoInt.maxInt →
  ∃ res full,
    GetVoteLatencies percentile coll from to page perPage p = Ok res ∧
    full ≡ₚ filter (aboveThreshold from to (threshold_of percentile coll from to p)) coll ∧
    Sorted by_sentTime full ∧
    Data res = page_of page perPage full ∧
    (length (Data res) ≤ Z.to_nat perPage)%nat ∧
    Total res = Z.of_nat (length full).
Proof.
  intros Hpage HperPage Hfit.
  destruct (filter (confirmedInWindow from to) coll) as [|v vs] eqn:Hmatched.
  - exists {| Data := []; Total := 0 |}, []. split.
    { unfold GetVoteLatencies, stage_match.
      destruct (percentileSwitch p) as [pv key]. by rewrite Hmatched. }
    simpl.
    split.
    { rewrite (filter_sub_nil (confirmedInWindow from to) _ coll); [done| |done].
      by intros x [? _]. }
    split; [constructor|].
    unfold page_of. rewrite drop_nil, take_nil. repeat split. lia.
  - unfold GetVoteLatencies, stage_match, threshold_of.
    pose proof (percentileSwitch_value p) as Hpv.
    pose proof (percentileSwitch_key p) as Hkey.
    destruct (percentileSwitch p) as [pv key]. simpl in Hpv, Hkey.
    rewrite Hmatched. subst pv.
    rewrite lookup_insert_ne by done. rewrite lookup_singleton_eq.
    rewrite GoIntFacts.wrap64_id by (unfold GoInt.minInt; nia).
    rewrite stage_skip_ok by nia. simpl.
    rewrite stage_limit_ok by done. simpl.
    eexists _, _. split; [done|]. simpl.
    split; [apply stage_sort_Permutation|].
    split; [apply stage_sort_Sorted|].
    split; [done|].
    split; [rewrite length_take; lia|].
    by rewrite stage_sort_Permutation.
Qed.

Lemma statistics_row r coll from to :
  r ∈ ComputeVoteStatistics percentile coll from to →
  ∃ g, g = filter (in_group from to (Sender r, Receiver r, VoteType r)) coll ∧
       g ≠ [] ∧
       r = toResponse (addFields percentile ((Sender r, Receiver r, VoteType r), g)).
Proof.
  unfold ComputeVoteStatistics. intros Hr.
  apply list_elem_of_fmap in Hr as (d & -> & Hd).
  rewrite merge_sort_Permutation in Hd.
  apply list_elem_of_fmap in Hd as ([k g] & -> & Hg).
  pose proof (stage_group_nonempty _ _ _ _ Hg) as Hne.
  apply stage_group_members in Hg as (Hg & _).
  destruct k as [[s rc] vt]. simpl.
  exists g. split; [|done].
  rewrite Hg. unfold stage_match. rewrite list_filter_filter.
  apply list_filter_iff. intros v. unfold in_group. tauto.
Qed.

(** C8 (amended). Every row of the vote statistics stands for the
    non-empty group of the confirmed samples of the window with its sender,
    receiver and vote type; its count n is the size of the group; its spike
    percentage is what binary64 arithmetic makes of the number of the
    group's latencies at or above twice the group's own p95, divided by n
    and then multiplied by 100, each of the two steps rounded; it lies in
    [0,100], and it is 0 when every latency of the group is below twice
    that p95. A collection of fewer than 2 ^ 53 samples is assumed, so
    that every count is a double. *)
Theorem spike_percentage coll from to r :
  Z.of_nat (length coll) < 2 ^ 53 →
  r ∈ ComputeVoteStatistics percentile coll from to →
  ∃ group,
    group = filter (in_group from to (Sender r, Receiver r, VoteType r)) coll ∧
    1 ≤ Count r ∧
    Count r = Z.of_nat (length group) ∧
    SpikePerc r =
      (Mongo.toDouble (spike_count percentile group)
       / Mongo.toDouble (Count r) * 100)%float ∧
    (0 <=? SpikePerc r)%float = true ∧
    (SpikePerc r <=? 100)%float = true ∧
    ((∀ v, v ∈ group →
           (inject_Z (latency v) < 2 * group_p95 percentile group)%Q) →
     SpikePerc r = 0%float).
Proof.
  intros Hsize Hr.
  destruct (statistics_row r coll from to Hr) as (g & Hg & Hne & Hrow).
  exists g. split; [done|].
  set (k := (Sender r, Receiver r, VoteType r)) in *.
  assert (spikes (addFields percentile (k, g)) = spike_count percentile g) as Hsp.
  { unfold addFields, spike_count. simpl.
    rewrite filter_length_fmap. f_equal. f_equal.
    apply list_filter_iff. intros v. unfold is_spike, group_p95, first_or_zero.
    simpl. by rewrite Qmult_comm. }
  assert (Count r = Z.of_nat (length g)) as Hcount by (by rewrite Hrow).
  assert (SpikePerc r =
          (Mongo.toDouble (spike_count percentile g)
           / Mongo.toDouble (Count r) * 100)%float) as Hperc.
  { transitivity
      (Mongo.toDouble (spikes (addFields percentile (k, g)))
       / Mongo.toDouble (count (addFields percentile (k, g))) * 100)%float;
      [by rewrite Hrow at 1|].
    rewrite Hsp. by rewrite Hcount. }
  assert (1 ≤ Count r) as Hpos.
  { rewrite Hcount. destruct g; [done|]. simpl length. lia. }
  assert (0 ≤ spike_count percentile g ≤ Count r) as Hrange.
  { unfold spike_count. rewrite Hcount.
    pose proof (length_filter (is_spike percentile g) g). lia. }
  assert (Count r < 2 ^ 53) as Hfit.
  { rewrite Hcount, Hg.
    pose proof (length_filter (in_group from to k) coll). lia. }
  destruct (Binary64Ratio.percentage_bounds (spike_count percentile g) (Count r))
    as (Hlo & Hhi & Hzero); [done|done|].
  rewrite <- Hperc in Hlo, Hhi, Hzero.
  split; [done|]. split; [done|]. split; [done|].
  split; [done|]. split; [done|].
  intros Hbelow. apply Hzero.
  unfold spike_count. rewrite filter_none; [done|].
  intros v Hv Hspike. by apply (Qlt_not_le _ _ (Hbelow v Hv)).
Qed.

End Facts.

Import Samples MoreSamples.

Lemma no_confirmed_sample_empty_result_witness :
  filter (confirmedInWindow 0 100) unconfirmed_only = [] ∧
  GetVoteLatencies percentile unconfirmed_only 0 100 1 2 "p50"
    = Ok {| Data := []; Total := 0 |}.
Proof.
  split; [reflexivity|].
  apply (no_confirmed_sample_empty_result percentile unconfirmed_only 0 100 1 2 "p50").
  reflexivity.
Defined.

Lemma threshold_filter_page_witness :
  ∃ res full,
    GetVoteLatencies percentile samples 0 100 1 2 "p50" = Ok res ∧
    full ≡ₚ filter (aboveThreshold 0 100
                      (threshold_of percentile samples 0 100 "p50")) samples ∧
    Sorted by_sentTime full ∧
    Data res = page_of 1 2 full ∧
    (length (Data res) ≤ Z.to_nat 2)%nat ∧
    Total res = Z.of_nat (length full).
Proof.
  apply (threshold_filter_page percentile samples 0 100 1 2 "p50").
  - lia.
  - lia.
  - unfold GoInt.maxInt. lia.
Defined.

(** The sample window: latencies 5, 2 and 8; the median is 5, and the two
    samples at or above it come back in the order they were sent. *)
Example threshold_filter_sample :
  threshold_of percentile samples 0 100 "p50" = inject_Z 5 ∧
  GetVoteLatencies percentile samples 0 100 1 2 "p50"
    = Ok {| Data := [sample 0 5 "confirmed"; sample 2 10 "confirmed"];
            Total := 2 |} ∧
  GetVoteLatencies percentile samples 0 100 2 1 "p50"
    = Ok {| Data := [sample 2 10 "confirmed"]; Total := 2 |}.
Proof. vm_compute. repeat split. Qed.

Lemma spike_percentage_witness :
  ∃ r,
    ComputeVoteStatistics percentile spiky 0 100 = [r] ∧
    ∃ group,
      group = filter (in_group 0 100 (Sender r, Receiver r, VoteType r)) spiky ∧
      1 ≤ Count r ∧
      Count r = Z.of_nat (length group) ∧
      SpikePerc r =
        (Mongo.toDouble (spike_count percentile group)
         / Mongo.toDouble (Count r) * 100)%float ∧
      (0 <=? SpikePerc r)%float = true ∧
      (SpikePerc r <=? 100)%float = true ∧
      ((∀ v, v ∈ group →
             (inject_Z (latency v) < 2 * group_p95 percentile group)%Q) →
       SpikePerc r = 0%float).
Proof.
  eexists. split; [vm_compute; reflexivity|].
  apply (spike_percentage percentile spiky 0 100).
  - vm_compute. reflexivity.
  - replace (ComputeVoteStatistics percentile spiky 0 100)
      with [toResponse (addFields percentile
              (("A", "B", "prevote"), filter (confirmedInWindow 0 100) spiky))]
      by (vm_compute; reflexivity).
    left.
Defined.

(** C8 (as stated, it fails). A group of 200 latencies, 7 of them at
    twice the p95: the claim's 100 × 7 / 200 is 3.5, which is a double, and
    which binary64 also gives when the product is taken first; the store
    rounds the quotient 7 / 200 first and returns the next double after
    3.5. *)
Theorem spike_percentage_rounded_twice :
  ∃ r group,
    ComputeVoteStatistics percentile spiky 0 100 = [r] ∧
    group = filter (in_group 0 100 (Sender r, Receiver r, VoteType r)) spiky ∧
    Count r = 200 ∧
    spike_count percentile group = 7 ∧
    (100 * inject_Z 7 / inject_Z 200 == 7 / 2)%Q ∧
    (100 * Mongo.toDouble 7 / Mongo.toDouble 200)%float = (7 / 2)%float ∧
    (SpikePerc r =? 7 / 2)%float = false ∧
    SpikePerc r = next_up (7 / 2)%float.
Proof.
  eexists _, _. split; [vm_compute; reflexivity|].
  split; [reflexivity|]. vm_compute. repeat split.
Qed.

(** The scenario of the specification: latencies 5, 2 and 8 in one group;
    the maximum is 8 and no latency reaches twice the p95. *)
Example statistics_sample :
  ∃ r,
    ComputeVoteStatistics percentile samples 0 100 = [r] ∧
    Count r = 3 ∧
    (P50 r == 5 / 1000000)%Q ∧
    (Max r == 8 / 1000000)%Q ∧
    SpikePerc r = 0%float.
Proof.
  eexists. split; [vm_compute; reflexivity|].
  vm_compute. repeat split.
Qed.

End VoteLatenciesFacts.

(** ** Queries over the events collection *)

Module EventMetricsFacts.
Import ConsensusEvents EventMetrics Mongo MongoFacts.

Lemma sum_zero (l : list Z) : Forall (λ z, z = 0) l → sum l = 0.
Proof. induction 1 as [|z l -> _ IH]; simpl; [done | by rewrite IH]. Qed.

(** Whatever the collection holds, the first stage keeps [sendVote]
    events only, so no row ever counts a reception. *)
Lemma success_rate_counts_no_reception coll from to r :
  r ∈ ComputeMessageSuccessRate coll from to →
  recvCnt r = 0 ∧ successRate r == 0.
Proof.
  unfold ComputeMessageSuccessRate. intros Hr.
  rewrite stage_sort_Permutation in Hr.
  apply list_elem_of_fmap in Hr as ([k g] & -> & Hg).
  apply stage_group_members in Hg as (-> & _).
  assert (sum (pr_recv <$> filter (λ x, group_key x = k)
            (project <$> stage_match (λ e, type e ∈ ["sendVote"; "receiveVote"])
               (stage_match (matchTime from to) coll))) = 0) as Hzero.
  { apply sum_zero, Forall_fmap, Forall_forall. intros p Hp.
    apply list_elem_of_filter in Hp as [_ Hp].
    apply list_elem_of_fmap in Hp as (e & -> & He).
    apply list_elem_of_filter in He as [_ He].
    apply list_elem_of_filter in He as [[_ Hty] _].
    unfold project. simpl. rewrite Hty. done. }
  unfold rate_of. simpl. rewrite Hzero. split; [done|].
  case_decide; [done|]. unfold Qdiv. ring.
Qed.

(** Whatever the collections hold, no event passes both the first stage
    (type [sendVote]) and the second (type [enteringNewRound]). *)
Lemma end_to_end_always_empty percentile events coll from to :
  ComputeBlockEndToEndLatencyByHeight percentile events coll from to = [].
Proof.
  unfold ComputeBlockEndToEndLatencyByHeight, stage_match.
  rewrite (filter_none _ (filter (matchTime from to) coll)).
  - done.
  - intros e He Hty. apply list_elem_of_filter in He as [[_ Hsend] _].
    rewrite Hsend in Hty. discriminate Hty.
Qed.

Import Samples.

(** C1 (the code departs from it). In the window [t0, t2] a vote sent by
    A to B at height 1 and its reception by B form one group with one
    [sendVote] and one [receiveVote] event, so the claim asks for
    [sentCnt = 1], [recvCnt = 1] and [successRate = 1]; the query returns
    the row with [recvCnt = 0] and [successRate = 0]. *)
Theorem success_rate_misses_receptions :
  spec_sent_count sent_and_received t0 t2 (1, "A", "B") = 1 ∧
  spec_recv_count sent_and_received t0 t2 (1, "A", "B") = 1 ∧
  ComputeMessageSuccessRate sent_and_received t0 t2 =
    [ {| msr_height := 1; sender := "A"; receiver := "B";
         sentCnt := 1; recvCnt := 0; successRate := 0 |} ].
Proof. vm_compute. repeat split. Qed.

(** C2 (the code departs from it). In the window [t0, t2] the round of
    height 5 entered at [t0] with its block complete at [t1] is one latency
    point of [t1 - t0] for the claim; the query returns no row at all. *)
Theorem end_to_end_returns_nothing percentile :
  spec_end_to_end_points one_round one_round t0 t2 =
    [ {| lp_height := 5; latencyMs := t1 - t0 |} ] ∧
  ComputeBlockEndToEndLatencyByHeight percentile one_round one_round t0 t2 = [].
Proof.
  split; [vm_compute; reflexivity|]. apply end_to_end_always_empty.
Qed.

End EventMetricsFacts.

(** ** The network latency overview *)

Module NetworkLatencyFacts.
Import NetworkLatency.

(** Halving an odd count loses a sample: a node seen in one pair with
    count 5 and p95 200 is credited a weight of 500 for 2 samples. *)
Example single_pair_average :
  NodeLatencyContribution (GetNetworkLatencyOverview [summary "B" "C" 5 200])
    !! "C" = Some 250%float.
Proof. vm_compute. reflexivity. Qed.

(** C3 (the code departs from it). On the two summaries of the scenario
    the overall weighted p95 is 2000/15, within 0.05 of 133.3 as the claim
    says. The average of node B is 1000/7 (above 142) and not the
    1000/7.5 = 2000/15 of the claim: the weight is halved exactly, the
    count by integer division (5 for 10, 2 for 5). *)
Theorem overview_scenario :
  OverallWeightedAvgP95LatencyMs (GetNetworkLatencyOverview scenario)
    = (2000 / 15)%float ∧
  spec_overall_average = (2000 / 15)%float ∧
  close_to_133_3 (2000 / 15)%float = true ∧
  NodeLatencyContribution (GetNetworkLatencyOverview scenario) !! "B"
    = Some (1000 / 7)%float ∧
  spec_node_B_average = (2000 / 15)%float ∧
  close_to_133_3 (1000 / 7)%float = false ∧
  (142 <? 1000 / 7)%float = true ∧
  nodeStats (foldl processDocument
               {| messageTypeStats := ∅; nodeStats := ∅;
                  overallWeightedP95 := 0%float; overallCount := 0 |}
               scenario) !! "B"
    = Some {| totalWeightedP95 := 1000%float; totalCount := 7 |}.
Proof. vm_compute. repeat split. Qed.

End NetworkLatencyFacts.

(** ** The time window of a request *)

Module TimeWindowFacts.

(** X1. The time window of a request is resolved exactly as follows: [to]
    is the parsed parameter, or the current time when it is absent; [from]
    is the parsed parameter, or one minute before [to] when it is absent.
    The call fails exactly when a supplied bound does not parse; the two
    bounds are never compared with each other. *)
Theorem time_window_resolution (now : Time) (ParseRFC3339 : string → option Time)
    (c : Context) (f t : Time) :
  TimeWindowFromContext now ParseRFC3339 c = Ok (f, t) ↔
  (Query c "to" = "" → t = now) ∧
  (Query c "to" ≠ "" → ParseRFC3339 (Query c "to") = Some t) ∧
  (Query c "from" = "" → f = t - Minute) ∧
  (Query c "from" ≠ "" → ParseRFC3339 (Query c "from") = Some f).
Proof.
  unfold TimeWindowFromContext.
  destruct (decide (Query c "from" = "" ∧ Query c "to" = "")) as [[Hf Ht]|Hne].
  - rewrite Hf, Ht. split.
    + intros [= <- <-]. repeat split; try done; lia.
    + intros (Hnow & _ & Hmin & _). rewrite (Hnow eq_refl), (Hmin eq_refl), (Hnow eq_refl).
      do 2 f_equal; lia.
  - destruct (decide (Query c "to" = "")) as [Ht|Ht];
      destruct (decide (Query c "from" = "")) as [Hf|Hf]; try tauto.
    + destruct (ParseRFC3339 (Query c "from")) as [pf|] eqn:Hpf; simpl.
      * split; [intros [= <- <-]; by repeat split|].
        intros (Hnow & _ & _ & Hfrom). rewrite (Hnow Ht).
        specialize (Hfrom Hf). by simplify_eq.
      * split; [done|]. intros (_ & _ & _ & Hfrom). by specialize (Hfrom Hf).
    + destruct (ParseRFC3339 (Query c "to")) as [pt|] eqn:Hpt; simpl.
      * split.
        -- intros [= <- <-]. repeat split; try done; lia.
        -- intros (_ & Hto & Hmin & _). specialize (Hto Ht). simplify_eq.
           rewrite (Hmin Hf). do 2 f_equal; lia.
      * split; [done|]. intros (_ & Hto & _). by specialize (Hto Ht).
    + destruct (ParseRFC3339 (Query c "to")) as [pt|] eqn:Hpt; simpl.
      * destruct (ParseRFC3339 (Query c "from")) as [pf|] eqn:Hpf; simpl.
        -- split; [intros [= <- <-]; by repeat split|].
           intros (_ & Hto & _ & Hfrom).
           specialize (Hto Ht). specialize (Hfrom Hf). by simplify_eq.
        -- split; [done|]. intros (_ & _ & _ & Hfrom). by specialize (Hfrom Hf).
      * split; [done|]. intros (_ & Hto & _). by specialize (Hto Ht).
Qed.

End TimeWindowFacts.

(** ** More on event pagination *)

Module EventPagesFacts.
Import ConsensusEvents EventsSpec EventSelection EventErrors.
Import Mongo MongoFacts ConsensusEventsFacts.

Lemma StronglySorted_take {A} (R : relation A) n (l : list A) :
  StronglySorted R l → StronglySorted R (take n l).
Proof.
  intros Hl. rewrite <- (take_drop n l) in Hl.
  by apply StronglySorted_app_1_l in Hl.
Qed.

Lemma StronglySorted_drop {A} (R : relation A) n (l : list A) :
  StronglySorted R l → StronglySorted R (drop n l).
Proof.
  intros Hl. rewrite <- (take_drop n l) in Hl.
  by apply StronglySorted_app_1_r in Hl.
Qed.

(** The last element of a sorted list bounds the others. *)
Lemma StronglySorted_last {A} (R : relation A) `{!Reflexive R} (l : list A) x m :
  StronglySorted R l → last l = Some m → x ∈ l → R x m.
Proof.
  intros Hl Hlast Hx.
  apply last_Some in Hlast as [l' ->].
  apply elem_of_app in Hx as [Hx|Hx].
  - apply (StronglySorted_app_1_elem_of R l' [m]); [done|done|by left].
  - apply list_elem_of_singleton in Hx as ->. done.
Qed.

Lemma rmapM_length {E A B} (f : A → result E B) (l : list A) ys :
  rmapM f l = Ok ys → length ys = length l.
Proof.
  revert ys. induction l as [|x l IH]; intros ys; simpl.
  - by intros [= <-].
  - destruct (f x) as [y|]; simpl; [|done].
    destruct (rmapM f l) as [zs|]; simpl; [|done].
    intros [= <-]. simpl. by rewrite (IH zs).
Qed.

Global Instance ascending_refl : Reflexive ascending.
Proof. intros x. unfold ascending. lia. Qed.

Global Instance ascending_trans : Transitive ascending.
Proof. intros x y z. unfold ascending. lia. Qed.

(** The time window depends on the [from] and [to] parameters only. *)
Lemma TimeWindowFromContext_ext now Parse (c c' : Context) :
  Query c' "from" = Query c "from" →
  Query c' "to" = Query c "to" →
  TimeWindowFromContext now Parse c' = TimeWindowFromContext now Parse c.
Proof. intros Hf Ht. unfold TimeWindowFromContext. by rewrite Hf, Ht. Qed.

Section Facts.
Variable now : Time.
Variable ParseRFC3339 : string → option Time.
Variable FormatRFC3339 : Time → string.
Variable Payload : Type.
Variable Unmarshal : EventKind → Event → option Payload.
Variable timestampAsTime : Event → option Time.

Abbreviation matchConditions := (matchConditions now ParseRFC3339).
Abbreviation handler :=
  (GetConsensusEventsHandler now ParseRFC3339 FormatRFC3339 Payload
     Unmarshal timestampAsTime).
Abbreviation Decode := (DecodeConsensusEvent Payload Unmarshal).
Abbreviation valid_request := (valid_request now ParseRFC3339).
Abbreviation selected := (selected now ParseRFC3339).
Abbreviation decodable := (decodable Payload Unmarshal).
Abbreviation response_of := (response_of FormatRFC3339 Payload timestampAsTime).
Abbreviation readBack := (extractTimestamp timestampAsTime).
Abbreviation sorted_matches conds collection :=
  (stage_sort timestamp (stage_match (matches conds) collection)).
Abbreviation handler_inv :=
  (handler_inv now ParseRFC3339 FormatRFC3339 Payload Unmarshal timestampAsTime).

Lemma conditions_valid c conds :
  matchConditions c = Ok conds → valid_request c.
Proof.
  unfold ConsensusEvents.matchConditions, EventsSpec.valid_request.
  destruct (bool_decide _) eqn:Ht.
  - destruct (TimeWindowFromContext _ _ _) as [[f t]|]; simpl; [|done].
    destruct (decide (Query c "cursor" ≠ "")) as [Hcur|Hcur];
      [destruct (ParseRFC3339 (Query c "cursor")) as [ct|]; simpl; [|done]|];
      (destruct (decide (Query c "before" ≠ "")) as [Hbef|Hbef];
        [destruct (ParseRFC3339 (Query c "before")) as [bt|]; simpl; [|done]|]);
      intros _; repeat split; intros; by eauto.
  - apply bool_decide_eq_false in Ht. simpl.
    destruct (decide (Query c "cursor" ≠ "")) as [Hcur|Hcur];
      [destruct (ParseRFC3339 (Query c "cursor")) as [ct|]; simpl; [|done]|];
      (destruct (decide (Query c "before" ≠ "")) as [Hbef|Hbef];
        [destruct (ParseRFC3339 (Query c "before")) as [bt|]; simpl; [|done]|]);
      intros _; repeat split; intros; by eauto.
Qed.

Lemma conditions_refused c err :
  matchConditions c = Err err →
  ∃ msg, err = (StatusBadRequest, msg) ∧ msg ∈ refusals.
Proof.
  unfold ConsensusEvents.matchConditions, refusals. intros H.
  repeat (match type of H with
          | context [bool_decide ?P] => destruct (bool_decide P)
          | context [TimeWindowFromContext ?a ?b ?d] =>
              destruct (TimeWindowFromContext a b d) as [[? ?]|]
          | context [ParseRFC3339 ?x] => destruct (ParseRFC3339 x)
          | context [decide (Query ?d ?k ≠ "")] =>
              destruct (decide (Query d k ≠ ""))
          end; simpl in H);
    simplify_eq; eexists; (split; [done|set_solver]).
Qed.

(** X2. A request is answered 400 exactly when one of its timestamps
    ([from], [to], [cursor], [before]) does not parse, with one of three
    fixed messages and whatever the collection holds (no query runs). A
    well-formed request is answered 200 when the fetched documents decode,
    and its only possible failure is a 500. *)
Theorem refusal_or_answer (c : Context) :
  (¬ valid_request c ∧
   ∃ msg, msg ∈ refusals ∧
          ∀ collection, handler collection c = Err (StatusBadRequest, msg)) ∨
  (valid_request c ∧
   ∀ collection,
     (decodable collection → ∃ resp, handler collection c = Ok resp) ∧
     (∀ err, handler collection c = Err err →
             err.1 = StatusInternalServerError)).
Proof.
  destruct (matchConditions c) as [conds|err] eqn:Hconds.
  - right. pose proof (conditions_valid c conds Hconds) as Hvalid.
    split; [done|]. intros collection. split.
    + intros Hdec.
      destruct (handler_ok now ParseRFC3339 FormatRFC3339 Payload Unmarshal
                  timestampAsTime collection c Hvalid Hdec)
        as (? & ? & _ & _ & ->). by eexists.
    + intros err. unfold GetConsensusEventsHandler. rewrite Hconds. simpl.
      rewrite fetch_ok. simpl.
      destruct (rmapM _ _); simpl; [done|]. by intros [= <-].
  - left. destruct (conditions_refused c err Hconds) as (msg & -> & Hmsg).
    split.
    + intros Hvalid.
      destruct (valid_request_conditions now ParseRFC3339 c Hvalid) as [conds Hok].
      rewrite Hok in Hconds. done.
    + exists msg. split; [done|]. intros collection.
      unfold GetConsensusEventsHandler. by rewrite Hconds.
Qed.

(** The documents behind a response. *)
Lemma response_docs collection c resp :
  handler collection c = Ok resp →
  ∃ conds docs,
    matchConditions c = Ok conds ∧
    docs = take (Z.to_nat (limit c)) (fetched c (sorted_matches conds collection)) ∧
    rmapM Decode docs = Ok (Data resp) ∧
    length (Data resp) = length docs ∧
    NextCursor (Pagination resp) =
      cursorOf FormatRFC3339
        (bool_decide (limit c < Z.of_nat (length
           (fetched c (sorted_matches conds collection)))))
        (readBack <$> last docs) ∧
    TotalCount (Pagination resp) =
      (if bool_decide (Query c "includeTotalCount" = "true")
       then Some (Z.of_nat (length (filter (matches conds) collection)))
       else None).
Proof.
  intros Hresp.
  destruct (handler_inv collection c resp Hresp)
    as (conds & decoded & Hconds & Hdecoded & ->).
  exists conds, (take (Z.to_nat (limit c))
                   (fetched c (sorted_matches conds collection))).
  unfold EventsSpec.response_of. simpl.
  split; [done|]. split; [done|].
  split; [by apply rmapM_take|].
  split; [|done].
  rewrite !length_take. by rewrite (rmapM_length _ _ _ Hdecoded).
Qed.

Lemma sorted_matches_sorted conds collection :
  StronglySorted ascending (sorted_matches conds collection).
Proof.
  apply Sorted_StronglySorted; [apply _|]. apply stage_sort_Sorted.
Qed.

(** X3. Within one response the events are in ascending order of
    timestamp: they decode stored documents each of which is at or before
    all that follow it. *)
Theorem page_in_ascending_order collection c resp :
  handler collection c = Ok resp →
  ∃ docs,
    rmapM Decode docs = Ok (Data resp) ∧
    docs ⊆ collection ∧
    StronglySorted ascending docs.
Proof.
  intros Hresp.
  destruct (response_docs collection c resp Hresp)
    as (conds & docs & Hconds & -> & Hdocs & _).
  eexists. split; [done|]. split.
  - intros e He. apply subseteq_take in He.
    by apply fetched_subseteq in He as [? _].
  - apply StronglySorted_take. unfold fetched.
    apply StronglySorted_take, StronglySorted_drop, sorted_matches_sorted.
Qed.

(** The selection depends on the four timestamp parameters only. *)
Lemma selected_ext (c c' : Context) :
  Query c' "from" = Query c "from" →
  Query c' "to" = Query c "to" →
  Query c' "cursor" = Query c "cursor" →
  Query c' "before" = Query c "before" →
  ∀ e, selected c' e ↔ selected c e.
Proof.
  intros Hf Ht Hc Hb e. unfold EventsSpec.selected.
  rewrite (TimeWindowFromContext_ext now ParseRFC3339 c c') by done.
  by rewrite Hf, Ht, Hc, Hb.
Qed.

(** X4. The total count is present exactly when [includeTotalCount] is
    ["true"]; it is the number of stored records the request selects
    (cursor and [before] bounds included), each stored record counting
    once, so it is never below the number of events returned; and it is
    the same for every request that differs in [limit] and [segment]
    only. *)
Theorem total_count_covers_page collection c resp :
  handler collection c = Ok resp →
  (is_Some (TotalCount (Pagination resp)) ↔ Query c "includeTotalCount" = "true") ∧
  (∀ n, TotalCount (Pagination resp) = Some n →
        n = Z.of_nat (length (filter (selected c) collection)) ∧
        Z.of_nat (length (Data resp)) ≤ n) ∧
  (∀ c' resp',
     (∀ k, k ≠ "limit" → k ≠ "segment" → Query c' k = Query c k) →
     handler collection c' = Ok resp' →
     TotalCount (Pagination resp') = TotalCount (Pagination resp)).
Proof.
  intros Hresp.
  destruct (response_docs collection c resp Hresp)
    as (conds & docs & Hconds & -> & _ & Hlen & _ & Htotal).
  pose proof (conditions_selected now ParseRFC3339 c conds Hconds) as Hsel.
  assert (filter (matches conds) collection = filter (selected c) collection)
    as Hcounted by (by apply list_filter_iff).
  split; [|split].
  - rewrite Htotal.
    case_bool_decide; split; first [done | by eexists | by intros [? ?]].
  - intros n. rewrite Htotal. case_bool_decide; [|done]. intros [= <-]. split.
    + by rewrite Hcounted.
    + rewrite Hlen, length_take. unfold fetched.
      rewrite length_take, length_drop.
      rewrite (Permutation_length (stage_sort_Permutation timestamp _)).
      unfold stage_match. lia.
  - intros c' resp' Hsame Hresp'.
    destruct (response_docs collection c' resp' Hresp')
      as (conds' & docs' & Hconds' & _ & _ & _ & _ & Htotal').
    pose proof (conditions_selected now ParseRFC3339 c' conds' Hconds') as Hsel'.
    rewrite Htotal, Htotal', (Hsame "includeTotalCount") by done.
    destruct (bool_decide _); [|done]. do 3 f_equal.
    apply list_filter_iff. intros e. rewrite Hsel, Hsel'.
    apply selected_ext; by apply Hsame.
Qed.


End Facts.

Import Samples MoreSamples.

Lemma page_in_ascending_order_witness :
  ∃ resp,
    Samples.handler three_events second_page = Ok resp ∧
    ∃ docs,
      rmapM (DecodeConsensusEvent Event unmarshal) docs = Ok (Data resp) ∧
      docs ⊆ three_events ∧
      StronglySorted ascending docs.
Proof.
  eexists. split; [vm_compute; reflexivity|].
  apply (page_in_ascending_order clock parse format Event unmarshal asTime
           three_events second_page).
  vm_compute. reflexivity.
Defined.

Lemma total_count_covers_page_witness :
  ∃ resp,
    Samples.handler three_events second_page = Ok resp ∧
    (is_Some (TotalCount (Pagination resp)) ↔
     Query second_page "includeTotalCount" = "true") ∧
    (∀ n, TotalCount (Pagination resp) = Some n →
          n = Z.of_nat (length (filter (EventsSpec.selected clock parse second_page)
                                  three_events)) ∧
          Z.of_nat (length (Data resp)) ≤ n) ∧
    (∀ c' resp',
       (∀ k, k ≠ "limit" → k ≠ "segment" → Query c' k = Query second_page k) →
       Samples.handler three_events c' = Ok resp' →
       TotalCount (Pagination resp') = TotalCount (Pagination resp)).
Proof.
  eexists. split; [vm_compute; reflexivity|].
  apply (total_count_covers_page clock parse format Event unmarshal asTime
           three_events second_page).
  vm_compute. reflexivity.
Defined.


(** The records of the sample are stamped half a second after [t0] and a
    quarter of a second after [t1]; the cursor of the first page is [t0],
    and the page that follows it is the first page again. *)
Example cursor_repeats_the_last_record :
  ∃ resp resp',
    GetConsensusEventsHandler clock parse format_seconds Event unmarshal asTime
      sub_second_events first_page = Ok resp ∧
    NextCursor (Pagination resp) = Some "2024-01-01T00:00:00Z" ∧
    GetConsensusEventsHandler clock parse format_seconds Event unmarshal asTime
      sub_second_events next_page = Ok resp' ∧
    length (Data resp) = 1%nat ∧
    Data resp' = Data resp.
Proof.
  eexists _, _. split; [vm_compute; reflexivity|].
  split; [reflexivity|]. split; [vm_compute; reflexivity|].
  split; reflexivity.
Qed.

End EventPagesFacts.

(** ** More on the latency table *)

Module LatencyPagesFacts.
Import VoteLatencies LatencySpec LatencyPages Mongo MongoFacts VoteLatenciesFacts.

Section Facts.
Variable percentile : Q → list Z → Q.

Abbreviation above_sorted := (above_sorted percentile).

(** The result of the filter on valid paging arguments. *)
Lemma GetVoteLatencies_page coll from to page perPage p :
  1 ≤ page →
  0 < perPage →
  (page - 1) * perPage ≤ GoInt.maxInt →
  GetVoteLatencies percentile coll from to page perPage p =
    Ok {| Data := page_of page perPage (above_sorted coll from to p);
          Total := Z.of_nat (length (above_sorted coll from to p)) |}.
Proof.
  intros Hpage HperPage Hfit.
  unfold LatencyPages.above_sorted.
  destruct (filter (confirmedInWindow from to) coll) as [|v vs] eqn:Hmatched.
  - rewrite (filter_sub_nil (confirmedInWindow from to) _ coll);
      [|by intros x [? _]|done].
    unfold GetVoteLatencies, stage_match.
    destruct (percentileSwitch p) as [pv key]. rewrite Hmatched.
    rewrite lookup_empty.
    change (stage_sort sentTime (@nil VoteLatency)) with (@nil VoteLatency).
    unfold page_of. by rewrite drop_nil, take_nil.
  - unfold GetVoteLatencies, stage_match, threshold_of.
    pose proof (percentileSwitch_value p) as Hpv.
    pose proof (percentileSwitch_key p) as Hkey.
    destruct (percentileSwitch p) as [pv key]. simpl in Hpv, Hkey.
    rewrite Hmatched. subst pv.
    rewrite lookup_insert_ne by done. rewrite lookup_singleton_eq.
    rewrite GoIntFacts.wrap64_id by (unfold GoInt.minInt; nia).
    rewrite stage_skip_ok by nia. simpl.
    rewrite stage_limit_ok by done. simpl.
    unfold page_of. do 2 f_equal.
    by rewrite !(Permutation_length (stage_sort_Permutation sentTime _)).
Qed.


(** X7. The number of rows of a page: [perPage] as long as that many rows
    are left after the offset, the rows that are left on the last page, and
    none on a page past the end. *)
Theorem page_length coll from to page perPage p :
  1 ≤ page →
  0 < perPage →
  (page - 1) * perPage ≤ GoInt.maxInt →
  ∃ res,
    GetVoteLatencies percentile coll from to page perPage p = Ok res ∧
    Z.of_nat (length (Data res)) =
      Z.min perPage (Z.max 0 (Total res - (page - 1) * perPage)) ∧
    (Total res ≤ (page - 1) * perPage → Data res = []).
Proof.
  intros Hpage HperPage Hfit.
  rewrite GetVoteLatencies_page by done.
  assert (0 ≤ (page - 1) * perPage) as Hoff by nia.
  eexists. split; [done|]. simpl. unfold page_of. split.
  - rewrite length_take, length_drop. lia.
  - intros Hpast. rewrite drop_ge by lia. by rewrite take_nil.
Qed.

(** X8. Paging arguments the handler never passes are refused by the
    store, but only when the window holds a confirmed sample: with one, a
    page size that is not positive, or a page below 1, is an error (while an
    empty window answers before the arguments are looked at). *)
Theorem invalid_paging_refused coll from to page perPage p :
  filter (confirmedInWindow from to) coll ≠ [] →
  perPage ≤ 0 ∨ (page < 1 ∧ GoInt.minInt ≤ (page - 1) * perPage) →
  ∃ msg, GetVoteLatencies percentile coll from to page perPage p = Err msg.
Proof.
  intros Hsome Hbad.
  unfold GetVoteLatencies, stage_match.
  pose proof (percentileSwitch_key p) as Hkey.
  destruct (percentileSwitch p) as [pv key]. simpl in Hkey.
  destruct (filter (confirmedInWindow from to) coll) as [|v vs]; [done|].
  rewrite lookup_insert_ne by done. rewrite lookup_singleton_eq.
  unfold stage_skip, stage_limit.
  destruct (Z.ltb_spec (GoInt.wrap64 ((page - 1) * perPage)) 0) as [Hneg|Hpos];
    simpl; [by eexists|].
  destruct (Z.leb_spec perPage 0) as [Hle|Hgt]; simpl; [by eexists|].
  exfalso. destruct Hbad as [Hbad|[Hlow Hfit]]; [lia|].
  rewrite GoIntFacts.wrap64_id in Hpos by (unfold GoInt.maxInt, GoInt.minInt in *; nia).
  nia.
Qed.

(** X9. A window whose end lies before its start holds no sample: the
    filter answers the empty page with total 0 and the statistics have no
    row. *)
Theorem inverted_window_is_empty coll from to page perPage p :
  to < from →
  GetVoteLatencies percentile coll from to page perPage p
    = Ok {| Data := []; Total := 0 |} ∧
  ComputeVoteStatistics percentile coll from to = [].
Proof.
  intros Hinv.
  assert (filter (confirmedInWindow from to) coll = []) as Hnone.
  { apply filter_none. intros v _ (_ & Hlo & Hhi). lia. }
  split.
  - unfold GetVoteLatencies, stage_match.
    destruct (percentileSwitch p) as [pv key].
    rewrite Hnone. by rewrite lookup_empty.
  - unfold ComputeVoteStatistics, stage_match. by rewrite Hnone.
Qed.

End Facts.

Import Samples.


Lemma page_length_witness :
  ∃ res,
    GetVoteLatencies percentile samples 0 100 2 2 "p50" = Ok res ∧
    Z.of_nat (length (Data res)) =
      Z.min 2 (Z.max 0 (Total res - (2 - 1) * 2)) ∧
    (Total res ≤ (2 - 1) * 2 → Data res = []).
Proof.
  apply (page_length percentile samples 0 100 2 2 "p50").
  - lia.
  - lia.
  - unfold GoInt.maxInt. lia.
Defined.

Lemma invalid_paging_refused_witness :
  ∃ msg, GetVoteLatencies percentile samples 0 100 0 10 "p95" = Err msg.
Proof.
  apply (invalid_paging_refused percentile samples 0 100 0 10 "p95").
  - vm_compute. discriminate.
  - right. unfold GoInt.minInt. lia.
Defined.

Lemma inverted_window_is_empty_witness :
  GetVoteLatencies percentile samples 100 0 1 10 "p95"
    = Ok {| Data := []; Total := 0 |} ∧
  ComputeVoteStatistics percentile samples 100 0 = [].
Proof.
  apply (inverted_window_is_empty percentile samples 100 0 1 10 "p95"). lia.
Defined.

End LatencyPagesFacts.

(** ** More on the vote statistics *)

Module VoteStatisticsFacts.
Import VoteLatencies LatencySpec LatencyPages Mongo MongoFacts VoteLatenciesFacts.

Lemma total_Permutation (l k : list Z) : l ≡ₚ k → total l = total k.
Proof. unfold total. induction 1; simpl in *; lia. Qed.

Lemma total_add {A} (f g : A → Z) (l : list A) :
  total ((λ x, f x + g x) <$> l) = total (f <$> l) + total (g <$> l).
Proof.
  unfold total. induction l as [|x l IH]; [done|].
  rewrite !fmap_cons. simpl. rewrite IH. lia.
Qed.

Lemma total_cons (x : Z) (l : list Z) : total (x :: l) = x + total l.
Proof. done. Qed.

Lemma total_indicator_absent {K} `{!EqDecision K} (k : K) (ks : list K) :
  k ∉ ks → total ((λ k', if decide (k = k') then 1 else 0) <$> ks) = 0.
Proof.
  induction ks as [|k' ks IH]; [done|]. intros Hnotin.
  apply not_elem_of_cons in Hnotin as [Hne Hnotin].
  rewrite fmap_cons, total_cons, IH by done.
  by destruct (decide (k = k')).
Qed.

Lemma total_indicator {K} `{!EqDecision K} (k : K) (ks : list K) :
  NoDup ks → k ∈ ks →
  total ((λ k', if decide (k = k') then 1 else 0) <$> ks) = 1.
Proof.
  induction 1 as [|k' ks Hnotin Hnodup IH]; intros Hin.
  - by apply not_elem_of_nil in Hin.
  - rewrite fmap_cons, total_cons. destruct (decide (k = k')) as [->|Hne].
    + by rewrite total_indicator_absent.
    + apply elem_of_cons in Hin as [?|Hin]; [done|]. by rewrite IH.
Qed.

(** The groups of a list partition it. *)
Lemma groups_partition {A K} `{!EqDecision K} (key : A → K) (l : list A) (ks : list K) :
  NoDup ks → (∀ x, x ∈ l → key x ∈ ks) →
  total ((λ k, Z.of_nat (length (filter (λ x, key x = k) l))) <$> ks)
    = Z.of_nat (length l).
Proof.
  intros Hnodup. induction l as [|x l IH]; intros Hcover.
  - clear. induction ks as [|k ks IH]; [done|].
    rewrite fmap_cons, total_cons, IH. done.
  - rewrite <- (list_fmap_ext
      (λ k, (if decide (key x = k) then 1 else 0)
            + Z.of_nat (length (filter (λ y, key y = k) l))) _ ks).
    + rewrite total_add, IH, total_indicator; [simpl length; lia|done| |].
      * apply Hcover. by left.
      * intros y Hy. apply Hcover. by right.
    + intros _ k _. rewrite filter_cons.
      destruct (decide (key x = k)); simpl length; lia.
Qed.

Lemma compare_id_antisym (a b : StatsId) :
  compare_id b a = CompOpp (compare_id a b).
Proof.
  unfold compare_id.
  rewrite (String.compare_antisym b.1.1 a.1.1),
    (String.compare_antisym b.1.2 a.1.2), (String.compare_antisym b.2 a.2).
  destruct (String.compare a.1.1 b.1.1); simpl; try done.
  destruct (String.compare a.1.2 b.1.2); simpl; done.
Qed.

Global Instance id_le_total {A} (key : A → StatsId) : base.Total (id_le key).
Proof.
  intros x y. unfold id_le. rewrite (compare_id_antisym (key x) (key y)).
  destruct (compare_id (key x) (key y)); simpl; auto.
Qed.


Section Facts.
Variable percentile : Q → list Z → Q.

Abbreviation rows coll from to := (ComputeVoteStatistics percentile coll from to).

Lemma rows_Permutation coll from to :
  rows coll from to ≡ₚ
    toResponse <$> (addFields percentile <$>
      stage_group stats_id (filter (confirmedInWindow from to) coll)).
Proof.
  unfold ComputeVoteStatistics, stage_match.
  by rewrite merge_sort_Permutation.
Qed.

(** X10. The counts of the rows of the vote statistics add up to the
    number of confirmed samples of the window: every such sample is counted
    in exactly one row. *)
Theorem statistics_counts_partition coll from to :
  total (Count <$> rows coll from to)
    = Z.of_nat (length (filter (confirmedInWindow from to) coll)).
Proof.
  rewrite (total_Permutation _ _ (fmap_Permutation Count _ _ (rows_Permutation coll from to))).
  unfold stage_group. rewrite <- !list_fmap_compose.
  rewrite (list_fmap_ext _
    (λ k, Z.of_nat (length (filter (λ x, stats_id x = k)
                              (filter (confirmedInWindow from to) coll))))).
  - apply groups_partition; [apply NoDup_remove_dups|].
    intros v Hv. apply elem_of_remove_dups, list_elem_of_fmap. eauto.
  - by intros _ k _.
Qed.

(** X11. The vote statistics have one row per (sender, receiver, vote
    type) that has a confirmed sample in the window, and the rows come in
    the lexicographic order of these three strings. *)
Theorem statistics_rows_ordered coll from to :
  Sorted (id_le row_key) (rows coll from to) ∧
  NoDup (row_key <$> rows coll from to) ∧
  ∀ k, k ∈ row_key <$> rows coll from to ↔
       ∃ v, v ∈ coll ∧ confirmedInWindow from to v ∧ stats_id v = k.
Proof.
  assert (row_key <$> rows coll from to ≡ₚ
          remove_dups (stats_id <$> filter (confirmedInWindow from to) coll))
    as Hkeys.
  { rewrite (fmap_Permutation row_key _ _ (rows_Permutation coll from to)).
    unfold stage_group. rewrite <- !list_fmap_compose.
    rewrite (list_fmap_ext _ id); [by rewrite list_fmap_id|].
    by intros _ [[? ?] ?] _. }
  split; [|split].
  - unfold ComputeVoteStatistics.
    apply (Sorted_fmap _ (id_le _id)).
    + by intros [[[? ?] ?] ? ? ? ? ? ? ? ? ? ? ?] [[[? ?] ?] ? ? ? ? ? ? ? ? ? ? ?].
    + apply (Sorted_merge_sort (id_le _id)).
  - rewrite Hkeys. apply NoDup_remove_dups.
  - intros k. rewrite Hkeys, elem_of_remove_dups, list_elem_of_fmap. split.
    + intros (v & -> & Hv). apply list_elem_of_filter in Hv as [? ?]. eauto.
    + intros (v & Hv & Hc & <-). exists v. split; [done|].
      by apply list_elem_of_filter.
Qed.


End Facts.

Import Samples.


End VoteStatisticsFacts.

(** ** The latency table handler *)

Module LatencyHandlerFacts.
Import VoteLatencies LatencySpec LatencyPages MetricsHandler Mongo MongoFacts.
Import VoteLatenciesFacts LatencyPagesFacts.

Lemma page_range (c : Context) : 1 ≤ page c.
Proof.
  unfold page. destruct (decide _); [|lia].
  destruct (GoInt.Atoi _) as [v|]; [|lia].
  destruct (Z.ltb_spec 0 v); lia.
Qed.

Lemma ceiling_pages (total perPage : Z) :
  0 ≤ total → 0 < perPage → total + perPage - 1 ≤ GoInt.maxInt →
  let pages := GoInt.wrap64 (GoInt.wrap64 (total + perPage - 1) ÷ perPage) in
  0 ≤ pages ∧ (pages - 1) * perPage < total ≤ pages * perPage.
Proof.
  intros Htotal Hpp Hfit. cbv zeta.
  rewrite (GoIntFacts.wrap64_id (total + perPage - 1))
    by (unfold GoInt.minInt, GoInt.maxInt in *; lia).
  rewrite Z.quot_div_nonneg by lia.
  pose proof (Z.div_mod (total + perPage - 1) perPage ltac:(lia)) as Hdiv.
  pose proof (Z.mod_pos_bound (total + perPage - 1) perPage Hpp) as Hmod.
  assert (0 ≤ (total + perPage - 1) `div` perPage) as Hq
    by (apply Z.div_pos; lia).
  assert ((total + perPage - 1) `div` perPage ≤ total + perPage - 1) as Hle
    by (apply Z.div_le_upper_bound; nia).
  rewrite GoIntFacts.wrap64_id by (unfold GoInt.minInt, GoInt.maxInt in *; lia).
  split; [done|]. nia.
Qed.

Section Facts.
Variable now : Time.
Variable ParseRFC3339 : string → option Time.
Variable percentile : Q → list Z → Q.

Abbreviation Handler := (GetVoteLatenciesHandler now ParseRFC3339 percentile).

Lemma above_sorted_length coll from to p :
  (length (above_sorted percentile coll from to p) ≤ length coll)%nat.
Proof.
  unfold above_sorted. rewrite (stage_sort_Permutation sentTime _).
  apply length_filter.
Qed.

(** X13. Whenever the time window of the request can be read, the
    latency table handler answers (no value of page, perPage or threshold is
    refused), as long as the offset of the page fits a Go int: the answer
    carries the effective page and page size, the number of samples at or
    above the threshold, a page count that is the least number of pages
    holding them all, and rows exactly on the pages up to that count. *)
Theorem latency_table_response coll c from to :
  TimeWindowFromContext now ParseRFC3339 c = Ok (from, to) →
  (page c - 1) * perPage c ≤ GoInt.maxInt →
  Z.of_nat (length coll) + 1000 ≤ GoInt.maxInt →
  ∃ resp, Handler coll c = Ok resp ∧
    let m := r_Pagination resp in
    Page m = page c ∧ PerPage m = perPage c ∧
    m_Total m = Z.of_nat (length (above_sorted percentile coll from to (threshold c))) ∧
    0 ≤ TotalPages m ∧
    (TotalPages m - 1) * PerPage m < m_Total m ≤ TotalPages m * PerPage m ∧
    Z.of_nat (length (r_Data resp)) ≤ PerPage m ∧
    (r_Data resp = [] ↔ TotalPages m < Page m).
Proof.
  intros Hwindow Hoffset Hsize.
  pose proof (page_range c) as Hpage.
  pose proof (PageSizes.perPage_range c) as HperPage.
  pose proof (above_sorted_length coll from to (threshold c)) as Hlen.
  unfold GetVoteLatenciesHandler. rewrite Hwindow.
  cbn beta iota zeta delta [mbind result_bind mret result_ret].
  rewrite GetVoteLatencies_page by lia.
  cbn beta iota zeta delta [mbind result_bind mret result_ret Data Total].
  eexists. split; [reflexivity|].
  cbn beta iota zeta delta [r_Pagination r_Data Page PerPage m_Total TotalPages].
  set (full := above_sorted percentile coll from to (threshold c)) in *.
  destruct (ceiling_pages (Z.of_nat (length full)) (perPage c))
    as (Hpages & Hlow & Hhigh); [lia|lia|lia|].
  set (pages := GoInt.wrap64 _) in *.
  assert (0 ≤ (page c - 1) * perPage c) as Hoff by nia.
  split; [done|]. split; [done|]. split; [done|]. split; [done|].
  split; [done|]. split.
  - rewrite length_fmap. unfold page_of. rewrite length_take. lia.
  - rewrite <- length_zero_iff_nil, length_fmap. unfold page_of.
    rewrite length_take, length_drop. split; intros H; nia.
Qed.

(** X14. The page number is bounded only by the Go int: when the offset
    [(page - 1) * perPage] wraps around to a negative number and the window
    holds a confirmed sample, the store refuses the negative skip and the
    handler answers 500. *)
Theorem overflowing_page_is_server_error coll c from to :
  TimeWindowFromContext now ParseRFC3339 c = Ok (from, to) →
  filter (confirmedInWindow from to) coll ≠ [] →
  GoInt.wrap64 ((page c - 1) * perPage c) < 0 →
  ∃ msg, Handler coll c = Err (500, msg).
Proof.
  intros Hwindow Hsome Hneg.
  unfold GetVoteLatenciesHandler. rewrite Hwindow.
  cbn beta iota zeta delta [mbind result_bind mret result_ret].
  unfold GetVoteLatencies, stage_match.
  pose proof (percentileSwitch_key (threshold c)) as Hkey.
  destruct (percentileSwitch (threshold c)) as [pv key]. simpl in Hkey.
  destruct (filter (confirmedInWindow from to) coll) as [|v vs]; [done|].
  rewrite lookup_insert_ne by done. rewrite lookup_singleton_eq.
  unfold stage_skip.
  destruct (Z.ltb_spec (GoInt.wrap64 ((page c - 1) * perPage c)) 0); [|lia].
  by eexists.
Qed.

End Facts.

Import Samples MoreSamples.

Lemma latency_table_response_witness :
  ∃ resp,
    GetVoteLatenciesHandler clock parse percentile timed_samples window_request = Ok resp ∧
    let m := r_Pagination resp in
    Page m = page window_request ∧ PerPage m = perPage window_request ∧
    m_Total m = Z.of_nat (length (above_sorted percentile timed_samples t0 t2
                                    (threshold window_request))) ∧
    0 ≤ TotalPages m ∧
    (TotalPages m - 1) * PerPage m < m_Total m ≤ TotalPages m * PerPage m ∧
    Z.of_nat (length (r_Data resp)) ≤ PerPage m ∧
    (r_Data resp = [] ↔ TotalPages m < Page m).
Proof.
  apply (latency_table_response clock parse percentile timed_samples window_request t0 t2).
  - vm_compute. reflexivity.
  - vm_compute. discriminate.
  - vm_compute. discriminate.
Defined.

Lemma overflowing_page_is_server_error_witness :
  ∃ msg, GetVoteLatenciesHandler clock parse percentile timed_samples far_page
           = Err (500, msg).
Proof.
  apply (overflowing_page_is_server_error clock parse percentile timed_samples far_page t0 t2).
  - vm_compute. reflexivity.
  - vm_compute. discriminate.
  - vm_compute. reflexivity.
Defined.

End LatencyHandlerFacts.

(** ** More on the message success rate *)

Module SuccessRateFacts.
Import ConsensusEvents EventMetrics SuccessRateSpec Mongo MongoFacts EventMetricsFacts.

Lemma sum_ones (l : list Z) : Forall (λ z, z = 1) l → sum l = Z.of_nat (length l).
Proof.
  induction 1 as [|z l -> _ IH]; [done|].
  change (sum (1 :: l)) with (1 + sum l). rewrite IH. simpl length. lia.
Qed.

Lemma sends_of_window coll from to e :
  e ∈ stage_match (λ e, type e ∈ ["sendVote"; "receiveVote"])
        (stage_match (matchTime from to) coll) ↔
  e ∈ coll ∧ type e = "sendVote" ∧ from ≤ timestamp e ∧ timestamp e ≤ to.
Proof.
  unfold stage_match, matchTime. rewrite !list_elem_of_filter. split.
  - intros (_ & (? & ?) & ?). tauto.
  - intros (? & Hty & ? & ?). rewrite Hty. split; [by left|]. tauto.
Qed.

Lemma group_of_key coll from to k :
  length (filter (λ p, group_key p = k)
            (project <$> stage_match (λ e, type e ∈ ["sendVote"; "receiveVote"])
                           (stage_match (matchTime from to) coll)))
    = length (filter (spec_in_group from to "sendVote" k) coll).
Proof.
  rewrite filter_length_fmap. unfold stage_match.
  rewrite !list_filter_filter. f_equal. apply list_filter_iff.
  intros e. unfold spec_in_group, matchTime. split.
  - tauto.
  - intros (Hty & ? & ? & ?). rewrite Hty.
    split; [split; [done | by left]|]. tauto.
Qed.

Lemma rate_rows_Permutation coll from to :
  ComputeMessageSuccessRate coll from to ≡ₚ
    rate_of <$> stage_group group_key
      (project <$> stage_match (λ e, type e ∈ ["sendVote"; "receiveVote"])
                     (stage_match (matchTime from to) coll)).
Proof. unfold ComputeMessageSuccessRate. apply stage_sort_Permutation. Qed.

(** X15. Every row of the success rate counts, as [sentCnt], the
    [sendVote] events of the window with the row's height, sender and
    receiver; there is at least one, so the guard against a division by zero
    never fires, and the row counts no reception. *)
Theorem success_rate_rows coll from to r :
  r ∈ ComputeMessageSuccessRate coll from to →
  sentCnt r = spec_sent_count coll from to (rate_key r) ∧
  1 ≤ sentCnt r ∧
  recvCnt r = 0.
Proof.
  intros Hr. pose proof Hr as Hrecv.
  apply success_rate_counts_no_reception in Hrecv as [Hrecv _].
  rewrite rate_rows_Permutation in Hr.
  apply list_elem_of_fmap in Hr as ([[[h s] rc] g] & -> & Hg).
  pose proof (stage_group_nonempty _ _ _ _ Hg) as Hne.
  apply stage_group_members in Hg as (Hg & _).
  assert (sum (pr_sent <$> g) = Z.of_nat (length g)) as Hsum.
  { rewrite <- (length_fmap pr_sent g).
    apply sum_ones, Forall_fmap, Forall_forall. intros p Hp.
    rewrite Hg in Hp. apply list_elem_of_filter in Hp as [_ Hp].
    apply list_elem_of_fmap in Hp as (e & -> & He).
    apply sends_of_window in He as (_ & Hty & _).
    unfold project. simpl. by rewrite Hty. }
  unfold rate_key, rate_of, spec_sent_count. simpl.
  rewrite Hsum. split; [|split].
  - rewrite Hg. by rewrite group_of_key.
  - destruct g; [done|]. simpl length. lia.
  - done.
Qed.

(** X16. The rows of the success rate come by ascending height, no two of
    them for the same height, sender and receiver, and every [sendVote]
    event of the window is counted in the row of its height, its node and
    its recipient. *)
Theorem success_rate_rows_ordered coll from to :
  Sorted (key_le msr_height) (ComputeMessageSuccessRate coll from to) ∧
  NoDup (rate_key <$> ComputeMessageSuccessRate coll from to) ∧
  ∀ e, e ∈ coll → type e = "sendVote" → from ≤ timestamp e ≤ to →
       (vote_height e, nodeId e, recipientPeerId e)
         ∈ rate_key <$> ComputeMessageSuccessRate coll from to.
Proof.
  assert (rate_key <$> ComputeMessageSuccessRate coll from to ≡ₚ
          remove_dups (group_key <$>
            (project <$> stage_match (λ e, type e ∈ ["sendVote"; "receiveVote"])
                           (stage_match (matchTime from to) coll)))) as Hkeys.
  { rewrite (fmap_Permutation rate_key _ _ (rate_rows_Permutation coll from to)).
    unfold stage_group. rewrite <- !list_fmap_compose.
    rewrite (list_fmap_ext _ id); [by rewrite list_fmap_id|].
    by intros _ [[? ?] ?] _. }
  split; [|split].
  - apply stage_sort_Sorted.
  - rewrite Hkeys. apply NoDup_remove_dups.
  - intros e He Hty Hwin. rewrite Hkeys, elem_of_remove_dups.
    apply list_elem_of_fmap. exists (project e). split.
    + unfold group_key, project. simpl. by rewrite Hty.
    + apply list_elem_of_fmap. exists e. split; [done|].
      apply sends_of_window. tauto.
Qed.

Import Samples.

Lemma success_rate_rows_witness :
  ∃ r, ComputeMessageSuccessRate sent_and_received t0 t2 = [r] ∧
       sentCnt r = spec_sent_count sent_and_received t0 t2 (rate_key r) ∧
       1 ≤ sentCnt r ∧
       recvCnt r = 0.
Proof.
  eexists. split; [vm_compute; reflexivity|].
  apply (success_rate_rows sent_and_received t0 t2).
  vm_compute. left.
Defined.

End SuccessRateFacts.

(** ** The block latency time series *)

Module BlockLatencyTimeSeriesFacts.
Import ConsensusEvents EventMetrics BlockLatencyTimeSeries TimeSeriesSpec.
Import Mongo MongoFacts.

Lemma filter_fmap {A B} (f : A → B) (P : B → Prop)
    `{!∀ y, Decision (P y)} (l : list A) :
  filter P (f <$> l) = f <$> filter (λ x, P (f x)) l.
Proof.
  induction l as [|x l IH]; [done|].
  rewrite fmap_cons, !filter_cons.
  destruct (decide (P (f x))); by rewrite ?fmap_cons, IH.
Qed.

(** The join, one sending event at a time. *)
Lemma joined_as_pairs events coll from to :
  (send ← stage_match (λ e, type e = "sendVote")
            (stage_match (matchTime from to) coll);
   recvDocs events send)
  = point <$> filter (answered from to) (pairs coll events).
Proof.
  unfold stage_match, pairs.
  induction coll as [|send coll IH]; [done|].
  rewrite bind_cons, filter_app, fmap_app, <- IH.
  rewrite filter_cons.
  destruct (decide (matchTime from to send)) as [[Hwin Hty]|Hno].
  - rewrite filter_cons. destruct (decide (type send = "sendVote")); [|done].
    rewrite bind_cons. f_equal.
    rewrite filter_fmap, <- list_fmap_compose. unfold recvDocs, stage_match.
    rewrite (list_filter_iff (recvMatch send)
               (λ recv, answered from to (send, recv))); [done|].
    intros recv. unfold recvMatch, answered. simpl. tauto.
  - rewrite (filter_none (answered from to)); [done|].
    intros p Hp Hans. apply list_elem_of_fmap in Hp as (recv & -> & _).
    apply Hno. unfold matchTime, answered in *. simpl in Hans. tauto.
Qed.

(** X17. The pipeline of the time series yields, up to their order,
    exactly one document for every pair of a stored [sendVote] event of the
    window and a stored [receiveVote] event answering it (same height, round
    and validator index, sent by the sender's node, received by its
    recipient), whether or not the reception falls in the window: a pair
    stored twice yields two documents, a send without a reception none; the
    document carries the height, the two nodes and the distance of the two
    timestamps, and the documents come by ascending height. *)
Theorem time_series_points events coll from to :
  pipeline events coll from to
    ≡ₚ point <$> filter (answered from to) (pairs coll events) ∧
  Sorted (key_le rd_height) (pipeline events coll from to).
Proof.
  split; [|apply stage_sort_Sorted].
  unfold pipeline. rewrite stage_sort_Permutation.
  by rewrite joined_as_pairs.
Qed.

End BlockLatencyTimeSeriesFacts.

(** ** More on the network overview *)

Module OverviewFacts.
Import NetworkLatency OverviewSpec.

Lemma processMessageType_uncounted n1 n2 acc entry :
  counted entry.2 = None → processMessageType n1 n2 acc entry = acc.
Proof.
  destruct entry as [msgType msgData]. unfold counted, processMessageType. simpl.
  destruct msgData as [| | | |msgInfo|]; try done.
  destruct (get msgInfo "count") as [[]|]; try done.
  destruct (get msgInfo "p95LatencyMs") as [[]|]; done.
Qed.

Lemma processMessageType_counted n1 n2 acc entry count p95Latency :
  counted entry.2 = Some (count, p95Latency) →
  processMessageType n1 n2 acc entry =
    let weightedP95 := (float64 p95Latency * float64 count)%float in
    {| messageTypeStats :=
         accumulate entry.1 weightedP95 count (messageTypeStats acc);
       nodeStats :=
         accumulate n2 (weightedP95 / 2)%float (count ÷ 2)
           (accumulate n1 (weightedP95 / 2)%float (count ÷ 2) (nodeStats acc));
       overallWeightedP95 := (overallWeightedP95 acc + weightedP95)%float;
       overallCount := GoInt.wrap64 (overallCount acc + count) |}.
Proof.
  destruct entry as [msgType msgData]. unfold counted, processMessageType. simpl.
  destruct msgData as [| | | |msgInfo|]; try done.
  destruct (get msgInfo "count") as [[]|]; try done.
  destruct (get msgInfo "p95LatencyMs") as [[]|]; try done.
  by intros [= -> ->].
Qed.

Lemma processDocument_entries acc doc :
  processDocument acc doc =
    foldl (processMessageType (as_string (get doc "node1Id"))
                              (as_string (get doc "node2Id")))
      acc (entries doc).
Proof.
  unfold processDocument, entries.
  destruct (get doc "messageTypes") as [[]|]; done.
Qed.

(** A loop whose body leaves the state alone on every element. *)
Lemma foldl_unchanged {A B} (f : A → B → A) (P : A → Prop) (l : list B) (a : A) :
  P a → (∀ a x, P a → x ∈ l → P (f a x)) → P (foldl f a l).
Proof.
  revert a. induction l as [|x l IH]; intros a Ha Hstep; [done|].
  simpl. apply IH.
  - apply Hstep; [done | by left].
  - intros a' y Ha' Hy. apply Hstep; [done | by right].
Qed.

Lemma averages_no_count (stats : gmap string stat) :
  (∀ k st, stats !! k = Some st → totalCount st ≤ 0) →
  averages stats = (∅, unnamed).
Proof.
  intros Hzero. unfold averages.
  apply (foldl_unchanged _ (λ st, st = (∅, unnamed))); [done|].
  intros st [k v] -> Hkv. apply elem_of_map_to_list in Hkv.
  apply Hzero in Hkv. simpl.
  destruct (Z.ltb_spec 0 (totalCount v)); [lia | done].
Qed.

Lemma accumulate_counts key w n stats (P : Z → Prop) :
  (∀ k st, stats !! k = Some st → P (totalCount st)) →
  P n → (∀ m, P m → P (GoInt.wrap64 (m + n))) →
  ∀ k st, accumulate key w n stats !! k = Some st → P (totalCount st).
Proof.
  intros Hstats Hn Hadd k st. unfold accumulate.
  destruct (stats !! key) as [old|] eqn:Hold.
  - destruct (decide (k = key)) as [->|Hne].
    + rewrite lookup_insert_eq. intros [= <-]. simpl. apply Hadd. eauto.
    + rewrite lookup_insert_ne by done. apply Hstats.
  - destruct (decide (k = key)) as [->|Hne].
    + rewrite lookup_insert_eq. by intros [= <-].
    + rewrite lookup_insert_ne by done. apply Hstats.
Qed.

(** The highest entry of a table, when one is named, is an entry of the
    table of averages. *)
Lemma averages_highest (stats : gmap string stat) :
  (averages stats).2 = unnamed ∨
  (averages stats).1 !! Name (averages stats).2
    = Some (LatencyMs (averages stats).2).
Proof.
  unfold averages.
  pose proof (NoDup_fst_map_to_list stats) as Hnodup.
  assert (∀ (l : list (string * stat)) (st : gmap string float * LatencyInfo),
    NoDup l.*1 →
    st.2 = unnamed ∨ (st.1 !! Name st.2 = Some (LatencyMs st.2) ∧ Name st.2 ∉ l.*1) →
    let st' :=
      foldl (λ (st : gmap string float * LatencyInfo) (kv : string * stat),
               if 0 <? totalCount kv.2 then
                 let avgLatency :=
                   (totalWeightedP95 kv.2 / float64 (totalCount kv.2))%float in
                 (<[kv.1 := avgLatency]> st.1,
                  if (LatencyMs st.2 <? avgLatency)%float
                  then {| Name := kv.1; LatencyMs := avgLatency |}
                  else st.2)
               else st) st l in
    st'.2 = unnamed ∨ st'.1 !! Name st'.2 = Some (LatencyMs st'.2)) as Hloop.
  { induction l as [|[k v] l IH]; intros st Hnd Hinv.
    - simpl. destruct Hinv as [?|[? _]]; auto.
    - rewrite fmap_cons in Hnd. apply NoDup_cons in Hnd as [Hk Hnd].
      simpl foldl. apply IH; [done|]. simpl.
      destruct (0 <? totalCount v).
      + simpl. destruct (LatencyMs st.2 <? _)%float.
        * right. simpl. rewrite lookup_insert_eq. done.
        * destruct Hinv as [?|[Hlook Hnotin]]; [by left|right].
          rewrite fmap_cons in Hnotin.
          apply not_elem_of_cons in Hnotin as [Hne Hnotin].
          rewrite lookup_insert_ne by done. done.
      + destruct Hinv as [?|[Hlook Hnotin]]; [by left|right].
        rewrite fmap_cons in Hnotin.
        apply not_elem_of_cons in Hnotin as [Hne Hnotin]. done. }
  apply Hloop; [done | by left].
Qed.

(** X18. A message type entry that does not carry its count as a
    32-bit integer and its 95th percentile as a 64-bit integer is passed
    over without a word: when no entry of the collection is typed that way,
    the overview is the empty one. *)
Theorem untyped_counts_ignored (coll : list M) :
  (∀ doc entry, doc ∈ coll → entry ∈ entries doc → counted entry.2 = None) →
  GetNetworkLatencyOverview coll =
    {| OverallWeightedAvgP95LatencyMs := 0%float;
       MessageTypeWithHighestAvgP95 := unnamed;
       NodeWithHighestAvgP95 := unnamed;
       MessageTypeLatency := ∅;
       NodeLatencyContribution := ∅ |}.
Proof.
  intros Hnone. unfold GetNetworkLatencyOverview.
  set (init := {| messageTypeStats := ∅; nodeStats := ∅;
                  overallWeightedP95 := 0%float; overallCount := 0 |}).
  assert (foldl processDocument init coll = init) as ->.
  { apply (foldl_unchanged _ (λ acc, acc = init)); [done|].
    intros acc doc -> Hdoc. rewrite processDocument_entries.
    apply (foldl_unchanged _ (λ acc, acc = init)); [done|].
    intros acc entry -> Hentry.
    apply processMessageType_uncounted. by apply (Hnone doc). }
  done.
Qed.

(** X19. Halving the count as an integer loses every pair that exchanged
    a single message of a type: when every count of the collection is 1 (or
    0, or -1), no node gets an average at all and no node is named as the
    highest. *)
Theorem single_messages_leave_no_node_average (coll : list M) :
  (∀ doc entry count p95Latency,
     doc ∈ coll → entry ∈ entries doc →
     counted entry.2 = Some (count, p95Latency) → -2 < count < 2) →
  NodeLatencyContribution (GetNetworkLatencyOverview coll) = ∅ ∧
  NodeWithHighestAvgP95 (GetNetworkLatencyOverview coll) = unnamed.
Proof.
  intros Hone. unfold GetNetworkLatencyOverview. simpl.
  set (init := {| messageTypeStats := ∅; nodeStats := ∅;
                  overallWeightedP95 := 0%float; overallCount := 0 |}).
  assert (∀ k st, nodeStats (foldl processDocument init coll) !! k = Some st →
                  totalCount st = 0) as Hzero.
  { apply (foldl_unchanged _
      (λ acc, ∀ k st, nodeStats acc !! k = Some st → totalCount st = 0)).
    { intros k st. unfold init. simpl. by rewrite lookup_empty. }
    intros acc doc Hacc Hdoc. rewrite processDocument_entries.
    apply (foldl_unchanged _
      (λ acc, ∀ k st, nodeStats acc !! k = Some st → totalCount st = 0));
      [done|].
    clear acc Hacc. intros acc entry Hacc Hentry.
    destruct (counted entry.2) as [[count p95Latency]|] eqn:Hcounted.
    - rewrite (processMessageType_counted _ _ _ _ _ _ Hcounted). simpl.
      assert (count ÷ 2 = 0) as ->.
      { specialize (Hone doc entry count p95Latency Hdoc Hentry Hcounted).
        apply Z.quot_small_iff; lia. }
      apply (accumulate_counts _ _ _ _ (λ z, z = 0)); [|done|by intros m ->].
      apply (accumulate_counts _ _ _ _ (λ z, z = 0)); [done|done|by intros m ->].
    - by rewrite processMessageType_uncounted. }
  rewrite averages_no_count; [done|].
  intros k st Hst. rewrite (Hzero k st Hst). done.
Qed.

(** X20. Whatever the collection holds, the message type and the node
    reported as the highest, when one is named, are entries of the two
    tables of averages, with the reported latency. *)
Theorem highest_entries_are_in_tables (coll : list M) :
  (MessageTypeWithHighestAvgP95 (GetNetworkLatencyOverview coll) = unnamed ∨
   MessageTypeLatency (GetNetworkLatencyOverview coll)
     !! Name (MessageTypeWithHighestAvgP95 (GetNetworkLatencyOverview coll))
     = Some (LatencyMs (MessageTypeWithHighestAvgP95 (GetNetworkLatencyOverview coll)))) ∧
  (NodeWithHighestAvgP95 (GetNetworkLatencyOverview coll) = unnamed ∨
   NodeLatencyContribution (GetNetworkLatencyOverview coll)
     !! Name (NodeWithHighestAvgP95 (GetNetworkLatencyOverview coll))
     = Some (LatencyMs (NodeWithHighestAvgP95 (GetNetworkLatencyOverview coll)))).
Proof.
  unfold GetNetworkLatencyOverview. simpl. split; apply averages_highest.
Qed.

Import MoreSamples.

Lemma untyped_counts_ignored_witness :
  GetNetworkLatencyOverview [wide_count] =
    {| OverallWeightedAvgP95LatencyMs := 0%float;
       MessageTypeWithHighestAvgP95 := unnamed;
       NodeWithHighestAvgP95 := unnamed;
       MessageTypeLatency := ∅;
       NodeLatencyContribution := ∅ |}.
Proof.
  apply (untyped_counts_ignored [wide_count]).
  intros doc entry Hdoc Hentry.
  apply list_elem_of_singleton in Hdoc as ->.
  apply list_elem_of_singleton in Hentry as ->. reflexivity.
Defined.

Lemma single_messages_leave_no_node_average_witness :
  NodeLatencyContribution (GetNetworkLatencyOverview [summary "A" "B" 1 100]) = ∅ ∧
  NodeWithHighestAvgP95 (GetNetworkLatencyOverview [summary "A" "B" 1 100]) = unnamed.
Proof.
  apply (single_messages_leave_no_node_average [summary "A" "B" 1 100]).
  intros doc entry count p95Latency Hdoc Hentry.
  apply list_elem_of_singleton in Hdoc as ->.
  apply list_elem_of_singleton in Hentry as ->.
  intros [= <- <-]. lia.
Defined.

End OverviewFacts.

(** ** The rate limiter *)

Module RateLimitFacts.
Import RateLimit.

Lemma min_le (a b : Z) : min a b ≤ a ∧ min a b ≤ b.
Proof. unfold min. destruct (Z.ltb_spec a b); lia. Qed.

Section Facts.
Variable Sub : Time → Time → Z.
Variable Seconds : Z → float.
Variable int : float → Z.

(** X21. A call of [Allow] touches the entry of the asking client only:
    the client is known afterwards, with [now] as the instant it was last
    seen, every other client keeps its entry, and the rate and the burst
    stay what they were. An unknown client is let through whatever the
    burst, even a burst of zero. *)
Theorem allow_touches_one_client rl now clientID :
  (∃ client,
     clients (Allow Sub Seconds int rl now clientID).1 !! clientID = Some client ∧
             lastSeen client = now) ∧
  (∀ other, other ≠ clientID →
     clients (Allow Sub Seconds int rl now clientID).1 !! other = clients rl !! other) ∧
  rate (Allow Sub Seconds int rl now clientID).1 = rate rl ∧
  burst (Allow Sub Seconds int rl now clientID).1 = burst rl ∧
  (clients rl !! clientID = None → (Allow Sub Seconds int rl now clientID).2 = true).
Proof.
  unfold Allow. destruct (clients rl !! clientID) as [client|] eqn:Hclient.
  - destruct (0 <? _); simpl.
    + split; [eexists; by rewrite lookup_insert_eq|].
      split; [by intros other Hne; rewrite lookup_insert_ne|done].
    + split; [eexists; by rewrite lookup_insert_eq|].
      split; [by intros other Hne; rewrite lookup_insert_ne|done].
  - simpl. split; [eexists; by rewrite lookup_insert_eq|].
    split; [by intros other Hne; rewrite lookup_insert_ne|done].
Qed.

(** X22. With a burst of at least one, whatever the limiter held before,
    a client leaves a call of [Allow] with fewer tokens than the burst; it
    is refused only if it was known, and then with no token left; and an
    allowed client never owes tokens. *)
Theorem tokens_stay_below_burst rl now clientID :
  1 ≤ burst rl ≤ GoInt.maxInt →
  ∃ client,
    clients (Allow Sub Seconds int rl now clientID).1 !! clientID = Some client ∧
    tokens client ≤ burst rl - 1 ∧
    ((Allow Sub Seconds int rl now clientID).2 = false →
       is_Some (clients rl !! clientID) ∧ tokens client ≤ 0) ∧
    ((Allow Sub Seconds int rl now clientID).2 = true → 0 ≤ tokens client).
Proof.
  intros Hburst. unfold Allow.
  destruct (clients rl !! clientID) as [client|] eqn:Hclient.
  - set (t := min _ _). pose proof (min_le
      (GoInt.wrap64 (tokens client + tokensToAdd Seconds int rl
                                       (Sub now (lastSeen client)))) (burst rl))
      as [_ Hle]. fold t in Hle.
    destruct (Z.ltb_spec 0 t) as [Hpos|Hneg]; simpl.
    + eexists. rewrite lookup_insert_eq. split; [done|]. simpl.
      rewrite GoIntFacts.wrap64_id
        by (unfold GoInt.minInt, GoInt.maxInt in *; lia).
      split; [lia|]. split; [done|]. lia.
    + eexists. rewrite lookup_insert_eq. split; [done|]. simpl.
      split; [lia|]. split; [|done]. intros _. split; [by eexists | lia].
  - simpl. eexists. rewrite lookup_insert_eq. split; [done|]. simpl.
    rewrite GoIntFacts.wrap64_id
      by (unfold GoInt.minInt, GoInt.maxInt in *; lia).
    split; [lia|]. split; [done|]. lia.
Qed.

Lemma requests_same_instant rl now clientID (t : Z) (n : nat) :
  1 ≤ burst rl ≤ GoInt.maxInt →
  tokensToAdd Seconds int rl (Sub now now) = 0 →
  0 ≤ t < burst rl →
  clients rl !! clientID = Some {| tokens := t; lastSeen := now |} →
  (requests Sub Seconds int rl now clientID n).2 =
    (replicate (Nat.min n (Z.to_nat t)) true
     ++ replicate (n - Z.to_nat t) false)%list.
Proof.
  intros Hburst Hadd. revert rl t Hburst Hadd.
  induction n as [|n IH]; intros rl t Hburst Hadd Ht Hclient; [done|].
  simpl requests. unfold Allow. rewrite Hclient. simpl lastSeen. simpl tokens.
  rewrite Hadd, Z.add_0_r.
  rewrite GoIntFacts.wrap64_id by (unfold GoInt.minInt, GoInt.maxInt in *; lia).
  assert (min t (burst rl) = t) as -> by (unfold min; destruct (Z.ltb_spec t (burst rl)); lia).
  destruct (Z.ltb_spec 0 t) as [Hpos|Hzero].
  - rewrite GoIntFacts.wrap64_id by (unfold GoInt.minInt, GoInt.maxInt in *; lia).
    match goal with |- context [requests _ _ _ ?r _ _ n] => set (rl' := r) end.
    specialize (IH rl' (t - 1)).
    destruct (requests Sub Seconds int rl' now clientID n) as [rl'' oks].
    simpl in *. rewrite IH; [|done|done|lia|by rewrite lookup_insert_eq].
    replace (Z.to_nat t) with (S (Z.to_nat (t - 1))) by lia.
    simpl. done.
  - match goal with |- context [requests _ _ _ ?r _ _ n] => set (rl' := r) end.
    specialize (IH rl' t).
    destruct (requests Sub Seconds int rl' now clientID n) as [rl'' oks].
    simpl in *. rewrite IH; [|done|done|lia|by rewrite lookup_insert_eq].
    replace (Z.to_nat t) with 0%nat by lia.
    rewrite Nat.min_0_r, Nat.sub_0_r. simpl. done.
Qed.

(** X23. When no time passes between the calls (and no time adds no
    token), a client the limiter does not know is let through exactly
    [burst] times in a row, and is refused from then on. *)
Theorem burst_then_refusal rl now clientID (n : nat) :
  1 ≤ burst rl ≤ GoInt.maxInt →
  tokensToAdd Seconds int rl (Sub now now) = 0 →
  clients rl !! clientID = None →
  (requests Sub Seconds int rl now clientID n).2 =
    (replicate (Nat.min n (Z.to_nat (burst rl))) true
     ++ replicate (n - Z.to_nat (burst rl)) false)%list.
Proof.
  intros Hburst Hadd Hnew. destruct n as [|n]; [done|].
  simpl requests. unfold Allow. rewrite Hnew.
  rewrite GoIntFacts.wrap64_id by (unfold GoInt.minInt, GoInt.maxInt in *; lia).
  match goal with |- context [requests _ _ _ ?r _ _ n] => set (rl' := r) end.
  pose proof (requests_same_instant rl' now clientID (burst rl - 1) n) as Hrest.
  destruct (requests Sub Seconds int rl' now clientID n) as [rl'' oks].
  simpl in *. rewrite Hrest; [|done|done|lia|by rewrite lookup_insert_eq].
  replace (Z.to_nat (burst rl)) with (S (Z.to_nat (burst rl - 1))) by lia.
  done.
Qed.

(** X24. A tick of [cleanup] forgets exactly the clients last seen more
    than an hour before it and leaves the others as they were; a forgotten
    client is let through at its next call, whatever tokens it had. *)
Theorem forgotten_client_starts_afresh rl tick now clientID client :
  clients rl !! clientID = Some client →
  (DurationHour < Sub tick (lastSeen client) →
     clients (cleanup Sub rl tick) !! clientID = None ∧
     (Allow Sub Seconds int (cleanup Sub rl tick) now clientID).2 = true) ∧
  (Sub tick (lastSeen client) ≤ DurationHour →
     clients (cleanup Sub rl tick) !! clientID = Some client).
Proof.
  intros Hclient. unfold cleanup. split.
  - intros Hold.
    assert (filter (λ kv : string * Client,
                      ¬ (DurationHour < Sub tick (lastSeen kv.2)))
              (clients rl) !! clientID = None) as Hgone.
    { apply map_lookup_filter_None. right. intros c Hc.
      rewrite Hclient in Hc. injection Hc as <-. simpl. tauto. }
    split; [done|]. unfold Allow. simpl clients. by rewrite Hgone.
  - intros Hrecent. simpl. apply map_lookup_filter_Some. split; [done|].
    simpl. lia.
Qed.

End Facts.

Import MoreSamples.

Lemma tokens_stay_below_burst_witness :
  ∃ client,
    clients (Allow sub seconds truncate installed 0 "10.0.0.1").1 !! "10.0.0.1"
      = Some client ∧
    tokens client ≤ burst installed - 1 ∧
    ((Allow sub seconds truncate installed 0 "10.0.0.1").2 = false →
       is_Some (clients installed !! "10.0.0.1") ∧ tokens client ≤ 0) ∧
    ((Allow sub seconds truncate installed 0 "10.0.0.1").2 = true →
       0 ≤ tokens client).
Proof.
  apply (tokens_stay_below_burst sub seconds truncate installed 0 "10.0.0.1").
  vm_compute. split; discriminate.
Defined.

Lemma burst_then_refusal_witness :
  (requests sub seconds truncate installed 0 "10.0.0.1" 12).2 =
    (replicate (Nat.min 12 (Z.to_nat (burst installed))) true
     ++ replicate (12 - Z.to_nat (burst installed)) false)%list.
Proof.
  apply (burst_then_refusal sub seconds truncate installed 0 "10.0.0.1" 12).
  - vm_compute. split; discriminate.
  - vm_compute. reflexivity.
  - reflexivity.
Defined.

Lemma forgotten_client_starts_afresh_witness :
  (DurationHour < sub (2 * DurationHour) 0 →
     clients (cleanup sub (Allow sub seconds truncate installed 0 "10.0.0.1").1
                (2 * DurationHour)) !! "10.0.0.1" = None ∧
     (Allow sub seconds truncate
        (cleanup sub (Allow sub seconds truncate installed 0 "10.0.0.1").1
           (2 * DurationHour))
        (2 * DurationHour) "10.0.0.1").2 = true) ∧
  (sub (2 * DurationHour) 0 ≤ DurationHour →
     clients (cleanup sub (Allow sub seconds truncate installed 0 "10.0.0.1").1
                (2 * DurationHour)) !! "10.0.0.1"
       = Some {| tokens := 9; lastSeen := 0 |}).
Proof.
  apply (forgotten_client_starts_afresh sub seconds truncate
           (Allow sub seconds truncate installed 0 "10.0.0.1").1
           (2 * DurationHour) (2 * DurationHour) "10.0.0.1"
           {| tokens := 9; lastSeen := 0 |}).
  vm_compute. reflexivity.
Defined.

End RateLimitFacts.

(** ** The way of a request through the middleware *)

Module MiddlewareFacts.
Import Middleware.

Lemma prefix_length (s1 s2 : string) :
  String.prefix s1 s2 = true → (String.length s1 ≤ String.length s2)%nat.
Proof.
  revert s2. induction s1 as [|a s1 IH]; intros s2 Hprefix; simpl; [lia|].
  destruct s2 as [|b s2]; simpl in Hprefix; [done|].
  destruct (ascii_dec a b); [|done]. apply IH in Hprefix. simpl. lia.
Qed.

Lemma Contains_length (s substr : string) :
  Contains s substr = true → (String.length substr ≤ String.length s)%nat.
Proof.
  induction s as [|a s IH]; intros Hc.
  - change (String.prefix substr "" || false = true) in Hc.
    apply orb_true_iff in Hc as [Hc|Hc]; [|done].
    by apply prefix_length in Hc.
  - change (String.prefix substr (String a s) || Contains s substr = true) in Hc.
    apply orb_true_iff in Hc as [Hc|Hc].
    + by apply prefix_length in Hc.
    + apply IH in Hc. simpl. lia.
Qed.

Section Facts.
Variable Sub : Time → Time → Z.
Variable Seconds : Z → float.
Variable int : float → Z.
Variable ToLower : string → string.

Abbreviation Serve := (serve Sub Seconds int ToLower).
Abbreviation allow := (RateLimit.Allow Sub Seconds int).

Lemma announced_request r : request (announced r) = r.
Proof. unfold announced, CORSMiddleware. simpl. by destruct (decide _), (bool_decide _). Qed.

Lemma announced_aborted r :
  Method r ≠ "OPTIONS" →
  aborted (announced r) = false ∧ written (announced r) = None.
Proof.
  intros Hmethod. unfold announced, CORSMiddleware. simpl.
  destruct (decide _); [done|]. by destruct (bool_decide _).
Qed.

Lemma run_cons h chain s :
  run (h :: chain) s = run chain (if aborted (ctx s) then s else h s).
Proof. done. Qed.

Lemma lift_apply h c rl :
  lift h {| ctx := c; limiter := rl |} = {| ctx := h c; limiter := rl |}.
Proof. done. Qed.

Lemma serve_announced now route r rl :
  Serve now route r rl =
    run [ lift (RequestValidationMiddleware ToLower);
          RateLimitMiddleware Sub Seconds int now;
          lift route ]
      {| ctx := announced r; limiter := rl |}.
Proof. reflexivity. Qed.

Lemma serve_unfold now route r rl :
  Method r ≠ "OPTIONS" →
  Serve now route r rl =
    let c := RequestValidationMiddleware ToLower (announced r) in
    if aborted c then {| ctx := c; limiter := rl |}
    else
      let s := RateLimitMiddleware Sub Seconds int now {| ctx := c; limiter := rl |} in
      if aborted (ctx s) then s else lift route s.
Proof.
  intros Hmethod. rewrite serve_announced, run_cons.
  destruct (announced_aborted r Hmethod) as [Hlive _].
  cbn [ctx]. rewrite Hlive, lift_apply, run_cons. cbn [ctx].
  destruct (aborted (RequestValidationMiddleware ToLower (announced r))) eqn:Hval.
  - rewrite run_cons. cbn [ctx]. rewrite Hval. done.
  - cbv zeta. rewrite run_cons. done.
Qed.

Lemma validation_verdict c :
  aborted c = false →
  (acceptable ToLower (request c) ∧ RequestValidationMiddleware ToLower c = c) ∨
  (¬ acceptable ToLower (request c) ∧
   ∃ status error,
     RequestValidationMiddleware ToLower c = Abort (JSON status [("error", error)] c) ∧
     status ∈ [415; 406; 403]).
Proof.
  intros Hlive. unfold RequestValidationMiddleware, acceptable.
  set (ct := GetHeader (request c) "Content-Type").
  set (ac := GetHeader (request c) "Accept").
  set (ua := GetHeader (request c) "User-Agent").
  destruct (bool_decide _ && negb (Contains ct "application/json")
            && negb (Contains ct "multipart/form-data")) eqn:Htype.
  { right. split; [|do 2 eexists; split; [done|by left]].
    apply andb_true_iff in Htype as [Htype Hmulti].
    apply andb_true_iff in Htype as [Hmethod Hjson].
    apply bool_decide_eq_true in Hmethod.
    apply negb_true_iff in Hjson, Hmulti.
    intros (Hct & _). destruct (Hct Hmethod); congruence. }
  destruct (bool_decide (ac ≠ "") && negb (Contains ac "application/json")
            && negb (Contains ac "*/*")) eqn:Haccept.
  { right. split; [|do 2 eexists; split; [done|right; by left]].
    apply andb_true_iff in Haccept as [Haccept Hany].
    apply andb_true_iff in Haccept as [Hsent Hjson].
    apply bool_decide_eq_true in Hsent.
    apply negb_true_iff in Hjson, Hany.
    intros (_ & Hac & _). destruct (Hac Hsent); congruence. }
  destruct (existsb _ suspiciousPatterns) eqn:Hagent.
  { right. split; [|do 2 eexists; split; [done|right; right; by left]].
    apply existsb_exists in Hagent as (pattern & Hin & Hfound).
    intros (_ & _ & Hua). apply list_elem_of_In in Hin.
    rewrite (Hua pattern Hin) in Hfound. done. }
  left. split; [|done]. split; [|split].
  - intros Hmethod.
    apply andb_false_iff in Htype as [Htype|Hmulti].
    + apply andb_false_iff in Htype as [Hm|Hjson].
      * apply bool_decide_eq_false in Hm. done.
      * left. by apply negb_false_iff in Hjson.
    + right. by apply negb_false_iff in Hmulti.
  - intros Hsent.
    apply andb_false_iff in Haccept as [Haccept|Hany].
    + apply andb_false_iff in Haccept as [Hs|Hjson].
      * apply bool_decide_eq_false in Hs. done.
      * left. by apply negb_false_iff in Hjson.
    + right. by apply negb_false_iff in Hany.
  - intros pattern Hin. apply list_elem_of_In in Hin.
    destruct (Contains (ToLower ua) pattern) eqn:Hfound; [|done].
    assert (existsb (λ pattern, Contains (ToLower ua) pattern) suspiciousPatterns = true)
      as Hyes by (apply existsb_exists; eauto).
    congruence.
Qed.

(** X25. A preflight request is answered by the CORS middleware with
    204 and no body, whatever else it carries: the validation, the limiter
    and the route do not run, so it costs no token, and it has the security
    headers and, for a listed origin only, the origin it may use. *)
Theorem preflight_stops_at_cors now route r rl :
  Method r = "OPTIONS" →
  ∃ c, (∀ other, Serve now other r rl = {| ctx := c; limiter := rl |}) ∧
       Serve now route r rl = {| ctx := c; limiter := rl |} ∧
       written c = Some (204, []) ∧ aborted c = true ∧
       WriterHeader c !! "X-Frame-Options" = Some "DENY" ∧
       WriterHeader c !! "Access-Control-Allow-Origin" =
         (if bool_decide (GetHeader r "Origin" ∈ allowedOrigins)
          then Some (GetHeader r "Origin") else None).
Proof.
  intros Hmethod. exists (announced r).
  assert (aborted (announced r) = true ∧ written (announced r) = Some (204, []))
    as [Haborted Hwritten].
  { unfold announced, CORSMiddleware. simpl. rewrite Hmethod.
    destruct (decide _); [|done]. by destruct (bool_decide _). }
  assert (∀ other, Serve now other r rl = {| ctx := announced r; limiter := rl |})
    as Hany.
  { intros other. rewrite serve_announced.
    do 3 (rewrite run_cons; cbn [ctx]; rewrite Haborted). done. }
  split; [done|]. split; [apply Hany|]. split; [done|]. split; [done|].
  unfold announced, CORSMiddleware. simpl. rewrite Hmethod.
  destruct (decide _); [|done].
  destruct (bool_decide _); simpl; split; reflexivity.
Qed.

(** X26. A request the validation refuses is answered with 415, 406 or
    403 and an error, and never reaches the limiter: it costs its sender no
    token, and the route does not run. *)
Theorem refused_before_the_limiter now route r rl :
  Method r ≠ "OPTIONS" →
  ¬ acceptable ToLower r →
  ∃ status error,
    written (ctx (Serve now route r rl)) = Some (status, [("error", error)]) ∧
    status ∈ [415; 406; 403] ∧
    aborted (ctx (Serve now route r rl)) = true ∧
    limiter (Serve now route r rl) = rl ∧
    ∀ other, Serve now other r rl = Serve now route r rl.
Proof.
  intros Hmethod Hbad.
  destruct (announced_aborted r Hmethod) as [Hlive _].
  destruct (validation_verdict (announced r) Hlive)
    as [[Hok _]|(_ & status & error & Hrefused & Hstatus)].
  { rewrite announced_request in Hok. done. }
  assert (∀ other, Serve now other r rl =
            {| ctx := Abort (JSON status [("error", error)] (announced r));
               limiter := rl |}) as Hany.
  { intros other. rewrite serve_unfold by done. cbv zeta.
    rewrite Hrefused. done. }
  exists status, error. rewrite !Hany. cbn [ctx limiter].
  split; [done|]. split; [done|]. split; [done|]. split; [done|].
  intros other. apply Hany.
Qed.

(** X27. A request the validation accepts meets the limiter exactly
    once, under the address of its client: allowed, it goes on to the route
    with nothing written yet; refused, it is answered 429 and the route does
    not run. Either way the limiter has counted it. *)
Theorem accepted_requests_meet_the_limiter now route r rl :
  Method r ≠ "OPTIONS" →
  acceptable ToLower r →
  limiter (Serve now route r rl) = (allow rl now (ClientIP r)).1 ∧
  ((allow rl now (ClientIP r)).2 = true →
     ctx (Serve now route r rl) = route (announced r) ∧
     written (announced r) = None) ∧
  ((allow rl now (ClientIP r)).2 = false →
     written (ctx (Serve now route r rl))
       = Some (429, [("error", "Rate limit exceeded"); ("retry_after", "60s")]) ∧
     aborted (ctx (Serve now route r rl)) = true).
Proof.
  intros Hmethod Hok. rewrite serve_unfold by done. cbv zeta.
  destruct (announced_aborted r Hmethod) as [Hlive Hnone].
  destruct (validation_verdict (announced r) Hlive)
    as [[_ ->]|[Hbad _]]; [|by rewrite announced_request in Hbad].
  rewrite Hlive. unfold RateLimitMiddleware. simpl ctx. simpl limiter.
  rewrite announced_request.
  destruct (allow rl now (ClientIP r)) as [rl' [|]]; simpl.
  - rewrite Hlive. simpl. done.
  - done.
Qed.

End Facts.

Section Create.
Variable ToLower : string → string.
Variable ObjectIDFromHex : string → bool.

(** X28. A request to create a simulation whose Content-Type is shorter
    than the 19 bytes of [multipart/form-data] never reaches the reading of
    its body: if the validation lets it through it is a JSON request, and
    the handler panics on the slice [contentType[:19]]. The plain
    [application/json] is such a Content-Type. *)
Theorem short_content_type_panics r projectID userID :
  Method r = "POST" →
  aborted (RequestValidationMiddleware ToLower (fresh r)) = false →
  (String.length (GetHeader r "Content-Type") < 19)%nat →
  ObjectIDFromHex projectID = true →
  ObjectIDFromHex userID = true →
  Contains (GetHeader r "Content-Type") "application/json" = true ∧
  Simulations.CreateSimulationHandler ObjectIDFromHex projectID userID
    (GetHeader r "Content-Type") = Simulations.Panics.
Proof.
  intros Hmethod Hpassed Hshort Hproject Huser.
  destruct (validation_verdict ToLower (fresh r) eq_refl)
    as [[(Hct & _) _]|(_ & status & error & Heq & _)];
    [|by rewrite Heq in Hpassed].
  simpl in Hct. destruct (Hct (or_introl Hmethod)) as [Hjson|Hmulti].
  - split; [done|].
    unfold Simulations.CreateSimulationHandler. rewrite Hproject, Huser. simpl.
    destruct (decide (GetHeader r "Content-Type" ≠ "")) as [_|Hempty].
    + unfold Simulations.slice_to.
      destruct (Nat.leb_spec 19 (String.length (GetHeader r "Content-Type")));
        [lia | done].
    + apply dec_stable in Hempty. rewrite Hempty in Hjson. done.
  - apply Contains_length in Hmulti. simpl in Hmulti. lia.
Qed.

End Create.

Import MoreSamples.

Lemma preflight_stops_at_cors_witness :
  ∃ c, (∀ other, serve sub seconds truncate lower 0 other preflight installed
                   = {| ctx := c; limiter := installed |}) ∧
       serve sub seconds truncate lower 0 (JSON 200 []) preflight installed
         = {| ctx := c; limiter := installed |} ∧
       written c = Some (204, []) ∧ aborted c = true ∧
       WriterHeader c !! "X-Frame-Options" = Some "DENY" ∧
       WriterHeader c !! "Access-Control-Allow-Origin" =
         (if bool_decide (GetHeader preflight "Origin" ∈ allowedOrigins)
          then Some (GetHeader preflight "Origin") else None).
Proof.
  apply (preflight_stops_at_cors sub seconds truncate lower 0 (JSON 200 [])
           preflight installed).
  reflexivity.
Defined.

Lemma refused_before_the_limiter_witness :
  ∃ status error,
    written (ctx (serve sub seconds truncate lower 0 (JSON 200 []) scan installed))
      = Some (status, [("error", error)]) ∧
    status ∈ [415; 406; 403] ∧
    aborted (ctx (serve sub seconds truncate lower 0 (JSON 200 []) scan installed))
      = true ∧
    limiter (serve sub seconds truncate lower 0 (JSON 200 []) scan installed)
      = installed ∧
    ∀ other, serve sub seconds truncate lower 0 other scan installed
             = serve sub seconds truncate lower 0 (JSON 200 []) scan installed.
Proof.
  apply (refused_before_the_limiter sub seconds truncate lower 0 (JSON 200 [])
           scan installed).
  - discriminate.
  - intros (_ & _ & Hua). specialize (Hua "nikto").
    vm_compute in Hua. discriminate Hua. do 2 right. left.
Defined.

Lemma accepted_requests_meet_the_limiter_witness :
  limiter (serve sub seconds truncate lower 0 (JSON 200 []) create installed)
    = (RateLimit.Allow sub seconds truncate installed 0 (ClientIP create)).1 ∧
  ((RateLimit.Allow sub seconds truncate installed 0 (ClientIP create)).2 = true →
     ctx (serve sub seconds truncate lower 0 (JSON 200 []) create installed)
       = JSON 200 [] (announced create) ∧
     written (announced create) = None) ∧
  ((RateLimit.Allow sub seconds truncate installed 0 (ClientIP create)).2 = false →
     written (ctx (serve sub seconds truncate lower 0 (JSON 200 []) create installed))
       = Some (429, [("error", "Rate limit exceeded"); ("retry_after", "60s")]) ∧
     aborted (ctx (serve sub seconds truncate lower 0 (JSON 200 []) create installed))
       = true).
Proof.
  apply (accepted_requests_meet_the_limiter sub seconds truncate lower 0
           (JSON 200 []) create installed).
  - discriminate.
  - split; [|split].
    + intros _. left. reflexivity.
    + intros _. left. reflexivity.
    + intros pattern Hin.
      repeat (apply elem_of_cons in Hin as [->|Hin]; [reflexivity|]).
      by apply not_elem_of_nil in Hin.
Defined.

Lemma short_content_type_panics_witness :
  Contains (GetHeader create "Content-Type") "application/json" = true ∧
  Simulations.CreateSimulationHandler hex24
    "0123456789abcdef01234567" "89abcdef0123456789abcdef"
    (GetHeader create "Content-Type") = Simulations.Panics.
Proof.
  apply (short_content_type_panics lower hex24 create).
  - reflexivity.
  - reflexivity.
  - vm_compute. lia.
  - reflexivity.
  - reflexivity.
Defined.

End MiddlewareFacts.
